(** * The configuration mutation resolvers of internal/api

    A shallow embedding of [internal/api/resolver_mutation_configure.go]:
    the GraphQL mutation handlers that validate a partial settings update,
    apply it to the process-wide configuration store, write the store to
    disk and refresh the subsystems that depend on the changed settings.

    The handlers are sequential Go code with early returns, local flags, a
    local [localConfig] map and calls into the store, the file system and
    the manager.  They are embedded in a state monad with early exit: the
    state holds the store, the handler's locals and the ordered log of the
    calls the handler made on its collaborators. *)

From Stdlib Require Import ZArith String Ascii Bool.
From Stdlib Require Import Floats.SpecFloat.
From stdpp Require Import gmap strings list fin_maps.

Open Scope string_scope.
Open Scope list_scope.

(** ** Values carried by the input records and by the store *)

(** Modelled from the spec: the "hashing-algorithm selector", Go's
    [models.HashAlgorithm], of which the handler names the MD5 member. *)
Inductive HashAlgorithm := HashAlgorithmMd5 | HashAlgorithmOshash.

(** Modelled from the spec: the "blob storage backend selector", Go's
    [config.BlobsStorageType], of which the handler names the filesystem
    member. *)
Inductive BlobsStorageType := BlobStorageTypeDatabase | BlobStorageTypeFilesystem.

(** Go's [float64], carried but never computed with by the handlers. *)
Definition float64 := spec_float.

(** One library root of the input ([StashConfigInput]). *)
Record StashConfigInput := {
  Path : string;
  ExcludeVideo : bool;
  ExcludeImage : bool
}.

(** One library root as the store hands it out ([config.StashConfig]). *)
Record StashConfig := {
  StashPath : string;
  StashExcludeVideo : bool;
  StashExcludeImage : bool
}.

Record StashBoxInput := {
  Endpoint : string;
  APIKey : string;
  Name : string
}.

Record PackageSourceInput := {
  SourceName : option string;
  SourceURL : string;
  SourceLocalPath : option string
}.

#[local] Set Warnings "-register-all".

(** A decoded JSON-like value, the shape of [interface{}] inside the
    [map[string]interface{}] blobs of the user interface and of plugins. *)
Inductive JSON :=
| JNull
| JBool (b : bool)
| JNumber (n : Z)
| JString (s : string)
| JArray (l : list JSON)
| JObject (fields : list (string * JSON)).

(** A [map[string]interface{}] blob; keys are kept in an association list
    whose first binding of a key is the live one. *)
Definition JSONMap := list (string * JSON).

(** What an [interface{}] slot of the store or of [localConfig] holds. *)
Inductive Value :=
| VString (s : string)
| VBool (b : bool)
| VInt (n : Z)
| VFloat (f : float64)
| VStrings (l : list string)
| VStashes (l : list StashConfigInput)
| VStashBoxes (l : list StashBoxInput)
| VPackageSources (l : list PackageSourceInput)
| VBlobsStorage (t : BlobsStorageType)
| VHashAlgorithm (a : HashAlgorithm)
| VJSON (j : JSON)
| VMap (m : JSONMap).

(** ** Keys of the configuration document *)

(** Modelled from the spec: the document is "keyed by stable string
    identifiers".  The constants of package [config] that name the keys
    are declared outside the file under study; each stands here for a key
    of its own, spelled as the constant's identifier.  Nothing below
    depends on the spelling, only on distinct constants naming distinct
    keys. *)
Module config.
Definition Stash := "Stash".
Definition Database := "Database".
Definition BackupDirectoryPath := "BackupDirectoryPath".
Definition Generated := "Generated".
Definition ScrapersPath := "ScrapersPath".
Definition PluginsPath := "PluginsPath".
Definition Metadata := "Metadata".
Definition Cache := "Cache".
Definition BlobsPath := "BlobsPath".
Definition BlobsStorage := "BlobsStorage".
Definition FFMpegPath := "FFMpegPath".
Definition FFProbePath := "FFProbePath".
Definition VideoFileNamingAlgorithm := "VideoFileNamingAlgorithm".
Definition CalculateMD5 := "CalculateMD5".
Definition ParallelTasks := "ParallelTasks".
Definition PreviewAudio := "PreviewAudio".
Definition PreviewSegments := "PreviewSegments".
Definition PreviewSegmentDuration := "PreviewSegmentDuration".
Definition PreviewExcludeStart := "PreviewExcludeStart".
Definition PreviewExcludeEnd := "PreviewExcludeEnd".
Definition PreviewPreset := "PreviewPreset".
Definition TranscodeHardwareAcceleration := "TranscodeHardwareAcceleration".
Definition MaxTranscodeSize := "MaxTranscodeSize".
Definition MaxStreamingTranscodeSize := "MaxStreamingTranscodeSize".
Definition WriteImageThumbnails := "WriteImageThumbnails".
Definition CreateImageClipsFromVideos := "CreateImageClipsFromVideos".
Definition GalleryCoverRegex := "GalleryCoverRegex".
Definition Username := "Username".
Definition Password := "Password".
Definition MaxSessionAge := "MaxSessionAge".
Definition LogFile := "LogFile".
Definition LogOut := "LogOut".
Definition LogAccess := "LogAccess".
Definition LogLevel := "LogLevel".
Definition Exclude := "Exclude".
Definition ImageExclude := "ImageExclude".
Definition VideoExtensions := "VideoExtensions".
Definition ImageExtensions := "ImageExtensions".
Definition GalleryExtensions := "GalleryExtensions".
Definition CreateGalleriesFromFolders := "CreateGalleriesFromFolders".
Definition CustomPerformerImageLocation := "CustomPerformerImageLocation".
Definition StashBoxes := "StashBoxes".
Definition PythonPath := "PythonPath".
Definition TranscodeInputArgs := "TranscodeInputArgs".
Definition TranscodeOutputArgs := "TranscodeOutputArgs".
Definition LiveTranscodeInputArgs := "LiveTranscodeInputArgs".
Definition LiveTranscodeOutputArgs := "LiveTranscodeOutputArgs".
Definition DrawFunscriptHeatmapRange := "DrawFunscriptHeatmapRange".
Definition ScraperPackageSources := "ScraperPackageSources".
Definition PluginPackageSources := "PluginPackageSources".
Definition MenuItems := "MenuItems".
Definition SoundOnPreview := "SoundOnPreview".
Definition WallShowTitle := "WallShowTitle".
Definition NoBrowser := "NoBrowser".
Definition NotificationsEnabled := "NotificationsEnabled".
Definition ShowScrubber := "ShowScrubber".
Definition WallPlayback := "WallPlayback".
Definition MaximumLoopDuration := "MaximumLoopDuration".
Definition AutostartVideo := "AutostartVideo".
Definition ShowStudioAsText := "ShowStudioAsText".
Definition AutostartVideoOnPlaySelected := "AutostartVideoOnPlaySelected".
Definition ContinuePlaylistDefault := "ContinuePlaylistDefault".
Definition Language := "Language".
Definition ImageLightboxSlideshowDelay := "ImageLightboxSlideshowDelay".
Definition ImageLightboxDisplayModeKey := "ImageLightboxDisplayModeKey".
Definition ImageLightboxScaleUp := "ImageLightboxScaleUp".
Definition ImageLightboxResetZoomOnNav := "ImageLightboxResetZoomOnNav".
Definition ImageLightboxScrollModeKey := "ImageLightboxScrollModeKey".
Definition ImageLightboxScrollAttemptsBeforeChange :=
  "ImageLightboxScrollAttemptsBeforeChange".
Definition CSSEnabled := "CSSEnabled".
Definition JavascriptEnabled := "JavascriptEnabled".
Definition CustomLocalesEnabled := "CustomLocalesEnabled".
Definition DisableDropdownCreatePerformer := "DisableDropdownCreatePerformer".
Definition DisableDropdownCreateStudio := "DisableDropdownCreateStudio".
Definition DisableDropdownCreateTag := "DisableDropdownCreateTag".
Definition DisableDropdownCreateMovie := "DisableDropdownCreateMovie".
Definition HandyKey := "HandyKey".
Definition FunscriptOffset := "FunscriptOffset".
Definition UseStashHostedFunscript := "UseStashHostedFunscript".
Definition DLNAServerName := "DLNAServerName".
Definition DLNADefaultIPWhitelist := "DLNADefaultIPWhitelist".
Definition DLNAVideoSortOrder := "DLNAVideoSortOrder".
Definition DLNAPort := "DLNAPort".
Definition DLNADefaultEnabled := "DLNADefaultEnabled".
Definition DLNAInterfaces := "DLNAInterfaces".
Definition ScraperUserAgent := "ScraperUserAgent".
Definition ScraperCDPPath := "ScraperCDPPath".
Definition ScraperExcludeTagPatterns := "ScraperExcludeTagPatterns".
Definition ScraperCertCheck := "ScraperCertCheck".
Definition DefaultIdentifySettings := "DefaultIdentifySettings".
Definition DefaultScanSettings := "DefaultScanSettings".
Definition DefaultAutoTagSettings := "DefaultAutoTagSettings".
Definition DefaultGenerateSettings := "DefaultGenerateSettings".
Definition DeleteFileDefault := "DeleteFileDefault".
Definition DeleteGeneratedDefault := "DeleteGeneratedDefault".
Definition ApiKey := "ApiKey".
Definition UI := "UI".
End config.

(** ** Errors

    [ExtError] is the message of an error made by a collaborator (the file
    system, the ffmpeg probe, the scene repository, the store); the other
    constructors are the errors the handlers make themselves, one per
    [fmt.Errorf] / [errors.New] of the file. *)
Definition ExtError := string.

(** The collaborator whose error a handler passes on unchanged. *)
Inductive Origin :=
| FromDirExists
| FromEnsureDir
| FromRepository
| FromStashBoxes
| FromGenerateAPIKey
| FromWrite.

Inductive Error :=
| External (origin : Origin) (e : ExtError)
| ErrOverriddenConfig (key : string)
| ErrInvalidDatabasePath
| ErrBlobsPathRequired
| ErrInvalidFFMpegPath (e : ExtError)
| ErrInvalidFFProbePath (e : ExtError)
| ErrCalculateMD5Required
| ErrGalleryCoverRegex (pattern : string) (e : ExtError)
| ErrVideoExclusionPattern (pattern : string) (e : ExtError)
| ErrImageExclusionPattern (pattern : string) (e : ExtError)
| ErrTagExclusionPattern (pattern : string) (e : ExtError)
| ErrReadOnlyConfig (payload : gmap string Value).

(** The kinds of the error taxonomy. *)
Inductive ErrorKind :=
| OverriddenConfig
| ValidationFailure
| PersistenceFailure
| PersistenceFailureTolerated.

(** ** The configuration store

    [config.GetInstance()] hands every handler the same process-wide
    store.  Its implementation is not part of the file under study. *)

(** Modelled from the spec: the ConfigStore, "the sole mutable source of
    truth for settings: typed getters, typed setters that also update an
    in-memory representation".  [values] is the keyed document; [files]
    holds the custom CSS, Javascript and locales texts, which the store
    keeps beside the document; [plugins] holds one blob per plugin. *)
Record Config := {
  values : gmap string Value;
  files : gmap string string;
  plugins : gmap string JSONMap
}.

Definition setValue (key : string) (v : Value) (c : Config) : Config :=
  {| values := <[key := v]> (values c); files := files c; plugins := plugins c |}.

Definition setFile (name text : string) (c : Config) : Config :=
  {| values := values c; files := <[name := text]> (files c); plugins := plugins c |}.

Definition setPlugin (pluginID : string) (m : JSONMap) (c : Config) : Config :=
  {| values := values c; files := files c; plugins := <[pluginID := m]> (plugins c) |}.

Definition getString (c : Config) (key : string) : string :=
  match values c !! key with Some (VString s) => s | _ => "" end.

Definition getBool (c : Config) (key : string) : bool :=
  match values c !! key with Some (VBool b) => b | _ => false end.

Definition toStashConfig (s : StashConfigInput) : StashConfig :=
  {| StashPath := Path s;
     StashExcludeVideo := ExcludeVideo s;
     StashExcludeImage := ExcludeImage s |}.

Definition GetStashPaths (c : Config) : list StashConfig :=
  match values c !! config.Stash with
  | Some (VStashes l) => map toStashConfig l
  | _ => []
  end.

Definition GetDatabasePath (c : Config) := getString c config.Database.
Definition GetBackupDirectoryPath (c : Config) := getString c config.BackupDirectoryPath.
Definition GetGeneratedPath (c : Config) := getString c config.Generated.
Definition GetScrapersPath (c : Config) := getString c config.ScrapersPath.
Definition GetPluginsPath (c : Config) := getString c config.PluginsPath.
Definition GetMetadataPath (c : Config) := getString c config.Metadata.
Definition GetCachePath (c : Config) := getString c config.Cache.
Definition GetBlobsPath (c : Config) := getString c config.BlobsPath.
Definition GetFFMpegPath (c : Config) := getString c config.FFMpegPath.
Definition GetFFProbePath (c : Config) := getString c config.FFProbePath.
Definition GetUsername (c : Config) := getString c config.Username.
Definition GetPasswordHash (c : Config) := getString c config.Password.
Definition GetLogLevel (c : Config) := getString c config.LogLevel.
Definition IsCalculateMD5 (c : Config) := getBool c config.CalculateMD5.

Definition GetBlobsStorage (c : Config) : BlobsStorageType :=
  match values c !! config.BlobsStorage with
  | Some (VBlobsStorage t) => t
  | _ => BlobStorageTypeDatabase
  end.

Definition GetVideoFileNamingAlgorithm (c : Config) : HashAlgorithm :=
  match values c !! config.VideoFileNamingAlgorithm with
  | Some (VHashAlgorithm a) => a
  | _ => HashAlgorithmOshash
  end.

(** A Go map that was never set is [nil]: [None]. *)
Definition GetUIConfiguration (c : Config) : option JSONMap :=
  match values c !! config.UI with Some (VMap m) => Some m | _ => None end.

Definition GetPluginConfiguration (c : Config) (pluginID : string) : option JSONMap :=
  plugins c !! pluginID.

Definition HashAlgorithm_eqb (a b : HashAlgorithm) : bool :=
  match a, b with
  | HashAlgorithmMd5, HashAlgorithmMd5 | HashAlgorithmOshash, HashAlgorithmOshash => true
  | _, _ => false
  end.

Definition BlobsStorageType_eqb (a b : BlobsStorageType) : bool :=
  match a, b with
  | BlobStorageTypeDatabase, BlobStorageTypeDatabase
  | BlobStorageTypeFilesystem, BlobStorageTypeFilesystem => true
  | _, _ => false
  end.

(** ** The collaborators

    Everything the handlers call outside the store's document: the file
    system, the regular-expression compiler, the ffmpeg probes, the scene
    repository, the override sources and the durable write.  A world fixes
    their answers for one call of a handler. *)
Record World := {
  (** [fsutil.DirExists]: the verdict and the error that goes with it. *)
  DirExists : string -> bool * option ExtError;
  (** [fsutil.EnsureDir]: creates the directory when missing. *)
  EnsureDir : string -> option ExtError;
  (** [regexp.Compile], of which only the error is used. *)
  regexpCompile : string -> option ExtError;
  ValidateFFMpeg : string -> option ExtError;
  ValidateFFProbe : string -> option ExtError;
  (** [manager.ValidateVideoFileNamingAlgorithm] run in a transaction. *)
  ValidateVideoFileNamingAlgorithm : HashAlgorithm -> option ExtError;
  ValidateStashBoxes : list StashBoxInput -> option ExtError;
  (** [c.HasOverride]: the keys locked by a higher-priority source. *)
  HasOverride : string -> bool;
  (** [c.Write]: the commit of the document to durable storage. *)
  Write : Config -> option ExtError;
  GetAllowReadOnlyConfigFile : bool;
  (** [manager.GenerateAPIKey]. *)
  manager_GenerateAPIKey : string -> string * option ExtError;
  (** The hash under which [c.SetPassword] keeps a password. *)
  hashPassword : string -> string;
  (** [utils.NestedMap.Set]: the map with the value put under the key. *)
  nestedSet : JSONMap -> string -> JSON -> JSONMap
}.

(** ** The log of calls

    One event per call a handler makes on a collaborator, in call order. *)
Inductive Event :=
| EvHasOverride (key : string)
| EvDirExists (path : string)
| EvEnsureDir (path : string)
| EvValidateVideoFileNamingAlgorithm (a : HashAlgorithm)
| EvGenerateAPIKey (username : string)
| EvSet (key : string) (v : Value)
| EvSetPassword (password : string)
| EvSetCSS (css : string)
| EvSetJavascript (js : string)
| EvSetCustomLocales (locales : string)
| EvSetUIConfiguration (m : JSONMap)
| EvSetPluginConfiguration (pluginID : string) (m : JSONMap)
| EvInitCustomPerformerImages (location : string)
| EvLogInfo (msg : string)
| EvSetLogLevel (level : string)
| EvWrite (ok : bool)
| EvRefreshConfig
| EvRefreshScraperCache
| EvRefreshPluginCache
| EvRefreshFFMpeg
| EvRefreshStreamManager
| EvSetBlobStoreOptions
| EvRefreshScraperSourceManager
| EvRefreshPluginSourceManager
| EvRefreshDLNA.

(** The refresh hooks among the events. *)
Definition isRefresh (e : Event) : bool :=
  match e with
  | EvRefreshConfig | EvRefreshScraperCache | EvRefreshPluginCache
  | EvRefreshFFMpeg | EvRefreshStreamManager | EvSetBlobStoreOptions
  | EvRefreshScraperSourceManager | EvRefreshPluginSourceManager
  | EvRefreshDLNA => true
  | _ => false
  end.

(** ** The handlers' state *)

(** The boolean locals of the handlers. *)
Inductive Flag :=
| refreshScraperCache
| refreshScraperSource
| refreshPluginCache
| refreshPluginSource
| refreshStreamManager
| refreshBlobStorage
| refreshFfmpeg
| refresh.

Definition Flag_eqb (a b : Flag) : bool :=
  match a, b with
  | refreshScraperCache, refreshScraperCache
  | refreshScraperSource, refreshScraperSource
  | refreshPluginCache, refreshPluginCache
  | refreshPluginSource, refreshPluginSource
  | refreshStreamManager, refreshStreamManager
  | refreshBlobStorage, refreshBlobStorage
  | refreshFfmpeg, refreshFfmpeg
  | refresh, refresh => true
  | _, _ => false
  end.

Record State := {
  cfg : Config;                       (* the shared store *)
  localConfig : gmap string Value;    (* the handler's change set *)
  flags : Flag -> bool;               (* the handler's boolean locals *)
  trace : list Event                  (* calls made so far, oldest first *)
}.

(** A handler starts with an empty change set, unset flags and no call. *)
Definition initState (c : Config) : State :=
  {| cfg := c; localConfig := ∅; flags := fun _ => false; trace := [] |}.

(** ** The monad: state, early return, panic *)

Inductive Outcome (R : Type) :=
| Returned (r : R)     (* a [return] statement was reached *)
| Panicked.            (* a nil pointer was dereferenced *)
Arguments Returned {R} r.
Arguments Panicked {R}.

Inductive Res (R A : Type) :=
| Next (a : A) (s : State)
| Done (o : Outcome R) (s : State).
Arguments Next {R A} a s.
Arguments Done {R A} o s.

Definition M (R A : Type) := State -> Res R A.

Definition ret {R A} (a : A) : M R A := fun s => Next a s.

Definition bind {R A B} (m : M R A) (k : A -> M R B) : M R B :=
  fun s => match m s with
           | Next a s' => k a s'
           | Done o s' => Done o s'
           end.

Declare Scope go_scope.
Delimit Scope go_scope with go.
Notation "x <- m ;; k" := (bind m (fun x => k))
  (at level 100, m at next level, right associativity) : go_scope.
Notation "m ;; k" := (bind m (fun _ => k))
  (at level 100, right associativity) : go_scope.
Open Scope go_scope.

(** Go's [return r]. *)
Definition Return {R A} (r : R) : M R A := fun s => Done (Returned r) s.

(** Go's [*p]: panics on a nil pointer. *)
Definition deref {R A} (p : option A) : M R A :=
  fun s => match p with Some a => Next a s | None => Done Panicked s end.

(** A call of a getter through the store pointer. *)
Definition call {R A} (getter : Config -> A) : M R A := fun s => Next (getter (cfg s)) s.

Definition emit {R} (e : Event) : M R unit :=
  fun s => Next tt {| cfg := cfg s; localConfig := localConfig s;
                      flags := flags s; trace := trace s ++ [e] |}.

Definition modifyConfig {R} (f : Config -> Config) : M R unit :=
  fun s => Next tt {| cfg := f (cfg s); localConfig := localConfig s;
                      flags := flags s; trace := trace s |}.

(** [localConfig[key] = v]. *)
Definition setLocal {R} (key : string) (v : Value) : M R unit :=
  fun s => Next tt {| cfg := cfg s; localConfig := <[key := v]> (localConfig s);
                      flags := flags s; trace := trace s |}.

Definition getLocalConfig {R} : M R (gmap string Value) := fun s => Next (localConfig s) s.

Definition setFlag {R} (f : Flag) (b : bool) : M R unit :=
  fun s => Next tt {| cfg := cfg s; localConfig := localConfig s;
                      flags := fun g => if Flag_eqb g f then b else flags s g;
                      trace := trace s |}.

Definition getFlag {R} (f : Flag) : M R bool := fun s => Next (flags s f) s.

Definition when {R} (b : bool) (m : M R unit) : M R unit := if b then m else ret tt.

(** The run of a handler: its body never falls off its end, so the type of
    what it would yield is empty. *)
Definition exec {R} (m : M R Empty_set) (s : State) : Outcome R * State :=
  match m s with
  | Next a _ => match a with end
  | Done o s' => (o, s')
  end.

(** Go's [for _, x := range l]. *)
Fixpoint forEach {R A} (l : list A) (body : A -> M R unit) : M R unit :=
  match l with
  | [] => ret tt
  | x :: rest => body x ;; forEach rest body
  end.

(** [filepath.Ext] (with [/] as the path separator): the suffix that
    starts at the last dot of the last element of the path, or the empty
    string when that element has no dot. *)
Definition isDot (c : ascii) : bool := Ascii.eqb c ".".
Definition isPathSeparator (c : ascii) : bool := Ascii.eqb c "/".

Fixpoint hasDotOrSeparator (s : string) : bool :=
  match s with
  | EmptyString => false
  | String c rest => isDot c || isPathSeparator c || hasDotOrSeparator rest
  end.

Fixpoint Ext (path : string) : string :=
  match path with
  | EmptyString => ""
  | String c rest =>
      if hasDotOrSeparator rest then Ext rest
      else if isDot c then path
      else ""
  end.

(** ** Nested maps (package [utils], outside the file under study) *)

Fixpoint assocGet (key : string) (m : JSONMap) : option JSON :=
  match m with
  | [] => None
  | (k, v) :: rest => if String.eqb k key then Some v else assocGet key rest
  end.

Fixpoint assocSet (key : string) (v : JSON) (m : JSONMap) : JSONMap :=
  match m with
  | [] => [(key, v)]
  | (k, old) :: rest =>
      if String.eqb k key then (k, v) :: rest else (k, old) :: assocSet key v rest
  end.

(** Modelled from the spec: [utils.MergeMaps], "a recursive merge of a
    partial blob into the existing one (merge must preserve keys not
    present in the partial and overwrite only keys that are present,
    recursing into nested mappings)". *)
Fixpoint mergeJSON (src dest : JSON) {struct src} : JSON :=
  match src, dest with
  | JObject srcFields, JObject destFields =>
      JObject
        ((fix mergeFields (fields : list (string * JSON)) (into : JSONMap) {struct fields}
            : JSONMap :=
            match fields with
            | [] => into
            | (k, v) :: rest =>
                mergeFields rest
                  (assocSet k
                     (match assocGet k into with
                      | Some old => mergeJSON v old
                      | None => v
                      end) into)
            end) srcFields destFields)
  | _, _ => src
  end.

Definition MergeMaps (dest src : JSONMap) : JSONMap :=
  match mergeJSON (JObject src) (JObject dest) with
  | JObject merged => merged
  | _ => dest
  end.

(** ** Result records

    The [makeConfig...Result] functions live in another file. *)

(** Modelled from the spec: the result record, "the materialized,
    group-scoped view of the ConfigurationDocument returned to the caller";
    the view is taken from the store at the moment of the call. *)
Record ConfigGeneralResult := { generalView : Config }.
Record ConfigInterfaceResult := { interfaceView : Config }.
Record ConfigDLNAResult := { dlnaView : Config }.
Record ConfigScrapingResult := { scrapingView : Config }.
Record ConfigDefaultSettingsResult := { defaultsView : Config }.

(** ** Input records *)

(** Modelled from the spec: "a partial update record where every field is
    independently optional (absent = leave unchanged)".  The records are
    generated from the GraphQL schema, outside the file under study; the
    fields are those the handlers read, under their names.  A pointer
    field is an [option]; a slice is an [option] of a list, [None] being
    the nil slice. *)

Definition StreamingResolutionEnum := string.

Record ConfigGeneralInput := {
  Stashes : option (list StashConfigInput);
  DatabasePath : option string;
  BackupDirectoryPath : option string;
  GeneratedPath : option string;
  ScrapersPath : option string;
  PluginsPath : option string;
  MetadataPath : option string;
  CachePath : option string;
  BlobsPath : option string;
  BlobsStorage : option BlobsStorageType;
  FfmpegPath : option string;
  FfprobePath : option string;
  VideoFileNamingAlgorithm : option HashAlgorithm;
  CalculateMd5 : option bool;
  ParallelTasks : option Z;
  PreviewAudio : option bool;
  PreviewSegments : option Z;
  PreviewSegmentDuration : option float64;
  PreviewExcludeStart : option string;
  PreviewExcludeEnd : option string;
  PreviewPreset : option string;   (* [*PreviewPreset], kept as its [String()] *)
  TranscodeHardwareAcceleration : option bool;
  MaxTranscodeSize : option StreamingResolutionEnum;
  MaxStreamingTranscodeSize : option StreamingResolutionEnum;
  WriteImageThumbnails : option bool;
  CreateImageClipsFromVideos : option bool;
  GalleryCoverRegex : option string;
  Username : option string;
  Password : option string;
  MaxSessionAge : option Z;
  LogFile : option string;
  LogOut : option bool;
  LogAccess : option bool;
  LogLevel : option string;
  Excludes : option (list string);
  ImageExcludes : option (list string);
  VideoExtensions : option (list string);
  ImageExtensions : option (list string);
  GalleryExtensions : option (list string);
  CreateGalleriesFromFolders : option bool;
  CustomPerformerImageLocation : option string;
  StashBoxes : option (list StashBoxInput);
  PythonPath : option string;
  TranscodeInputArgs : option (list string);
  TranscodeOutputArgs : option (list string);
  LiveTranscodeInputArgs : option (list string);
  LiveTranscodeOutputArgs : option (list string);
  DrawFunscriptHeatmapRange : option bool;
  ScraperPackageSources : option (list PackageSourceInput);
  PluginPackageSources : option (list PackageSourceInput)
}.

Record ConfigScrapingInput := {
  ScraperUserAgent : option string;
  ScraperCDPPath : option string;
  ExcludeTagPatterns : option (list string);
  ScraperCertCheck : option bool
}.

Record ConfigDLNAInput := {
  ServerName : option string;
  WhitelistedIPs : option (list string);
  VideoSortOrder : option string;
  Port : option Z;
  Enabled : option bool;
  Interfaces : option (list string)
}.

Record ConfigImageLightboxInput := {
  SlideshowDelay : option Z;
  DisplayMode : option string;
  ScaleUp : option bool;
  ResetZoomOnNav : option bool;
  ScrollMode : option string;
  ScrollAttemptsBeforeChange : option Z
}.

Record ConfigDisableDropdownCreateInput := {
  Performer : option bool;
  Studio : option bool;
  Tag : option bool;
  Movie : option bool
}.

Record ConfigInterfaceInput := {
  MenuItems : option (list string);
  SoundOnPreview : option bool;
  WallShowTitle : option bool;
  NoBrowser : option bool;
  NotificationsEnabled : option bool;
  ShowScrubber : option bool;
  WallPlayback : option string;
  MaximumLoopDuration : option Z;
  AutostartVideo : option bool;
  ShowStudioAsText : option bool;
  AutostartVideoOnPlaySelected : option bool;
  ContinuePlaylistDefault : option bool;
  Language : option string;
  ImageLightbox : option ConfigImageLightboxInput;
  CSS : option string;
  CSSEnabled : option bool;
  Javascript : option string;
  JavascriptEnabled : option bool;
  CustomLocales : option string;
  CustomLocalesEnabled : option bool;
  DisableDropdownCreate : option ConfigDisableDropdownCreateInput;
  HandyKey : option string;
  FunscriptOffset : option Z;
  UseStashHostedFunscript : option bool
}.

(** [ScanMetadataInput] embeds [ScanMetadataOptions] beside the paths. *)
Record ScanMetadataInput := {
  ScanPaths : list string;
  ScanMetadataOptions : JSON
}.

Record ConfigDefaultSettingsInput := {
  Identify : option JSON;
  Scan : option ScanMetadataInput;
  AutoTag : option JSON;
  Generate : option JSON;
  DeleteFile : option bool;
  DeleteGenerated : option bool
}.

Record GenerateAPIKeyInput := { Clear : option bool }.

(** ** Calls on the collaborators *)

Section Handlers.

Variable w : World.

Section Primitives.

Context {R : Type}.

(** The typed setters write the document and are logged. *)
Definition storeSet (key : string) (v : Value) : M R unit :=
  fun s => Next tt {| cfg := setValue key v (cfg s); localConfig := localConfig s;
                      flags := flags s; trace := trace s ++ [EvSet key v] |}.

Definition SetString (key : string) (v : string) : M R unit := storeSet key (VString v).
Definition SetBool (key : string) (v : bool) : M R unit := storeSet key (VBool v).
Definition SetInt (key : string) (v : Z) : M R unit := storeSet key (VInt v).
Definition SetFloat (key : string) (v : float64) : M R unit := storeSet key (VFloat v).
Definition SetInterface (key : string) (v : Value) : M R unit := storeSet key v.

(** [c.SetPassword] keeps the hash of the password. *)
Definition SetPassword (password : string) : M R unit :=
  modifyConfig (setValue config.Password (VString (hashPassword w password))) ;;
  emit (EvSetPassword password).

Definition SetCSS (css : string) : M R unit :=
  modifyConfig (setFile "css" css) ;; emit (EvSetCSS css).

Definition SetJavascript (js : string) : M R unit :=
  modifyConfig (setFile "javascript" js) ;; emit (EvSetJavascript js).

Definition SetCustomLocales (locales : string) : M R unit :=
  modifyConfig (setFile "locales" locales) ;; emit (EvSetCustomLocales locales).

Definition SetUIConfiguration (m : JSONMap) : M R unit :=
  modifyConfig (setValue config.UI (VMap m)) ;; emit (EvSetUIConfiguration m).

Definition SetPluginConfiguration (pluginID : string) (m : JSONMap) : M R unit :=
  modifyConfig (setPlugin pluginID m) ;; emit (EvSetPluginConfiguration pluginID m).

Definition hasOverride (key : string) : M R bool :=
  emit (EvHasOverride key) ;; ret (HasOverride w key).

Definition dirExists (path : string) : M R (bool * option ExtError) :=
  emit (EvDirExists path) ;; ret (DirExists w path).

Definition ensureDir (path : string) : M R (option ExtError) :=
  emit (EvEnsureDir path) ;; ret (EnsureDir w path).

Definition validateVideoFileNamingAlgorithm (a : HashAlgorithm) : M R (option ExtError) :=
  emit (EvValidateVideoFileNamingAlgorithm a) ;;
  ret (ValidateVideoFileNamingAlgorithm w a).

Definition generateAPIKey (username : string) : M R (string * option ExtError) :=
  emit (EvGenerateAPIKey username) ;; ret (manager_GenerateAPIKey w username).

(** [c.Write()]: the verdict depends on the document being written. *)
Definition write : M R (option ExtError) :=
  c <- call (fun c => c) ;;
  emit (EvWrite (bool_decide (Write w c = None))) ;;
  ret (Write w c).

Definition logInfo (msg : string) : M R unit := emit (EvLogInfo msg).

(** *** The [setConfig...] helpers of the resolver *)

Definition setConfigString (key : string) (value : option string) : M R unit :=
  match value with
  | Some v => setLocal key (VString v) ;; SetString key v
  | None => ret tt
  end.

Definition setConfigBool (key : string) (value : option bool) : M R unit :=
  match value with
  | Some v => setLocal key (VBool v) ;; SetBool key v
  | None => ret tt
  end.

Definition setConfigInt (key : string) (value : option Z) : M R unit :=
  match value with
  | Some v => setLocal key (VInt v) ;; SetInt key v
  | None => ret tt
  end.

Definition setConfigFloat (key : string) (value : option float64) : M R unit :=
  match value with
  | Some v => setLocal key (VFloat v) ;; SetFloat key v
  | None => ret tt
  end.

(** [c.SetInterface(key, v); localConfig[key] = v] for a slice field. *)
Definition setConfigInterface {A} (key : string) (inj : A -> Value) (value : option A)
  : M R unit :=
  match value with
  | Some v => SetInterface key (inj v) ;; setLocal key (inj v)
  | None => ret tt
  end.

(** The closure [checkConfigOverride] of [ConfigureGeneral]. *)
Definition checkConfigOverride (key : string) : M R (option Error) :=
  overridden <- hasOverride key ;;
  if overridden then ret (Some (ErrOverriddenConfig key)) else ret None.

(** The closure [validateDir] of [ConfigureGeneral]. *)
Definition validateDir (key value : string) (optional : bool) : M R (option Error) :=
  err <- checkConfigOverride key ;;
  match err with
  | Some e => ret (Some e)
  | None =>
      if negb optional || negb (String.eqb value "") then
        err <- ensureDir value ;;
        match err with
        | Some e => ret (Some (External FromEnsureDir e))
        | None => ret None
        end
      else ret None
  end.

(** The first pattern of the list that does not compile, with the
    compiler's message: what the loops over exclusion patterns look for. *)
Fixpoint firstInvalidPattern (patterns : list string) : option (string * ExtError) :=
  match patterns with
  | [] => None
  | r :: rest =>
      match regexpCompile w r with
      | Some e => Some (r, e)
      | None => firstInvalidPattern rest
      end
  end.

End Primitives.

(** The end shared by the handlers: write the document; on failure hand
    back either the change set rendered as text (when the store puts up
    with a read-only file) or the write error; on success run the
    handler's own last steps.  [returnWith err] is the handler's
    [return <its result>, err]. *)
Definition commit {R} (returnWith : option Error -> M R Empty_set)
    (onSuccess : M R unit) : M R Empty_set :=
  err <- write ;;
  match err with
  | Some e =>
      if GetAllowReadOnlyConfigFile w then
        yaml <- getLocalConfig ;;    (* json.MarshalIndent(localConfig, "", " ") *)
        returnWith (Some (ErrReadOnlyConfig yaml))
      else returnWith (Some (External FromWrite e))
  | None =>
      onSuccess ;;
      returnWith None
  end.

(** ** ConfigureGeneral *)

Definition GeneralR : Type := option ConfigGeneralResult * option Error.

Definition makeConfigGeneralResult {R} : M R ConfigGeneralResult :=
  call (fun c => {| generalView := c |}).

(** [return makeConfigGeneralResult(), err]. *)
Definition returnGeneral {A} (err : option Error) : M GeneralR A :=
  result <- makeConfigGeneralResult ;;
  Return (Some result, err).

(** The inner loop of lines 97-103: is [path] the path of no existing
    library root? *)
Fixpoint isNewPath (existingPaths : list StashConfig) (path : string) : bool :=
  match existingPaths with
  | [] => true
  | p :: rest => if String.eqb (StashPath p) path then false else isNewPath rest path
  end.

(** Lines 93-113. *)
Definition general_Stashes (input : ConfigGeneralInput) : M GeneralR unit :=
  existingPaths <- call GetStashPaths ;;
  match Stashes input with
  | Some stashes =>
      forEach stashes (fun s =>
        (* Only validate existence of new paths *)
        if isNewPath existingPaths (Path s) then
          r <- dirExists (Path s) ;;
          if negb (fst r) then returnGeneral (option_map (External FromDirExists) (snd r))
          else ret tt
        else ret tt) ;;
      SetInterface config.Stash (VStashes stashes) ;;
      setLocal config.Stash (VStashes stashes)
  | None => ret tt
  end.

(** Lines 137-149. *)
Definition general_DatabasePath (input : ConfigGeneralInput) : M GeneralR unit :=
  existingDBPath <- call GetDatabasePath ;;
  match DatabasePath input with
  | Some path =>
      if negb (String.eqb existingDBPath path) then
        err <- checkConfigOverride config.Database ;;
        match err with
        | Some e => returnGeneral (Some e)
        | None =>
            let ext := Ext path in
            if negb (String.eqb ext ".db") && negb (String.eqb ext ".sqlite")
               && negb (String.eqb ext ".sqlite3")
            then returnGeneral (Some ErrInvalidDatabasePath)
            else
              SetString config.Database path ;;
              setLocal config.Database (VString path)
        end
      else ret tt
  | None => ret tt
  end.

(** The shape shared by the directory fields: compare with the stored
    path, validate, set, record, then whatever the field adds. *)
Definition general_dir (existing : Config -> string) (value : option string)
    (key : string) (optional : bool) (andThen : M GeneralR unit) : M GeneralR unit :=
  existingPath <- call existing ;;
  match value with
  | Some path =>
      if negb (String.eqb existingPath path) then
        err <- validateDir key path optional ;;
        match err with
        | Some e => returnGeneral (Some e)
        | None =>
            SetString key path ;;
            setLocal key (VString path) ;;
            andThen
        end
      else ret tt
  | None => ret tt
  end.

(** Lines 151-159. *)
Definition general_BackupDirectoryPath (input : ConfigGeneralInput) : M GeneralR unit :=
  general_dir GetBackupDirectoryPath (BackupDirectoryPath input)
    config.BackupDirectoryPath true (ret tt).

(** Lines 161-169. *)
Definition general_GeneratedPath (input : ConfigGeneralInput) : M GeneralR unit :=
  general_dir GetGeneratedPath (GeneratedPath input) config.Generated false (ret tt).

(** Lines 171-183. *)
Definition general_ScrapersPath (input : ConfigGeneralInput) : M GeneralR unit :=
  setFlag refreshScraperCache false ;;
  setFlag refreshScraperSource false ;;
  general_dir GetScrapersPath (ScrapersPath input) config.ScrapersPath false
    (setFlag refreshScraperCache true ;; setFlag refreshScraperSource true).

(** Lines 185-197. *)
Definition general_PluginsPath (input : ConfigGeneralInput) : M GeneralR unit :=
  setFlag refreshPluginCache false ;;
  setFlag refreshPluginSource false ;;
  general_dir GetPluginsPath (PluginsPath input) config.PluginsPath false
    (setFlag refreshPluginCache true ;; setFlag refreshPluginSource true).

(** Lines 199-207. *)
Definition general_MetadataPath (input : ConfigGeneralInput) : M GeneralR unit :=
  general_dir GetMetadataPath (MetadataPath input) config.Metadata true (ret tt).

(** Lines 209-219. *)
Definition general_CachePath (input : ConfigGeneralInput) : M GeneralR unit :=
  setFlag refreshStreamManager false ;;
  general_dir GetCachePath (CachePath input) config.Cache true
    (setFlag refreshStreamManager true).

(** Lines 221-231. *)
Definition general_BlobsPath (input : ConfigGeneralInput) : M GeneralR unit :=
  setFlag refreshBlobStorage false ;;
  general_dir GetBlobsPath (BlobsPath input) config.BlobsPath true
    (setFlag refreshBlobStorage true).

(** Lines 233-242. *)
Definition general_BlobsStorage (input : ConfigGeneralInput) : M GeneralR unit :=
  match BlobsStorage input with
  | Some storage =>
      current <- call GetBlobsStorage ;;
      if negb (BlobsStorageType_eqb storage current) then
        blobsPath <- call GetBlobsPath ;;
        if BlobsStorageType_eqb storage BlobStorageTypeFilesystem
           && String.eqb blobsPath ""
        then returnGeneral (Some ErrBlobsPathRequired)
        else
          SetInterface config.BlobsStorage (VBlobsStorage storage) ;;
          setLocal config.BlobsStorage (VBlobsStorage storage) ;;
          setFlag refreshBlobStorage true
      else ret tt
  | None => ret tt
  end.

(** Lines 244-255. *)
Definition general_FfmpegPath (input : ConfigGeneralInput) : M GeneralR unit :=
  setFlag refreshFfmpeg false ;;
  match FfmpegPath input with
  | Some path =>
      current <- call GetFFMpegPath ;;
      if negb (String.eqb path current) then
        (if negb (String.eqb path "") then
           match ValidateFFMpeg w path with
           | Some e => returnGeneral (Some (ErrInvalidFFMpegPath e))
           | None => ret tt
           end
         else ret tt) ;;
        SetString config.FFMpegPath path ;;
        setLocal config.FFMpegPath (VString path) ;;
        setFlag refreshFfmpeg true
      else ret tt
  | None => ret tt
  end.

(** Lines 257-267. *)
Definition general_FfprobePath (input : ConfigGeneralInput) : M GeneralR unit :=
  match FfprobePath input with
  | Some path =>
      current <- call GetFFProbePath ;;
      if negb (String.eqb path current) then
        (if negb (String.eqb path "") then
           match ValidateFFProbe w path with
           | Some e => returnGeneral (Some (ErrInvalidFFProbePath e))
           | None => ret tt
           end
         else ret tt) ;;
        SetString config.FFProbePath path ;;
        setLocal config.FFProbePath (VString path) ;;
        setFlag refreshFfmpeg true
      else ret tt
  | None => ret tt
  end.

(** Lines 269-287. *)
Definition general_VideoFileNamingAlgorithm (input : ConfigGeneralInput)
  : M GeneralR unit :=
  match VideoFileNamingAlgorithm input with
  | Some algorithm =>
      current <- call GetVideoFileNamingAlgorithm ;;
      if negb (HashAlgorithm_eqb algorithm current) then
        stored <- call IsCalculateMD5 ;;
        let calculateMD5 :=
          match CalculateMd5 input with Some pending => pending | None => stored end in
        if negb calculateMD5 && HashAlgorithm_eqb algorithm HashAlgorithmMd5
        then returnGeneral (Some ErrCalculateMD5Required)
        else
          (* validate changing VideoFileNamingAlgorithm *)
          err <- validateVideoFileNamingAlgorithm algorithm ;;
          match err with
          | Some e => returnGeneral (Some (External FromRepository e))
          | None =>
              SetInterface config.VideoFileNamingAlgorithm (VHashAlgorithm algorithm) ;;
              setLocal config.VideoFileNamingAlgorithm (VHashAlgorithm algorithm)
          end
      else ret tt
  | None => ret tt
  end.

(** Lines 296-300, 303-307 and 309-313: an enumeration field kept as its
    [String()]. *)
Definition general_enumString (key : string) (value : option string) : M GeneralR unit :=
  match value with
  | Some v => SetString key v ;; setLocal key (VString v)
  | None => ret tt
  end.

(** Lines 317-326. *)
Definition general_GalleryCoverRegex (input : ConfigGeneralInput) : M GeneralR unit :=
  match GalleryCoverRegex input with
  | Some pattern =>
      match regexpCompile w pattern with
      | Some e => returnGeneral (Some (ErrGalleryCoverRegex pattern e))
      | None =>
          SetString config.GalleryCoverRegex pattern ;;
          setLocal config.GalleryCoverRegex (VString pattern)
      end
  | None => ret tt
  end.

(** Lines 328-336.  [*input.Password] is read whether or not the password
    was sent. *)
Definition general_Username (input : ConfigGeneralInput) : M GeneralR unit :=
  match Username input with
  | Some username =>
      current <- call GetUsername ;;
      if negb (String.eqb username current) then
        SetString config.Username username ;;
        setLocal config.Username (VString username) ;;
        password <- deref (Password input) ;;
        if String.eqb password "" then logInfo "Username cleared"
        else logInfo "Username changed"
      else ret tt
  | None => ret tt
  end.

(** Lines 338-353. *)
Definition general_Password (input : ConfigGeneralInput) : M GeneralR unit :=
  match Password input with
  | Some password =>
      (* check if the passed in password is the same as the stored hash *)
      currentPWHash <- call GetPasswordHash ;;
      if negb (String.eqb password currentPWHash) then
        (if String.eqb password "" then logInfo "Password cleared"
         else logInfo "Password changed") ;;
        SetPassword password ;;
        setLocal config.Password (VString password)
      else ret tt
  | None => ret tt
  end.

(** Lines 360-365. *)
Definition general_LogLevel (input : ConfigGeneralInput) : M GeneralR unit :=
  match LogLevel input with
  | Some level =>
      current <- call GetLogLevel ;;
      if negb (String.eqb level current) then
        SetString config.LogLevel level ;;
        setLocal config.LogLevel (VString level) ;;
        emit (EvSetLogLevel level)
      else ret tt
  | None => ret tt
  end.

(** Lines 367-377 and 379-389: every pattern must compile. *)
Definition general_excludes (key : string) (mkErr : string -> ExtError -> Error)
    (patterns : option (list string)) : M GeneralR unit :=
  match patterns with
  | Some l =>
      forEach l (fun r =>
        match regexpCompile w r with
        | Some e => returnGeneral (Some (mkErr r e))
        | None => ret tt
        end) ;;
      SetInterface key (VStrings l) ;;
      setLocal key (VStrings l)
  | None => ret tt
  end.

(** Lines 411-414. *)
Definition general_CustomPerformerImageLocation (input : ConfigGeneralInput)
  : M GeneralR unit :=
  match CustomPerformerImageLocation input with
  | Some location =>
      SetString config.CustomPerformerImageLocation location ;;
      emit (EvInitCustomPerformerImages location)
  | None => ret tt
  end.

(** Lines 416-422. *)
Definition general_StashBoxes (input : ConfigGeneralInput) : M GeneralR unit :=
  match StashBoxes input with
  | Some boxes =>
      match ValidateStashBoxes w boxes with
      | Some e => Return (None, Some (External FromStashBoxes e))
      | None =>
          SetInterface config.StashBoxes (VStashBoxes boxes) ;;
          setLocal config.StashBoxes (VStashBoxes boxes)
      end
  | None => ret tt
  end.

(** Lines 451-456 and 458-463. *)
Definition general_packageSources (key : string) (flag : Flag)
    (sources : option (list PackageSourceInput)) : M GeneralR unit :=
  match sources with
  | Some l =>
      SetInterface key (VPackageSources l) ;;
      setLocal key (VPackageSources l) ;;
      setFlag flag true
  | None => ret tt
  end.

(** Lines 475-499: the refresh hooks, fired by the flags. *)
Definition general_refresh : M GeneralR unit :=
  emit EvRefreshConfig ;;
  f <- getFlag refreshScraperCache ;;
  when f (emit EvRefreshScraperCache) ;;
  f <- getFlag refreshPluginCache ;;
  when f (emit EvRefreshPluginCache) ;;
  f <- getFlag refreshFfmpeg ;;
  when f (emit EvRefreshFFMpeg ;;
          (* refresh stream manager is required since ffmpeg changed *)
          setFlag refreshStreamManager true) ;;
  f <- getFlag refreshStreamManager ;;
  when f (emit EvRefreshStreamManager) ;;
  f <- getFlag refreshBlobStorage ;;
  when f (emit EvSetBlobStoreOptions) ;;
  f <- getFlag refreshScraperSource ;;
  when f (emit EvRefreshScraperSourceManager) ;;
  f <- getFlag refreshPluginSource ;;
  when f (emit EvRefreshPluginSourceManager).

(** Lines 465-501. *)
Definition general_commit : M GeneralR Empty_set :=
  commit returnGeneral general_refresh.

Definition ConfigureGeneral (input : ConfigGeneralInput) : M GeneralR Empty_set :=
  general_Stashes input ;;
  general_DatabasePath input ;;
  general_BackupDirectoryPath input ;;
  general_GeneratedPath input ;;
  general_ScrapersPath input ;;
  general_PluginsPath input ;;
  general_MetadataPath input ;;
  general_CachePath input ;;
  general_BlobsPath input ;;
  general_BlobsStorage input ;;
  general_FfmpegPath input ;;
  general_FfprobePath input ;;
  general_VideoFileNamingAlgorithm input ;;
  setConfigBool config.CalculateMD5 (CalculateMd5 input) ;;
  setConfigInt config.ParallelTasks (ParallelTasks input) ;;
  setConfigBool config.PreviewAudio (PreviewAudio input) ;;
  setConfigInt config.PreviewSegments (PreviewSegments input) ;;
  setConfigFloat config.PreviewSegmentDuration (PreviewSegmentDuration input) ;;
  setConfigString config.PreviewExcludeStart (PreviewExcludeStart input) ;;
  setConfigString config.PreviewExcludeEnd (PreviewExcludeEnd input) ;;
  general_enumString config.PreviewPreset (PreviewPreset input) ;;
  setConfigBool config.TranscodeHardwareAcceleration
    (TranscodeHardwareAcceleration input) ;;
  general_enumString config.MaxTranscodeSize (MaxTranscodeSize input) ;;
  general_enumString config.MaxStreamingTranscodeSize (MaxStreamingTranscodeSize input) ;;
  setConfigBool config.WriteImageThumbnails (WriteImageThumbnails input) ;;
  setConfigBool config.CreateImageClipsFromVideos (CreateImageClipsFromVideos input) ;;
  general_GalleryCoverRegex input ;;
  general_Username input ;;
  general_Password input ;;
  setConfigInt config.MaxSessionAge (MaxSessionAge input) ;;
  setConfigString config.LogFile (LogFile input) ;;
  setConfigBool config.LogOut (LogOut input) ;;
  setConfigBool config.LogAccess (LogAccess input) ;;
  general_LogLevel input ;;
  general_excludes config.Exclude ErrVideoExclusionPattern (Excludes input) ;;
  general_excludes config.ImageExclude ErrImageExclusionPattern (ImageExcludes input) ;;
  setConfigInterface config.VideoExtensions VStrings (VideoExtensions input) ;;
  setConfigInterface config.ImageExtensions VStrings (ImageExtensions input) ;;
  setConfigInterface config.GalleryExtensions VStrings (GalleryExtensions input) ;;
  setConfigBool config.CreateGalleriesFromFolders (CreateGalleriesFromFolders input) ;;
  general_CustomPerformerImageLocation input ;;
  general_StashBoxes input ;;
  match PythonPath input with
  | Some _ => setConfigString config.PythonPath (PythonPath input)
  | None => ret tt
  end ;;
  setConfigInterface config.TranscodeInputArgs VStrings (TranscodeInputArgs input) ;;
  setConfigInterface config.TranscodeOutputArgs VStrings (TranscodeOutputArgs input) ;;
  setConfigInterface config.LiveTranscodeInputArgs VStrings
    (LiveTranscodeInputArgs input) ;;
  setConfigInterface config.LiveTranscodeOutputArgs VStrings
    (LiveTranscodeOutputArgs input) ;;
  setConfigBool config.DrawFunscriptHeatmapRange (DrawFunscriptHeatmapRange input) ;;
  general_packageSources config.ScraperPackageSources refreshScraperSource
    (ScraperPackageSources input) ;;
  general_packageSources config.PluginPackageSources refreshPluginSource
    (PluginPackageSources input) ;;
  general_commit.

(** ** ConfigureInterface *)

Definition InterfaceR : Type := option ConfigInterfaceResult * option Error.

Definition returnInterface {A} (err : option Error) : M InterfaceR A :=
  result <- call (fun c => {| interfaceView := c |}) ;;
  Return (Some result, err).

Definition ConfigureInterface (input : ConfigInterfaceInput) : M InterfaceR Empty_set :=
  setConfigInterface config.MenuItems VStrings (MenuItems input) ;;
  setConfigBool config.SoundOnPreview (SoundOnPreview input) ;;
  setConfigBool config.WallShowTitle (WallShowTitle input) ;;
  setConfigBool config.NoBrowser (NoBrowser input) ;;
  setConfigBool config.NotificationsEnabled (NotificationsEnabled input) ;;
  setConfigBool config.ShowScrubber (ShowScrubber input) ;;
  setConfigString config.WallPlayback (WallPlayback input) ;;
  setConfigInt config.MaximumLoopDuration (MaximumLoopDuration input) ;;
  setConfigBool config.AutostartVideo (AutostartVideo input) ;;
  setConfigBool config.ShowStudioAsText (ShowStudioAsText input) ;;
  setConfigBool config.AutostartVideoOnPlaySelected (AutostartVideoOnPlaySelected input) ;;
  setConfigBool config.ContinuePlaylistDefault (ContinuePlaylistDefault input) ;;
  setConfigString config.Language (Language input) ;;
  match ImageLightbox input with
  | Some options =>
      setConfigInt config.ImageLightboxSlideshowDelay (SlideshowDelay options) ;;
      setConfigString config.ImageLightboxDisplayModeKey (DisplayMode options) ;;
      setConfigBool config.ImageLightboxScaleUp (ScaleUp options) ;;
      setConfigBool config.ImageLightboxResetZoomOnNav (ResetZoomOnNav options) ;;
      setConfigString config.ImageLightboxScrollModeKey (ScrollMode options) ;;
      setConfigInt config.ImageLightboxScrollAttemptsBeforeChange
        (ScrollAttemptsBeforeChange options)
  | None => ret tt
  end ;;
  match CSS input with Some css => SetCSS css | None => ret tt end ;;
  setConfigBool config.CSSEnabled (CSSEnabled input) ;;
  match Javascript input with Some js => SetJavascript js | None => ret tt end ;;
  setConfigBool config.JavascriptEnabled (JavascriptEnabled input) ;;
  match CustomLocales input with
  | Some locales => SetCustomLocales locales
  | None => ret tt
  end ;;
  setConfigBool config.CustomLocalesEnabled (CustomLocalesEnabled input) ;;
  match DisableDropdownCreate input with
  | Some ddc =>
      setConfigBool config.DisableDropdownCreatePerformer (Performer ddc) ;;
      setConfigBool config.DisableDropdownCreateStudio (Studio ddc) ;;
      setConfigBool config.DisableDropdownCreateTag (Tag ddc) ;;
      setConfigBool config.DisableDropdownCreateMovie (Movie ddc)
  | None => ret tt
  end ;;
  setConfigString config.HandyKey (HandyKey input) ;;
  setConfigInt config.FunscriptOffset (FunscriptOffset input) ;;
  setConfigBool config.UseStashHostedFunscript (UseStashHostedFunscript input) ;;
  commit returnInterface (ret tt).

(** ** ConfigureDlna *)

Definition DLNAR : Type := option ConfigDLNAResult * option Error.

Definition returnDLNA {A} (err : option Error) : M DLNAR A :=
  result <- call (fun c => {| dlnaView := c |}) ;;
  Return (Some result, err).

Definition ConfigureDlna (input : ConfigDLNAInput) : M DLNAR Empty_set :=
  setConfigString config.DLNAServerName (ServerName input) ;;
  setConfigInterface config.DLNADefaultIPWhitelist VStrings (WhitelistedIPs input) ;;
  setConfigString config.DLNAVideoSortOrder (VideoSortOrder input) ;;
  setConfigInt config.DLNAPort (Port input) ;;
  setFlag refresh false ;;
  match Enabled input with
  | Some enabled =>
      SetBool config.DLNADefaultEnabled enabled ;;
      setLocal config.DLNADefaultEnabled (VBool enabled) ;;
      setFlag refresh true
  | None => ret tt
  end ;;
  setConfigInterface config.DLNAInterfaces VStrings (Interfaces input) ;;
  commit returnDLNA
    (f <- getFlag refresh ;;
     when f (emit EvRefreshDLNA)).

(** ** ConfigureScraping *)

Definition ScrapingR : Type := option ConfigScrapingResult * option Error.

Definition returnScraping {A} (err : option Error) : M ScrapingR A :=
  result <- call (fun c => {| scrapingView := c |}) ;;
  Return (Some result, err).

(** Lines 634-645. *)
Definition scraping_userAgentAndCDP (input : ConfigScrapingInput) : M ScrapingR unit :=
  setFlag refreshScraperCache false ;;
  match ScraperUserAgent input with
  | Some agent =>
      SetString config.ScraperUserAgent agent ;;
      setLocal config.ScraperUserAgent (VString agent) ;;
      setFlag refreshScraperCache true
  | None => ret tt
  end ;;
  match ScraperCDPPath input with
  | Some path =>
      SetString config.ScraperCDPPath path ;;
      setLocal config.ScraperCDPPath (VString path) ;;
      setFlag refreshScraperCache true
  | None => ret tt
  end.

(** Lines 647-656. *)
Definition scraping_ExcludeTagPatterns (input : ConfigScrapingInput) : M ScrapingR unit :=
  match ExcludeTagPatterns input with
  | Some l =>
      forEach l (fun r =>
        match regexpCompile w r with
        | Some e => returnScraping (Some (ErrTagExclusionPattern r e))
        | None => ret tt
        end) ;;
      SetInterface config.ScraperExcludeTagPatterns (VStrings l) ;;
      setLocal config.ScraperExcludeTagPatterns (VStrings l)
  | None => ret tt
  end.

Definition ConfigureScraping (input : ConfigScrapingInput) : M ScrapingR Empty_set :=
  scraping_userAgentAndCDP input ;;
  scraping_ExcludeTagPatterns input ;;
  setConfigBool config.ScraperCertCheck (ScraperCertCheck input) ;;
  f <- getFlag refreshScraperCache ;;
  when f (emit EvRefreshScraperCache) ;;
  commit returnScraping (ret tt).

(** ** ConfigureDefaults *)

Definition DefaultsR : Type := option ConfigDefaultSettingsResult * option Error.

Definition returnDefaults {A} (err : option Error) : M DefaultsR A :=
  result <- call (fun c => {| defaultsView := c |}) ;;
  Return (Some result, err).

Definition ConfigureDefaults (input : ConfigDefaultSettingsInput) : M DefaultsR Empty_set :=
  setConfigInterface config.DefaultIdentifySettings VJSON (Identify input) ;;
  (* only the embedded options of the scan input are kept *)
  setConfigInterface config.DefaultScanSettings VJSON
    (option_map ScanMetadataOptions (Scan input)) ;;
  setConfigInterface config.DefaultAutoTagSettings VJSON (AutoTag input) ;;
  setConfigInterface config.DefaultGenerateSettings VJSON (Generate input) ;;
  setConfigBool config.DeleteFileDefault (DeleteFile input) ;;
  setConfigBool config.DeleteGeneratedDefault (DeleteGenerated input) ;;
  commit returnDefaults (ret tt).

(** ** GenerateAPIKey *)

Definition APIKeyR : Type := string * option Error.

(** Lines 722-732: the new key, or an early return. *)
Definition apikey_new (input : GenerateAPIKeyInput) : M APIKeyR string :=
  match Clear input with
  | Some true => ret ""
  | _ =>
      username <- call GetUsername ;;
      if negb (String.eqb username "") then
        r <- generateAPIKey username ;;
        match snd r with
        | Some e => Return ("", Some (External FromGenerateAPIKey e))
        | None => ret (fst r)
        end
      else ret ""
  end.

Definition GenerateAPIKey (input : GenerateAPIKeyInput) : M APIKeyR Empty_set :=
  newAPIKey <- apikey_new input ;;
  SetString config.ApiKey newAPIKey ;;
  setLocal config.ApiKey (VString newAPIKey) ;;
  commit (fun err => Return (newAPIKey, err)) (ret tt).

(** ** ConfigureUI, ConfigureUISetting, ConfigurePlugin *)

Definition MapR : Type := option JSONMap * option Error.

Definition returnUI {A} (err : option Error) : M MapR A :=
  current <- call GetUIConfiguration ;;
  Return (current, err).

(** A nil map reads as an empty one. *)
Definition orEmpty (m : option JSONMap) : JSONMap :=
  match m with Some l => l | None => [] end.

Definition ConfigureUI (input partial : option JSONMap) : M MapR Empty_set :=
  match input with
  | Some m =>
      SetUIConfiguration m ;;
      setLocal config.UI (VMap m)
  | None => ret tt
  end ;;
  match partial with
  | Some p =>
      (* merge partial into existing config *)
      existing <- call GetUIConfiguration ;;
      SetUIConfiguration (MergeMaps (orEmpty existing) p)
  | None => ret tt
  end ;;
  commit returnUI (ret tt).

(** The [localConfig] filled by [ConfigureUISetting] is its own local and
    does not reach [ConfigureUI], which starts one afresh. *)
Definition ConfigureUISetting (key : string) (value : JSON) : M MapR Empty_set :=
  existing <- call GetUIConfiguration ;;
  ConfigureUI (Some (nestedSet w (orEmpty existing) key value)) None.

Definition returnPlugin {A} (pluginID : string) (err : option Error) : M MapR A :=
  current <- call (fun c => GetPluginConfiguration c pluginID) ;;
  Return (current, err).

Definition ConfigurePlugin (pluginID : string) (input : JSONMap) : M MapR Empty_set :=
  SetPluginConfiguration pluginID input ;;
  setLocal pluginID (VMap input) ;;
  commit (returnPlugin pluginID) (ret tt).

End Handlers.

(** ** Running a handler *)

Definition outcomeOf {R} (r : Outcome R * State) : Outcome R := fst r.
Definition finalState {R} (r : Outcome R * State) : State := snd r.
Definition callsOf {R} (r : Outcome R * State) : list Event := trace (snd r).

(** The error a finished call hands back, if it returned one. *)
Definition errorOf {A} (o : Outcome (A * option Error)) : option Error :=
  match o with
  | Returned (_, err) => err
  | Panicked => None
  end.

(** The call returned, with a result record and an error. *)
Definition failedWith {A} (o : Outcome (option A * option Error)) (e : Error) : Prop :=
  exists result, o = Returned (Some result, Some e).

Definition kindOf (e : Error) : ErrorKind :=
  match e with
  | ErrOverriddenConfig _ => OverriddenConfig
  | ErrReadOnlyConfig _ => PersistenceFailureTolerated
  | External FromWrite _ => PersistenceFailure
  | _ => ValidationFailure
  end.

(** ** Sample collaborators and inputs *)

(** A world in which only [/media] exists on disk, the only pattern that
    does not compile is an unclosed parenthesis, a stash box needs an
    endpoint, the keys of [overridden] are locked and the write fails when
    [readOnly] is set. *)
Definition sampleWorld (overridden : list string) (readOnly : bool) : World := {|
  DirExists p :=
    if String.eqb p "/media" then (true, None)
    else (false, Some "path does not exist");
  EnsureDir _ := None;
  regexpCompile r := if String.eqb r "(" then Some "missing closing )" else None;
  ValidateFFMpeg _ := None;
  ValidateFFProbe _ := None;
  ValidateVideoFileNamingAlgorithm _ := None;
  ValidateStashBoxes boxes :=
    if forallb (fun b => negb (String.eqb (Endpoint b) "")) boxes then None
    else Some "endpoint cannot be blank";
  HasOverride key := existsb (String.eqb key) overridden;
  Write _ := if readOnly then Some "config file is read-only" else None;
  GetAllowReadOnlyConfigFile := readOnly;
  manager_GenerateAPIKey username := (String.append "key of " username, None);
  hashPassword password := String.append "hash of " password;
  nestedSet m key value := assocSet key value m
|}.

Definition emptyConfig : Config := {| values := ∅; files := ∅; plugins := ∅ |}.

(** A store that already knows the library root [/old] (no longer on
    disk), the database [stash.db] and the user [admin]. *)
Definition sampleConfig : Config := {|
  values :=
    <[config.Stash := VStashes [{| Path := "/old"; ExcludeVideo := false;
                                   ExcludeImage := false |}]]>
    (<[config.Database := VString "stash.db"]>
    (<[config.Username := VString "admin"]> ∅));
  files := ∅;
  plugins := ∅
|}.

(** An input with the listed fields and every other field absent. *)
Definition generalInput
    (stashes : option (list StashConfigInput))
    (databasePath ffmpegPath : option string)
    (algorithm : option HashAlgorithm) (calculateMd5 : option bool)
    (username password : option string)
    (excludes : option (list string))
    (customPerformerImageLocation : option string)
    (stashBoxes : option (list StashBoxInput)) : ConfigGeneralInput := {|
  Stashes := stashes;
  DatabasePath := databasePath;
  BackupDirectoryPath := None;
  GeneratedPath := None;
  ScrapersPath := None;
  PluginsPath := None;
  MetadataPath := None;
  CachePath := None;
  BlobsPath := None;
  BlobsStorage := None;
  FfmpegPath := ffmpegPath;
  FfprobePath := None;
  VideoFileNamingAlgorithm := algorithm;
  CalculateMd5 := calculateMd5;
  ParallelTasks := None;
  PreviewAudio := None;
  PreviewSegments := None;
  PreviewSegmentDuration := None;
  PreviewExcludeStart := None;
  PreviewExcludeEnd := None;
  PreviewPreset := None;
  TranscodeHardwareAcceleration := None;
  MaxTranscodeSize := None;
  MaxStreamingTranscodeSize := None;
  WriteImageThumbnails := None;
  CreateImageClipsFromVideos := None;
  GalleryCoverRegex := None;
  Username := username;
  Password := password;
  MaxSessionAge := None;
  LogFile := None;
  LogOut := None;
  LogAccess := None;
  LogLevel := None;
  Excludes := excludes;
  ImageExcludes := None;
  VideoExtensions := None;
  ImageExtensions := None;
  GalleryExtensions := None;
  CreateGalleriesFromFolders := None;
  CustomPerformerImageLocation := customPerformerImageLocation;
  StashBoxes := stashBoxes;
  PythonPath := None;
  TranscodeInputArgs := None;
  TranscodeOutputArgs := None;
  LiveTranscodeInputArgs := None;
  LiveTranscodeOutputArgs := None;
  DrawFunscriptHeatmapRange := None;
  ScraperPackageSources := None;
  PluginPackageSources := None
|}.

(** Sample calls. *)

(** Only a stash box, and one without an endpoint. *)
Definition inputInvalidStashBox : ConfigGeneralInput :=
  generalInput None None None None None None None None None
    (Some [{| Endpoint := ""; APIKey := "secret"; Name := "box" |}]).

(** A new user name, and no password. *)
Definition inputUsernameOnly : ConfigGeneralInput :=
  generalInput None None None None None (Some "operator") None None None None.

(** Only the location of the custom performer images. *)
Definition inputPerformerImages : ConfigGeneralInput :=
  generalInput None None None None None None None None (Some "/images") None.

(** Only a new user agent for the scrapers. *)
Definition inputUserAgent : ConfigScrapingInput := {|
  ScraperUserAgent := Some "stash/1.0";
  ScraperCDPPath := None;
  ExcludeTagPatterns := None;
  ScraperCertCheck := None
|}.

(** The known root [/old] and the new root [/new], which is not on disk. *)
Definition twoRoots : list StashConfigInput :=
  [ {| Path := "/old"; ExcludeVideo := false; ExcludeImage := false |};
    {| Path := "/new"; ExcludeVideo := false; ExcludeImage := true |} ].

Definition inputTwoRoots : ConfigGeneralInput :=
  generalInput (Some twoRoots) None None None None None None None None None.

(** ** Verdicts of the validation closures

    What [checkConfigOverride] and [validateDir] answer, as functions of
    the collaborators' answers. *)
Definition overrideVerdict (w : World) (key : string) : option Error :=
  if HasOverride w key then Some (ErrOverriddenConfig key) else None.

Definition validateDirVerdict (w : World) (key value : string) (optional : bool)
  : option Error :=
  match overrideVerdict w key with
  | Some e => Some e
  | None =>
      if negb optional || negb (String.eqb value "") then
        option_map (External FromEnsureDir) (EnsureDir w value)
      else None
  end.

(** ** Vocabulary of the properties *)

(** [path] is the path of a library root the store already has. *)
Definition knownPath (c : Config) (path : string) : Prop :=
  exists p, p ∈ GetStashPaths c /\ StashPath p = path.

(** An event is acceptable if, being a look at the disk, it looks at a
    path that is new with regard to [existingPaths]. *)
Definition checksOnlyNew (existingPaths : list StashConfig) (e : Event) : bool :=
  match e with
  | EvDirExists p => isNewPath existingPaths p
  | _ => true
  end.

Definition isDirExists (e : Event) : bool :=
  match e with EvDirExists _ => true | _ => false end.


Definition isWrite (e : Event) : bool :=
  match e with EvWrite _ => true | _ => false end.

(** [e] is a call of a typed setter on [key]. *)
Definition isSetOf (key : string) (e : Event) : bool :=
  match e with
  | EvSet k _ => String.eqb k key
  | _ => false
  end.

(** The keys an external source may lock and [ConfigureGeneral] sets: the
    database path and the seven directory paths. *)
Definition governedKeys : list string :=
  [ config.Database; config.BackupDirectoryPath; config.Generated;
    config.ScrapersPath; config.PluginsPath; config.Metadata; config.Cache;
    config.BlobsPath ].

(** The field of the input that carries the new value of a governed key. *)
Definition pathField (input : ConfigGeneralInput) (key : string) : option string :=
  if String.eqb key config.Database then DatabasePath input
  else if String.eqb key config.BackupDirectoryPath then BackupDirectoryPath input
  else if String.eqb key config.Generated then GeneratedPath input
  else if String.eqb key config.ScrapersPath then ScrapersPath input
  else if String.eqb key config.PluginsPath then PluginsPath input
  else if String.eqb key config.Metadata then MetadataPath input
  else if String.eqb key config.Cache then CachePath input
  else if String.eqb key config.BlobsPath then BlobsPath input
  else None.

(** The input changes a governed key: its field is present and differs
    from the stored path. *)
Definition changesPath (c : Config) (input : ConfigGeneralInput) (key : string) : Prop :=
  exists path, pathField input key = Some path /\ path <> getString c key.

Definition isOverrideCheck (key : string) (e : Event) : bool :=
  match e with
  | EvHasOverride k => String.eqb k key
  | _ => false
  end.




(** The errors with which the library roots or a path field stop a call. *)
Definition abortedByPathField (w : World) (err : option Error) : Prop :=
  (exists path, fst (DirExists w path) = false /\
                err = option_map (External FromDirExists) (snd (DirExists w path))) \/
  (exists key, HasOverride w key = true /\ err = Some (ErrOverriddenConfig key)) \/
  err = Some ErrInvalidDatabasePath \/
  (exists path e, EnsureDir w path = Some e /\ err = Some (External FromEnsureDir e)).

(** A new database path, on a store whose database path is locked. *)
Definition inputDatabasePath : ConfigGeneralInput :=
  generalInput None (Some "other.db") None None None None None None None None.





(** The input changes the path of the ffmpeg or of the ffprobe binary:
    the field is present and differs from the stored path. *)
Definition changesFfmpeg (c : Config) (input : ConfigGeneralInput) : Prop :=
  exists path, FfmpegPath input = Some path /\ path <> GetFFMpegPath c.

Definition changesFfprobe (c : Config) (input : ConfigGeneralInput) : Prop :=
  exists path, FfprobePath input = Some path /\ path <> GetFFProbePath c.

(** The write that succeeded. *)
Definition isWriteOk (e : Event) : bool :=
  match e with EvWrite true => true | _ => false end.

(** The commit, the transcoder refresh and the streaming-manager refresh,
    in this order. *)
Definition commitThenRefreshes : list Event :=
  [EvWrite true; EvRefreshFFMpeg; EvRefreshStreamManager].

(** States of a call that changes a binary path: until the path is set, the
    stored path is the one the call started with and nothing was written;
    from then on the flag [refreshFfmpeg] is up. *)
Definition binaryUntouched (c : Config) (key : string) (s : State) : Prop :=
  values (cfg s) !! key = values c !! key /\
  Forall (fun e => isWriteOk e = false) (trace s).

Definition notWritten (s : State) : Prop :=
  Forall (fun e => isWriteOk e = false) (trace s).

Definition ffmpegFlagged (s : State) : Prop :=
  flags s refreshFfmpeg = true /\
  Forall (fun e => isWriteOk e = false) (trace s).

Definition refreshedExit (o : Outcome GeneralR) (s : State) : Prop :=
  Forall (fun e => isWriteOk e = false) (trace s) \/
  commitThenRefreshes `sublist_of` trace s.

(** Only a new ffmpeg path. *)
Definition inputFfmpegPath : ConfigGeneralInput :=
  generalInput None None (Some "/usr/bin/ffmpeg") None None None None None None None.

(** What [fsutil.DirExists] promises: a path that is not there comes with
    an error. *)
Definition DirExistsContract (w : World) : Prop :=
  forall path, fst (DirExists w path) = false -> snd (DirExists w path) <> None.

Definition isValidateAlgorithm (e : Event) : bool :=
  match e with EvValidateVideoFileNamingAlgorithm _ => true | _ => false end.

(** Neither the setter of the naming algorithm nor its validation against
    the repository. *)
Definition beforeAlgorithm (e : Event) : bool :=
  negb (isSetOf config.VideoFileNamingAlgorithm e) && negb (isValidateAlgorithm e).

(** The errors with which a field processed before the naming algorithm
    stops a call. *)
Definition abortedBeforeAlgorithm (w : World) (err : option Error) : Prop :=
  abortedByPathField w err \/
  err = Some ErrBlobsPathRequired \/
  (exists e, err = Some (ErrInvalidFFMpegPath e)) \/
  (exists e, err = Some (ErrInvalidFFProbePath e)).

(** States and ends of a call that switches the naming algorithm to MD5. *)
Definition algorithmUntouched (c : Config) (s : State) : Prop :=
  values (cfg s) !! config.VideoFileNamingAlgorithm
    = values c !! config.VideoFileNamingAlgorithm /\
  values (cfg s) !! config.CalculateMD5 = values c !! config.CalculateMD5 /\
  Forall (fun e => beforeAlgorithm e = true) (trace s).

Definition algorithmSet (s : State) : Prop :=
  EvValidateVideoFileNamingAlgorithm HashAlgorithmMd5 ∈ trace s /\
  EvSet config.VideoFileNamingAlgorithm (VHashAlgorithm HashAlgorithmMd5) ∈ trace s.

Definition md5Refused (w : World) (o : Outcome GeneralR) (s : State) : Prop :=
  Forall (fun e => beforeAlgorithm e = true) (trace s) /\
  (failedWith o ErrCalculateMD5Required \/
   exists result err, o = Returned (Some result, err) /\ abortedBeforeAlgorithm w err).

Definition md5Accepted (w : World) (o : Outcome GeneralR) (s : State) : Prop :=
  errorOf o <> Some ErrCalculateMD5Required /\
  ((Forall (fun e => beforeAlgorithm e = true) (trace s) /\
    exists result err, o = Returned (Some result, err) /\ abortedBeforeAlgorithm w err) \/
   (EvValidateVideoFileNamingAlgorithm HashAlgorithmMd5 ∈ trace s /\
    (ValidateVideoFileNamingAlgorithm w HashAlgorithmMd5 = None ->
     EvSet config.VideoFileNamingAlgorithm (VHashAlgorithm HashAlgorithmMd5) ∈ trace s))).

(** A switch to MD5 alone, and one that turns the MD5 calculation on in
    the same call. *)
Definition inputMd5 : ConfigGeneralInput :=
  generalInput None None None (Some HashAlgorithmMd5) None None None None None None.

Definition inputMd5WithCalculation : ConfigGeneralInput :=
  generalInput None None None (Some HashAlgorithmMd5) (Some true) None None None None None.











(** Only a video exclusion pattern that does not compile. *)
Definition inputExclude : ConfigGeneralInput :=
  generalInput None None None None None None None (Some ["\.tmp$"; "("]) None None.

(** Only tag exclusion patterns, one of which does not compile. *)
Definition inputTagPatterns : ConfigScrapingInput := {|
  ScraperUserAgent := None;
  ScraperCDPPath := None;
  ExcludeTagPatterns := Some ["^draft"; "("];
  ScraperCertCheck := None
|}.



(** In a log, every refresh hook comes after a write that succeeded. *)
Definition refreshAfterCommit (calls : list Event) : Prop :=
  forall before e after,
    calls = before ++ e :: after -> isRefresh e = true -> EvWrite true ∈ before.

(** A call ended with a nil result only for the reason of line 418: the
    stash boxes of the input did not validate. *)
Definition nilResultFromStashBoxes (w : World) (input : ConfigGeneralInput)
    (o : Outcome GeneralR) : Prop :=
  forall err, o = Returned (None, err) ->
    exists boxes e,
      StashBoxes input = Some boxes /\ ValidateStashBoxes w boxes = Some e /\
      err = Some (External FromStashBoxes e).

(** A call panicked only for the reason of line 331: a user name came
    without a password. *)
Definition panicFromUsername (input : ConfigGeneralInput) (o : Outcome GeneralR) : Prop :=
  o = Panicked -> exists username, Username input = Some username /\ Password input = None.

(** ** Vocabulary of the change set

    What a handler records in its [localConfig], against what the log says
    it set. *)






(** ** Vocabulary of the commit *)

(** The errors made at the write: the write error itself, or the change
    set rendered as text. *)
Definition fromWrite (e : Error) : bool :=
  match kindOf e with
  | PersistenceFailure | PersistenceFailureTolerated => true
  | _ => false
  end.

(** Logs without a write; logs with one write, which succeeded and was
    followed by refresh hooks only; logs that end with the one write,
    which failed. *)
Definition unwrittenLog (calls : list Event) : Prop :=
  Forall (fun e => isWrite e = false) calls.

Definition writtenLog (calls : list Event) : Prop :=
  exists before after,
    calls = before ++ EvWrite true :: after /\
    Forall (fun e => isWrite e = false) before /\
    Forall (fun e => isRefresh e = true) after.

Definition failedLog (calls : list Event) : Prop :=
  exists before,
    calls = before ++ [EvWrite false] /\ Forall (fun e => isWrite e = false) before.

(** The three ends of a call: before the write, with a panic or an error
    that is not made at the write; after the write succeeded, without
    error; at the write that failed, with an error made at the write. *)
Definition commitExit {A} (o : Outcome (A * option Error)) (s : State) : Prop :=
  (unwrittenLog (trace s) /\
   (o = Panicked \/ exists a e, o = Returned (a, Some e) /\ fromWrite e = false)) \/
  (writtenLog (trace s) /\ exists a, o = Returned (a, None)) \/
  (failedLog (trace s) /\ exists a e, o = Returned (a, Some e) /\ fromWrite e = true).

(** ** Vocabulary of the refresh hooks *)

(** The input changes the storage of the blobs: the field is present and
    differs from the stored type. *)
Definition changesBlobsStorage (c : Config) (input : ConfigGeneralInput) : Prop :=
  exists storage, BlobsStorage input = Some storage /\ storage <> GetBlobsStorage c.

(** What in the input makes [ConfigureGeneral] call a refresh hook.  The
    refresh of the configuration needs no cause. *)
Definition hookCause (c : Config) (input : ConfigGeneralInput) (e : Event) : Prop :=
  match e with
  | EvRefreshScraperCache => changesPath c input config.ScrapersPath
  | EvRefreshPluginCache => changesPath c input config.PluginsPath
  | EvRefreshFFMpeg => changesFfmpeg c input \/ changesFfprobe c input
  | EvRefreshStreamManager =>
      changesPath c input config.Cache \/ changesFfmpeg c input \/ changesFfprobe c input
  | EvSetBlobStoreOptions =>
      changesPath c input config.BlobsPath \/ changesBlobsStorage c input
  | EvRefreshScraperSourceManager =>
      changesPath c input config.ScrapersPath \/ ScraperPackageSources input <> None
  | EvRefreshPluginSourceManager =>
      changesPath c input config.PluginsPath \/ PluginPackageSources input <> None
  | EvRefreshDLNA => False
  | _ => True
  end.

(** The states of a call in which nothing has yet made a hook due: the
    [keys] are as stored when the call began, the flags [fl] are down and
    no event of the log is the [hook]. *)
Definition quiet (c : Config) (keys : list string) (fl : list Flag)
    (hook : Event -> bool) (s : State) : Prop :=
  Forall (fun key => values (cfg s) !! key = values c !! key) keys /\
  Forall (fun f => flags s f = false) fl /\
  Forall (fun e => hook e = false) (trace s).

Definition isRefreshScraperCache (e : Event) : bool :=
  match e with EvRefreshScraperCache => true | _ => false end.
Definition isRefreshPluginCache (e : Event) : bool :=
  match e with EvRefreshPluginCache => true | _ => false end.
Definition isRefreshFFMpeg (e : Event) : bool :=
  match e with EvRefreshFFMpeg => true | _ => false end.
Definition isRefreshStreamManager (e : Event) : bool :=
  match e with EvRefreshStreamManager => true | _ => false end.
Definition isSetBlobStoreOptions (e : Event) : bool :=
  match e with EvSetBlobStoreOptions => true | _ => false end.
Definition isRefreshScraperSourceManager (e : Event) : bool :=
  match e with EvRefreshScraperSourceManager => true | _ => false end.
Definition isRefreshPluginSourceManager (e : Event) : bool :=
  match e with EvRefreshPluginSourceManager => true | _ => false end.
Definition isRefreshDLNA (e : Event) : bool :=
  match e with EvRefreshDLNA => true | _ => false end.

(** ** Vocabulary of the fields that are compared with the store *)

(** The override check of [key] or a setter on [key]. *)
Definition touches (key : string) (e : Event) : bool :=
  isSetOf key e || isOverrideCheck key e.

(** The input leaves a governed key as it is: its field is absent or
    equal to the stored path. *)
Definition keepsPath (c : Config) (input : ConfigGeneralInput) (key : string) : Prop :=
  forall path, pathField input key = Some path -> path = getString c key.

(** The end of a call with regard to a key that the input leaves as it is. *)
Definition keptExit (c : Config) (key : string) (o : Outcome GeneralR) (s : State) : Prop :=
  quiet c [key] [] (touches key) s /\ errorOf o <> Some (ErrOverriddenConfig key).

(** ** Inputs without a field *)

Definition emptyGeneralInput : ConfigGeneralInput :=
  generalInput None None None None None None None None None None.

Definition emptyInterfaceInput : ConfigInterfaceInput := {|
  MenuItems := None; SoundOnPreview := None; WallShowTitle := None; NoBrowser := None;
  NotificationsEnabled := None; ShowScrubber := None; WallPlayback := None;
  MaximumLoopDuration := None; AutostartVideo := None; ShowStudioAsText := None;
  AutostartVideoOnPlaySelected := None; ContinuePlaylistDefault := None;
  Language := None; ImageLightbox := None; CSS := None; CSSEnabled := None;
  Javascript := None; JavascriptEnabled := None; CustomLocales := None;
  CustomLocalesEnabled := None; DisableDropdownCreate := None; HandyKey := None;
  FunscriptOffset := None; UseStashHostedFunscript := None
|}.

Definition emptyDLNAInput : ConfigDLNAInput := {|
  ServerName := None; WhitelistedIPs := None; VideoSortOrder := None; Port := None;
  Enabled := None; Interfaces := None
|}.

Definition emptyScrapingInput : ConfigScrapingInput := {|
  ScraperUserAgent := None; ScraperCDPPath := None; ExcludeTagPatterns := None;
  ScraperCertCheck := None
|}.

Definition emptyDefaultsInput : ConfigDefaultSettingsInput := {|
  Identify := None; Scan := None; AutoTag := None; Generate := None;
  DeleteFile := None; DeleteGenerated := None
|}.

(** What a call without a field does: it writes the document as it found
    it, and after a write that succeeded runs [afterCommit]. *)
Definition onlyWrites {A} (w : World) (c : Config) (afterCommit : list Event)
    (r : Outcome (A * option Error) * State) : Prop :=
  cfg (finalState r) = c /\
  match Write w c with
  | None => callsOf r = EvWrite true :: afterCommit /\ errorOf (outcomeOf r) = None
  | Some e =>
      callsOf r = [EvWrite false] /\
      errorOf (outcomeOf r)
      = Some (if GetAllowReadOnlyConfigFile w then ErrReadOnlyConfig ∅
              else External FromWrite e)
  end.

(** ** Vocabulary of the database path *)

(** The extensions with which a database path is accepted (lines 143-146). *)
Definition databaseExtensions : list string := [".db"; ".sqlite"; ".sqlite3"].

(** A setter on the database path is given the path of the input, and the
    extension of that path is one of the three. *)
Definition databaseSetter (input : ConfigGeneralInput) (e : Event) : Prop :=
  match e with
  | EvSet key v =>
      key = config.Database ->
      exists path,
        v = VString path /\ DatabasePath input = Some path /\
        Ext path ∈ databaseExtensions
  | _ => True
  end.

(** ** Vocabulary of the blobs storage *)

(** The blobs path as it is when the storage type is looked at: the one of
    the input if it has one, else the stored one. *)
Definition effectiveBlobsPath (c : Config) (input : ConfigGeneralInput) : string :=
  match BlobsPath input with
  | Some path => path
  | None => GetBlobsPath c
  end.

(** The setter of the storage type, called with the file system. *)
Definition isFilesystemSet (e : Event) : bool :=
  match e with
  | EvSet key (VBlobsStorage BlobStorageTypeFilesystem) => String.eqb key config.BlobsStorage
  | _ => false
  end.

(** The states of a call from the blobs path on, when that path is empty. *)
Definition noBlobsPath (s : State) : Prop :=
  getString (cfg s) config.BlobsPath = "" /\
  Forall (fun e => isFilesystemSet e = false) (trace s).

(** An input with the listed fields of the storage and every other field
    absent. *)
Definition storageInput
    (scrapersPath cachePath blobsPath : option string)
    (blobsStorage : option BlobsStorageType)
    (ffprobePath : option string)
    (scraperPackageSources : option (list PackageSourceInput)) : ConfigGeneralInput := {|
  Stashes := None;
  DatabasePath := None;
  BackupDirectoryPath := None;
  GeneratedPath := None;
  ScrapersPath := scrapersPath;
  PluginsPath := None;
  MetadataPath := None;
  CachePath := cachePath;
  BlobsPath := blobsPath;
  BlobsStorage := blobsStorage;
  FfmpegPath := None;
  FfprobePath := ffprobePath;
  VideoFileNamingAlgorithm := None;
  CalculateMd5 := None;
  ParallelTasks := None;
  PreviewAudio := None;
  PreviewSegments := None;
  PreviewSegmentDuration := None;
  PreviewExcludeStart := None;
  PreviewExcludeEnd := None;
  PreviewPreset := None;
  TranscodeHardwareAcceleration := None;
  MaxTranscodeSize := None;
  MaxStreamingTranscodeSize := None;
  WriteImageThumbnails := None;
  CreateImageClipsFromVideos := None;
  GalleryCoverRegex := None;
  Username := None;
  Password := None;
  MaxSessionAge := None;
  LogFile := None;
  LogOut := None;
  LogAccess := None;
  LogLevel := None;
  Excludes := None;
  ImageExcludes := None;
  VideoExtensions := None;
  ImageExtensions := None;
  GalleryExtensions := None;
  CreateGalleriesFromFolders := None;
  CustomPerformerImageLocation := None;
  StashBoxes := None;
  PythonPath := None;
  TranscodeInputArgs := None;
  TranscodeOutputArgs := None;
  LiveTranscodeInputArgs := None;
  LiveTranscodeOutputArgs := None;
  DrawFunscriptHeatmapRange := None;
  ScraperPackageSources := scraperPackageSources;
  PluginPackageSources := None
|}.

(** Blobs in the file system, under [/blobs]. *)
Definition inputBlobsInFilesystem : ConfigGeneralInput :=
  storageInput None None (Some "/blobs") (Some BlobStorageTypeFilesystem) None None.

(** ** What an error of [ConfigureGeneral] says about the call

    For every error the handler can return: the field of the input and
    the answer of the collaborator that made it. *)
Definition errorCause (w : World) (input : ConfigGeneralInput) (e : Error) : Prop :=
  match e with
  | External FromDirExists e' =>
      exists stashes s,
        Stashes input = Some stashes /\ s ∈ stashes /\
        DirExists w (Path s) = (false, Some e')
  | External FromEnsureDir e' =>
      exists key path,
        pathField input key = Some path /\ HasOverride w key = false /\
        EnsureDir w path = Some e'
  | External FromRepository e' =>
      exists algorithm,
        VideoFileNamingAlgorithm input = Some algorithm /\
        ValidateVideoFileNamingAlgorithm w algorithm = Some e'
  | External FromStashBoxes e' =>
      exists boxes, StashBoxes input = Some boxes /\ ValidateStashBoxes w boxes = Some e'
  | External FromGenerateAPIKey _ => False
  | External FromWrite e' =>
      GetAllowReadOnlyConfigFile w = false /\ exists c', Write w c' = Some e'
  | ErrOverriddenConfig key => HasOverride w key = true /\ pathField input key <> None
  | ErrInvalidDatabasePath =>
      exists path, DatabasePath input = Some path /\ Ext path ∉ databaseExtensions
  | ErrBlobsPathRequired => BlobsStorage input = Some BlobStorageTypeFilesystem
  | ErrInvalidFFMpegPath e' =>
      exists path,
        FfmpegPath input = Some path /\ path <> "" /\ ValidateFFMpeg w path = Some e'
  | ErrInvalidFFProbePath e' =>
      exists path,
        FfprobePath input = Some path /\ path <> "" /\ ValidateFFProbe w path = Some e'
  | ErrCalculateMD5Required =>
      VideoFileNamingAlgorithm input = Some HashAlgorithmMd5 /\
      CalculateMd5 input <> Some true
  | ErrGalleryCoverRegex pattern e' =>
      GalleryCoverRegex input = Some pattern /\ regexpCompile w pattern = Some e'
  | ErrVideoExclusionPattern pattern e' =>
      exists patterns,
        Excludes input = Some patterns /\ pattern ∈ patterns /\
        regexpCompile w pattern = Some e'
  | ErrImageExclusionPattern pattern e' =>
      exists patterns,
        ImageExcludes input = Some patterns /\ pattern ∈ patterns /\
        regexpCompile w pattern = Some e'
  | ErrTagExclusionPattern _ _ => False
  | ErrReadOnlyConfig _ =>
      GetAllowReadOnlyConfigFile w = true /\ exists c', Write w c' <> None
  end.

(** ** The logs of [ConfigureScraping] and [ConfigureDlna] *)

(** The event of the setter of an optional field. *)
Definition setterOf {A} (key : string) (inj : A -> Value) (value : option A) : list Event :=
  match value with
  | Some v => [EvSet key (inj v)]
  | None => []
  end.

Definition present {A} (value : option A) : bool :=
  match value with Some _ => true | None => false end.

(** The tag exclusion patterns of the input, none if the field is absent. *)
Definition tagPatterns (input : ConfigScrapingInput) : list string :=
  match ExcludeTagPatterns input with Some l => l | None => [] end.

(** The setters of [ConfigureScraping], in call order. *)
Definition scrapingSetters (input : ConfigScrapingInput) : list Event :=
  setterOf config.ScraperUserAgent VString (ScraperUserAgent input) ++
  setterOf config.ScraperCDPPath VString (ScraperCDPPath input) ++
  setterOf config.ScraperExcludeTagPatterns VStrings (ExcludeTagPatterns input) ++
  setterOf config.ScraperCertCheck VBool (ScraperCertCheck input).

(** The setters of [ConfigureDlna], in call order. *)
Definition dlnaSetters (input : ConfigDLNAInput) : list Event :=
  setterOf config.DLNAServerName VString (ServerName input) ++
  setterOf config.DLNADefaultIPWhitelist VStrings (WhitelistedIPs input) ++
  setterOf config.DLNAVideoSortOrder VString (VideoSortOrder input) ++
  setterOf config.DLNAPort VInt (Port input) ++
  setterOf config.DLNADefaultEnabled VBool (Enabled input) ++
  setterOf config.DLNAInterfaces VStrings (Interfaces input).

(** ** Vocabulary of the validations *)

(** The directory keys, with whether an empty path is taken as it is
    (the [optional] of [validateDir]). *)
Definition directoryOptional (key : string) : option bool :=
  if String.eqb key config.BackupDirectoryPath then Some true
  else if String.eqb key config.Generated then Some false
  else if String.eqb key config.ScrapersPath then Some false
  else if String.eqb key config.PluginsPath then Some false
  else if String.eqb key config.Metadata then Some true
  else if String.eqb key config.Cache then Some true
  else if String.eqb key config.BlobsPath then Some true
  else None.

(** [validateDir] has let the path through: the key is not locked, and
    the directory is there (or was created) unless an empty path was
    taken as it is. *)
Definition dirAccepted (w : World) (key path : string) (optional : bool) : Prop :=
  HasOverride w key = false /\
  ((optional = true /\ path = "") \/ EnsureDir w path = None).

(** What the value given to a setter has passed, by key.  The library
    roots and the storage type of the blobs have statements of their own;
    the other keys take any value. *)
Definition setterValidated (w : World) (key : string) (v : Value) : Prop :=
  if String.eqb key config.Database then
    HasOverride w key = false /\
    exists path, v = VString path /\ Ext path ∈ databaseExtensions
  else
    match directoryOptional key with
    | Some optional => exists path, v = VString path /\ dirAccepted w key path optional
    | None =>
        if String.eqb key config.FFMpegPath then
          exists path, v = VString path /\ (path = "" \/ ValidateFFMpeg w path = None)
        else if String.eqb key config.FFProbePath then
          exists path, v = VString path /\ (path = "" \/ ValidateFFProbe w path = None)
        else if String.eqb key config.VideoFileNamingAlgorithm then
          exists algorithm,
            v = VHashAlgorithm algorithm /\
            ValidateVideoFileNamingAlgorithm w algorithm = None
        else if String.eqb key config.GalleryCoverRegex then
          exists pattern, v = VString pattern /\ regexpCompile w pattern = None
        else if String.eqb key config.Exclude || String.eqb key config.ImageExclude then
          exists patterns,
            v = VStrings patterns /\ Forall (fun r => regexpCompile w r = None) patterns
        else if String.eqb key config.StashBoxes then
          exists boxes, v = VStashBoxes boxes /\ ValidateStashBoxes w boxes = None
        else True
    end.

(** What a call on the store or on the disk has passed: a setter as
    above; the creation of a directory is for the path of a directory
    field whose key is not locked, and not for an empty path that is
    taken as it is. *)
Definition callValidated (w : World) (input : ConfigGeneralInput) (e : Event) : Prop :=
  match e with
  | EvSet key v => setterValidated w key v
  | EvEnsureDir path =>
      exists key optional,
        directoryOptional key = Some optional /\
        pathField input key = Some path /\
        HasOverride w key = false /\
        (optional = false \/ path <> "")
  | _ => True
  end.

(** ** Vocabulary of the hooks that are due *)

(** A flag is up and nothing was written yet. *)
Definition flagUp (f : Flag) (s : State) : Prop :=
  flags s f = true /\ Forall (fun e => isWriteOk e = false) (trace s).

(** The refresh hook that a flag makes due at the end of
    [ConfigureGeneral]; the transcoder's flag also makes the streaming
    manager due (line 486). *)
Inductive raises : Flag -> Event -> Prop :=
| raises_scraper_cache : raises refreshScraperCache EvRefreshScraperCache
| raises_plugin_cache : raises refreshPluginCache EvRefreshPluginCache
| raises_ffmpeg : raises refreshFfmpeg EvRefreshFFMpeg
| raises_ffmpeg_stream : raises refreshFfmpeg EvRefreshStreamManager
| raises_stream_manager : raises refreshStreamManager EvRefreshStreamManager
| raises_blob_storage : raises refreshBlobStorage EvSetBlobStoreOptions
| raises_scraper_source : raises refreshScraperSource EvRefreshScraperSourceManager
| raises_plugin_source : raises refreshPluginSource EvRefreshPluginSourceManager.

(** The end of a call in which a hook is due: no write succeeded, or the
    hook was called. *)
Definition raisedExit (hook : Event) (o : Outcome GeneralR) (s : State) : Prop :=
  Forall (fun e => isWriteOk e = false) (trace s) \/ hook ∈ trace s.

(** The flags that a path field puts up when it changes the stored path. *)
Inductive flaggedBy : string -> Flag -> Prop :=
| flagged_scrapers_cache : flaggedBy config.ScrapersPath refreshScraperCache
| flagged_scrapers_source : flaggedBy config.ScrapersPath refreshScraperSource
| flagged_plugins_cache : flaggedBy config.PluginsPath refreshPluginCache
| flagged_plugins_source : flaggedBy config.PluginsPath refreshPluginSource
| flagged_cache : flaggedBy config.Cache refreshStreamManager
| flagged_blobs : flaggedBy config.BlobsPath refreshBlobStorage.

(** ** Vocabulary of the password *)

Definition isSetPassword (e : Event) : bool :=
  match e with EvSetPassword _ => true | _ => false end.





(** ** The setters that an input asks for *)

(** The typed-setter calls that the fields of a [ConfigureGeneral] input
    ask for, field by field in the order of the handler; the password goes
    through [SetPassword] and is not among them. *)
Definition generalSetters (input : ConfigGeneralInput) : list Event :=
  setterOf config.Stash VStashes (Stashes input) ++
  setterOf config.Database VString (DatabasePath input) ++
  setterOf config.BackupDirectoryPath VString (BackupDirectoryPath input) ++
  setterOf config.Generated VString (GeneratedPath input) ++
  setterOf config.ScrapersPath VString (ScrapersPath input) ++
  setterOf config.PluginsPath VString (PluginsPath input) ++
  setterOf config.Metadata VString (MetadataPath input) ++
  setterOf config.Cache VString (CachePath input) ++
  setterOf config.BlobsPath VString (BlobsPath input) ++
  setterOf config.BlobsStorage VBlobsStorage (BlobsStorage input) ++
  setterOf config.FFMpegPath VString (FfmpegPath input) ++
  setterOf config.FFProbePath VString (FfprobePath input) ++
  setterOf config.VideoFileNamingAlgorithm VHashAlgorithm (VideoFileNamingAlgorithm input) ++
  setterOf config.CalculateMD5 VBool (CalculateMd5 input) ++
  setterOf config.ParallelTasks VInt (ParallelTasks input) ++
  setterOf config.PreviewAudio VBool (PreviewAudio input) ++
  setterOf config.PreviewSegments VInt (PreviewSegments input) ++
  setterOf config.PreviewSegmentDuration VFloat (PreviewSegmentDuration input) ++
  setterOf config.PreviewExcludeStart VString (PreviewExcludeStart input) ++
  setterOf config.PreviewExcludeEnd VString (PreviewExcludeEnd input) ++
  setterOf config.PreviewPreset VString (PreviewPreset input) ++
  setterOf config.TranscodeHardwareAcceleration VBool
    (TranscodeHardwareAcceleration input) ++
  setterOf config.MaxTranscodeSize VString (MaxTranscodeSize input) ++
  setterOf config.MaxStreamingTranscodeSize VString (MaxStreamingTranscodeSize input) ++
  setterOf config.WriteImageThumbnails VBool (WriteImageThumbnails input) ++
  setterOf config.CreateImageClipsFromVideos VBool (CreateImageClipsFromVideos input) ++
  setterOf config.GalleryCoverRegex VString (GalleryCoverRegex input) ++
  setterOf config.Username VString (Username input) ++
  setterOf config.MaxSessionAge VInt (MaxSessionAge input) ++
  setterOf config.LogFile VString (LogFile input) ++
  setterOf config.LogOut VBool (LogOut input) ++
  setterOf config.LogAccess VBool (LogAccess input) ++
  setterOf config.LogLevel VString (LogLevel input) ++
  setterOf config.Exclude VStrings (Excludes input) ++
  setterOf config.ImageExclude VStrings (ImageExcludes input) ++
  setterOf config.VideoExtensions VStrings (VideoExtensions input) ++
  setterOf config.ImageExtensions VStrings (ImageExtensions input) ++
  setterOf config.GalleryExtensions VStrings (GalleryExtensions input) ++
  setterOf config.CreateGalleriesFromFolders VBool (CreateGalleriesFromFolders input) ++
  setterOf config.CustomPerformerImageLocation VString
    (CustomPerformerImageLocation input) ++
  setterOf config.StashBoxes VStashBoxes (StashBoxes input) ++
  setterOf config.PythonPath VString (PythonPath input) ++
  setterOf config.TranscodeInputArgs VStrings (TranscodeInputArgs input) ++
  setterOf config.TranscodeOutputArgs VStrings (TranscodeOutputArgs input) ++
  setterOf config.LiveTranscodeInputArgs VStrings (LiveTranscodeInputArgs input) ++
  setterOf config.LiveTranscodeOutputArgs VStrings (LiveTranscodeOutputArgs input) ++
  setterOf config.DrawFunscriptHeatmapRange VBool (DrawFunscriptHeatmapRange input) ++
  setterOf config.ScraperPackageSources VPackageSources (ScraperPackageSources input) ++
  setterOf config.PluginPackageSources VPackageSources (PluginPackageSources input).

(** The same for [ConfigureInterface]; the custom CSS, Javascript and
    locales go through setters of their own. *)
Definition interfaceSetters (input : ConfigInterfaceInput) : list Event :=
  setterOf config.MenuItems VStrings (MenuItems input) ++
  setterOf config.SoundOnPreview VBool (SoundOnPreview input) ++
  setterOf config.WallShowTitle VBool (WallShowTitle input) ++
  setterOf config.NoBrowser VBool (NoBrowser input) ++
  setterOf config.NotificationsEnabled VBool (NotificationsEnabled input) ++
  setterOf config.ShowScrubber VBool (ShowScrubber input) ++
  setterOf config.WallPlayback VString (WallPlayback input) ++
  setterOf config.MaximumLoopDuration VInt (MaximumLoopDuration input) ++
  setterOf config.AutostartVideo VBool (AutostartVideo input) ++
  setterOf config.ShowStudioAsText VBool (ShowStudioAsText input) ++
  setterOf config.AutostartVideoOnPlaySelected VBool
    (AutostartVideoOnPlaySelected input) ++
  setterOf config.ContinuePlaylistDefault VBool (ContinuePlaylistDefault input) ++
  setterOf config.Language VString (Language input) ++
  match ImageLightbox input with
  | Some options =>
      setterOf config.ImageLightboxSlideshowDelay VInt (SlideshowDelay options) ++
      setterOf config.ImageLightboxDisplayModeKey VString (DisplayMode options) ++
      setterOf config.ImageLightboxScaleUp VBool (ScaleUp options) ++
      setterOf config.ImageLightboxResetZoomOnNav VBool (ResetZoomOnNav options) ++
      setterOf config.ImageLightboxScrollModeKey VString (ScrollMode options) ++
      setterOf config.ImageLightboxScrollAttemptsBeforeChange VInt
        (ScrollAttemptsBeforeChange options)
  | None => []
  end ++
  setterOf config.CSSEnabled VBool (CSSEnabled input) ++
  setterOf config.JavascriptEnabled VBool (JavascriptEnabled input) ++
  setterOf config.CustomLocalesEnabled VBool (CustomLocalesEnabled input) ++
  match DisableDropdownCreate input with
  | Some ddc =>
      setterOf config.DisableDropdownCreatePerformer VBool (Performer ddc) ++
      setterOf config.DisableDropdownCreateStudio VBool (Studio ddc) ++
      setterOf config.DisableDropdownCreateTag VBool (Tag ddc) ++
      setterOf config.DisableDropdownCreateMovie VBool (Movie ddc)
  | None => []
  end ++
  setterOf config.HandyKey VString (HandyKey input) ++
  setterOf config.FunscriptOffset VInt (FunscriptOffset input) ++
  setterOf config.UseStashHostedFunscript VBool (UseStashHostedFunscript input).

(** The same for [ConfigureDefaults]; of the scan input only the embedded
    options are kept. *)
Definition defaultsSetters (input : ConfigDefaultSettingsInput) : list Event :=
  setterOf config.DefaultIdentifySettings VJSON (Identify input) ++
  setterOf config.DefaultScanSettings VJSON
    (option_map ScanMetadataOptions (Scan input)) ++
  setterOf config.DefaultAutoTagSettings VJSON (AutoTag input) ++
  setterOf config.DefaultGenerateSettings VJSON (Generate input) ++
  setterOf config.DeleteFileDefault VBool (DeleteFile input) ++
  setterOf config.DeleteGeneratedDefault VBool (DeleteGenerated input).

(** An event is none but a requested setter. *)
Definition requested (allowed : list Event) (e : Event) : Prop :=
  match e with
  | EvSet _ _ => e ∈ allowed
  | _ => True
  end.

(** Every typed-setter call of a log is one of [allowed]. *)
Definition onlySetters (allowed calls : list Event) : Prop :=
  forall key v, EvSet key v ∈ calls -> EvSet key v ∈ allowed.

(** ** The setters that are due *)

(** The setter of a field that is compared with the stored value: none
    if the field is absent or equal to it. *)
Definition changedSetter (key stored : string) (field : option string) : list Event :=
  match field with
  | Some v => if String.eqb stored v then [] else [EvSet key (VString v)]
  | None => []
  end.

(** The states of a call before a key is set, and its end once the
    setter [e] is due: nothing was written, or [e] was called. *)
Definition unset (c : Config) (key : string) (s : State) : Prop :=
  values (cfg s) !! key = values c !! key /\ unwrittenLog (trace s).

Definition appliedExit {R} (e : Event) (o : Outcome R) (s : State) : Prop :=
  unwrittenLog (trace s) \/ e ∈ trace s.

(** The typed-setter calls that are due in a call of [ConfigureGeneral]:
    those of the fields that are present and, for the fields that are
    compared with the store, differ from the stored value. *)
Definition dueSetters (c : Config) (input : ConfigGeneralInput) : list Event :=
  setterOf config.Stash VStashes (Stashes input) ++
  changedSetter config.Database (GetDatabasePath c) (DatabasePath input) ++
  changedSetter config.BackupDirectoryPath (GetBackupDirectoryPath c)
    (BackupDirectoryPath input) ++
  changedSetter config.Generated (GetGeneratedPath c) (GeneratedPath input) ++
  changedSetter config.ScrapersPath (GetScrapersPath c) (ScrapersPath input) ++
  changedSetter config.PluginsPath (GetPluginsPath c) (PluginsPath input) ++
  changedSetter config.Metadata (GetMetadataPath c) (MetadataPath input) ++
  changedSetter config.Cache (GetCachePath c) (CachePath input) ++
  changedSetter config.BlobsPath (GetBlobsPath c) (BlobsPath input) ++
  match BlobsStorage input with
  | Some storage =>
      if BlobsStorageType_eqb storage (GetBlobsStorage c) then []
      else [EvSet config.BlobsStorage (VBlobsStorage storage)]
  | None => []
  end ++
  changedSetter config.FFMpegPath (GetFFMpegPath c) (FfmpegPath input) ++
  changedSetter config.FFProbePath (GetFFProbePath c) (FfprobePath input) ++
  match VideoFileNamingAlgorithm input with
  | Some algorithm =>
      if HashAlgorithm_eqb algorithm (GetVideoFileNamingAlgorithm c) then []
      else [EvSet config.VideoFileNamingAlgorithm (VHashAlgorithm algorithm)]
  | None => []
  end ++
  setterOf config.CalculateMD5 VBool (CalculateMd5 input) ++
  setterOf config.ParallelTasks VInt (ParallelTasks input) ++
  setterOf config.PreviewAudio VBool (PreviewAudio input) ++
  setterOf config.PreviewSegments VInt (PreviewSegments input) ++
  setterOf config.PreviewSegmentDuration VFloat (PreviewSegmentDuration input) ++
  setterOf config.PreviewExcludeStart VString (PreviewExcludeStart input) ++
  setterOf config.PreviewExcludeEnd VString (PreviewExcludeEnd input) ++
  setterOf config.PreviewPreset VString (PreviewPreset input) ++
  setterOf config.TranscodeHardwareAcceleration VBool
    (TranscodeHardwareAcceleration input) ++
  setterOf config.MaxTranscodeSize VString (MaxTranscodeSize input) ++
  setterOf config.MaxStreamingTranscodeSize VString (MaxStreamingTranscodeSize input) ++
  setterOf config.WriteImageThumbnails VBool (WriteImageThumbnails input) ++
  setterOf config.CreateImageClipsFromVideos VBool (CreateImageClipsFromVideos input) ++
  setterOf config.GalleryCoverRegex VString (GalleryCoverRegex input) ++
  changedSetter config.Username (GetUsername c) (Username input) ++
  setterOf config.MaxSessionAge VInt (MaxSessionAge input) ++
  setterOf config.LogFile VString (LogFile input) ++
  setterOf config.LogOut VBool (LogOut input) ++
  setterOf config.LogAccess VBool (LogAccess input) ++
  changedSetter config.LogLevel (GetLogLevel c) (LogLevel input) ++
  setterOf config.Exclude VStrings (Excludes input) ++
  setterOf config.ImageExclude VStrings (ImageExcludes input) ++
  setterOf config.VideoExtensions VStrings (VideoExtensions input) ++
  setterOf config.ImageExtensions VStrings (ImageExtensions input) ++
  setterOf config.GalleryExtensions VStrings (GalleryExtensions input) ++
  setterOf config.CreateGalleriesFromFolders VBool (CreateGalleriesFromFolders input) ++
  setterOf config.CustomPerformerImageLocation VString
    (CustomPerformerImageLocation input) ++
  setterOf config.StashBoxes VStashBoxes (StashBoxes input) ++
  setterOf config.PythonPath VString (PythonPath input) ++
  setterOf config.TranscodeInputArgs VStrings (TranscodeInputArgs input) ++
  setterOf config.TranscodeOutputArgs VStrings (TranscodeOutputArgs input) ++
  setterOf config.LiveTranscodeInputArgs VStrings (LiveTranscodeInputArgs input) ++
  setterOf config.LiveTranscodeOutputArgs VStrings (LiveTranscodeOutputArgs input) ++
  setterOf config.DrawFunscriptHeatmapRange VBool (DrawFunscriptHeatmapRange input) ++
  setterOf config.ScraperPackageSources VPackageSources (ScraperPackageSources input) ++
  setterOf config.PluginPackageSources VPackageSources (PluginPackageSources input).

(** ** Specifications of monadic code

    [triple P m Q E]: from a state in [P], [m] either goes on with a value
    and a state in [Q], or stops (returns or panics) with an outcome and a
    state in [E]. *)
Definition triple {R A} (P : State -> Prop) (m : M R A)
    (Q : A -> State -> Prop) (E : Outcome R -> State -> Prop) : Prop :=
  forall s, P s ->
    match m s with
    | Next a s' => Q a s'
    | Done o s' => E o s'
    end.

(** * Properties *)

Lemma triple_ret {R A} (P : State -> Prop) (a : A) Q (E : Outcome R -> State -> Prop) :
  (forall s, P s -> Q a s) -> triple P (ret a) Q E.
Proof. intros H s Hs. cbn. auto. Qed.

Lemma triple_bind {R A B} (P : State -> Prop) (m : M R A) (k : A -> M R B)
    (Q' : A -> State -> Prop) Q (E : Outcome R -> State -> Prop) :
  triple P m Q' E ->
  (forall a, triple (Q' a) (k a) Q E) ->
  triple P (bind m k) Q E.
Proof.
  intros Hm Hk s Hs. unfold bind. specialize (Hm s Hs).
  destruct (m s) as [a s'|o s']; [apply Hk, Hm | exact Hm].
Qed.

(** The rule for a sequence all of whose steps keep one invariant. *)
Lemma triple_seq {R A B} (I : State -> Prop) (m : M R A) (k : A -> M R B)
    Q (E : Outcome R -> State -> Prop) :
  triple I m (fun _ => I) E ->
  (forall a, triple I (k a) Q E) ->
  triple I (bind m k) Q E.
Proof. intros Hm Hk. eapply triple_bind; [exact Hm | exact Hk]. Qed.

Lemma triple_conseq {R A} (P P' : State -> Prop) (m : M R A)
    (Q Q' : A -> State -> Prop) (E E' : Outcome R -> State -> Prop) :
  triple P' m Q' E' ->
  (forall s, P s -> P' s) ->
  (forall a s, Q' a s -> Q a s) ->
  (forall o s, E' o s -> E o s) ->
  triple P m Q E.
Proof.
  intros Hm HP HQ HE s Hs. specialize (Hm s (HP s Hs)).
  destruct (m s); auto.
Qed.

Lemma triple_pre {R A} (P P' : State -> Prop) (m : M R A) Q
    (E : Outcome R -> State -> Prop) :
  (forall s, P s -> P' s) -> triple P' m Q E -> triple P m Q E.
Proof. intros HP Hm. eapply triple_conseq; eauto. Qed.

Lemma triple_forEach {R A} (I : State -> Prop) (l : list A) (body : A -> M R unit)
    (E : Outcome R -> State -> Prop) :
  (forall x, x ∈ l -> triple I (body x) (fun _ => I) E) ->
  triple I (forEach l body) (fun _ => I) E.
Proof.
  induction l as [|x l IH]; intros Hbody; cbn [forEach].
  - apply triple_ret. auto.
  - apply triple_seq.
    + apply Hbody. left.
    + intros _. apply IH. intros y Hy. apply Hbody. by right.
Qed.

Lemma triple_exec {R} (P : State -> Prop) (m : M R Empty_set) Q
    (E : Outcome R -> State -> Prop) s :
  triple P m Q E -> P s -> E (outcomeOf (exec m s)) (finalState (exec m s)).
Proof.
  intros Hm Hs. specialize (Hm s Hs). unfold exec, outcomeOf, finalState.
  destruct (m s) as [[]|o s']; exact Hm.
Qed.

Lemma triple_false {R A} (m : M R A) Q (E : Outcome R -> State -> Prop) :
  triple (fun _ => False) m Q E.
Proof. intros s []. Qed.

(** A call on a collaborator is logged and answers with a value that does
    not depend on the state: the rest of the code runs with that value. *)
Lemma triple_bind_oracle {R A B} (I : State -> Prop) (e : Event) (v : A)
    (k : A -> M R B) Q (E : Outcome R -> State -> Prop) :
  triple I (emit e) (fun _ => I) E ->
  triple I (k v) Q E ->
  triple I (bind (emit e ;; ret v) k) Q E.
Proof.
  intros He Hk s Hs. specialize (He s Hs). unfold bind, emit, ret in *. cbn in *.
  by apply Hk.
Qed.

Lemma triple_bind_checkConfigOverride {R B} w (I : State -> Prop) (key : string)
    (k : option Error -> M R B) Q (E : Outcome R -> State -> Prop) :
  triple I (emit (EvHasOverride key)) (fun _ => I) E ->
  triple I (k (overrideVerdict w key)) Q E ->
  triple I (bind (checkConfigOverride w key) k) Q E.
Proof.
  intros He Hk s Hs. specialize (He s Hs).
  unfold checkConfigOverride, hasOverride, overrideVerdict, bind, emit, ret in *.
  cbn in *. destruct (HasOverride w key); by apply Hk.
Qed.

Lemma triple_bind_validateDir {R B} w (I : State -> Prop) (key value : string)
    (optional : bool) (k : option Error -> M R B) Q (E : Outcome R -> State -> Prop) :
  triple I (emit (EvHasOverride key)) (fun _ => I) E ->
  triple I (emit (EvEnsureDir value)) (fun _ => I) E ->
  triple I (k (validateDirVerdict w key value optional)) Q E ->
  triple I (bind (validateDir w key value optional) k) Q E.
Proof.
  intros He Hd Hk s Hs. specialize (He s Hs).
  unfold validateDir, checkConfigOverride, hasOverride, ensureDir,
    validateDirVerdict, overrideVerdict, bind, emit, ret in *.
  cbn in *. destruct (HasOverride w key); [by apply Hk|].
  destruct (negb optional || negb (String.eqb value "")); [|by apply Hk].
  specialize (Hd _ He). cbn in Hd.
  destruct (EnsureDir w value); by apply Hk.
Qed.

(** The write: its verdict is logged as it is answered. *)
Lemma triple_bind_write {R B} w (I : State -> Prop)
    (k : option ExtError -> M R B) Q (E : Outcome R -> State -> Prop) :
  triple I (emit (EvWrite true)) (fun _ => I) E ->
  triple I (emit (EvWrite false)) (fun _ => I) E ->
  triple I (k None) Q E ->
  (forall e, triple I (k (Some e)) Q E) ->
  triple I (bind (write w) k) Q E.
Proof.
  intros Ht Hf Hk Hke s Hs. specialize (Ht s Hs). specialize (Hf s Hs).
  unfold write, bind, call, emit, ret in *. cbn in *.
  destruct (Write w (cfg s)) as [e|]; cbn; [by apply Hke | by apply Hk].
Qed.

(** Stepping through a handler.  [hoare leaf] walks the code of a goal
    [triple I m (fun _ => I) E]: it keeps [I] across sequences and loops,
    passes the answers of the collaborators on to the code that follows,
    splits on branches, opens the handler's own definitions, and hands to
    [leaf] what is left to show at each call on the state. *)
Ltac head_of t :=
  lazymatch t with
  | ?f _ => head_of f
  | _ => t
  end.

Ltac hoare_leaf leaf :=
  let s := fresh "s" in
  let Hs := fresh "Hs" in
  intros s Hs;
  cbv [ret Return deref call emit modifyConfig setLocal getLocalConfig setFlag
       getFlag storeSet];
  cbn; repeat (case_match; simplify_eq; cbn); leaf.

Ltac hoare_with special leaf :=
  first
  [ special
  | lazymatch goal with
    | |- triple _ (bind (hasOverride _ _) _) _ _ =>
        unfold hasOverride; apply triple_bind_oracle;
        [hoare_with special leaf | hoare_with special leaf]
    | |- triple _ (bind (dirExists _ _) _) _ _ =>
        unfold dirExists; apply triple_bind_oracle;
        [hoare_with special leaf | hoare_with special leaf]
    | |- triple _ (bind (ensureDir _ _) _) _ _ =>
        unfold ensureDir; apply triple_bind_oracle;
        [hoare_with special leaf | hoare_with special leaf]
    | |- triple _ (bind (validateVideoFileNamingAlgorithm _ _) _) _ _ =>
        unfold validateVideoFileNamingAlgorithm; apply triple_bind_oracle;
        [hoare_with special leaf | hoare_with special leaf]
    | |- triple _ (bind (generateAPIKey _ _) _) _ _ =>
        unfold generateAPIKey; apply triple_bind_oracle;
        [hoare_with special leaf | hoare_with special leaf]
    | |- triple _ (bind (checkConfigOverride _ _) _) _ _ =>
        apply triple_bind_checkConfigOverride;
        [hoare_with special leaf | hoare_with special leaf]
    | |- triple _ (bind (validateDir _ _ _ _) _) _ _ =>
        apply triple_bind_validateDir;
        [hoare_with special leaf | hoare_with special leaf | hoare_with special leaf]
    | |- triple _ (bind (write _) _) _ _ =>
        apply triple_bind_write;
        [hoare_with special leaf | hoare_with special leaf | hoare_with special leaf
        | intros ?; hoare_with special leaf]
    | |- triple _ (bind _ _) _ _ =>
        apply triple_seq; [hoare_with special leaf | intros ?; hoare_with special leaf]
    | |- triple _ (forEach _ _) _ _ =>
        apply triple_forEach; intros ? ?; hoare_with special leaf
    | |- triple _ (match ?x with _ => _ end) _ _ =>
        destruct x eqn:?; hoare_with special leaf
    | |- triple _ (when ?b _) _ _ =>
        unfold when; hoare_with special leaf
    | |- triple _ ?m _ _ =>
        let h := head_of m in
        lazymatch h with
        | @ret => hoare_leaf leaf
        | @Return => hoare_leaf leaf
        | @deref => hoare_leaf leaf
        | @call => hoare_leaf leaf
        | @emit => hoare_leaf leaf
        | @modifyConfig => hoare_leaf leaf
        | @setLocal => hoare_leaf leaf
        | @getLocalConfig => hoare_leaf leaf
        | @setFlag => hoare_leaf leaf
        | @getFlag => hoare_leaf leaf
        | @storeSet => hoare_leaf leaf
        | _ => unfold h; hoare_with special leaf
        end
    end ].

Ltac no_special := fail.

Ltac hoare leaf := hoare_with no_special leaf.


(** ** Evaluating the handlers on sample calls *)

(** C1.  The code at the failing input: with a stash box that does not
    validate, [ConfigureGeneral] returns the validation error with a nil
    result record (line 418), not with the result record that the claim
    promises with every error. *)
Lemma eval_invalid_stash_box :
  outcomeOf (exec (ConfigureGeneral (sampleWorld [] false) inputInvalidStashBox)
                  (initState sampleConfig))
  = Returned (None, Some (External FromStashBoxes "endpoint cannot be blank")).
Proof. vm_compute. reflexivity. Qed.

(** C2.  The code at the failing input: with a new user name and no
    password, [ConfigureGeneral] dereferences the nil [input.Password]
    (line 331) and panics, where the claim says that it returns. *)
Lemma eval_username_only :
  outcomeOf (exec (ConfigureGeneral (sampleWorld [] false) inputUsernameOnly)
                  (initState sampleConfig))
  = Panicked.
Proof. vm_compute. reflexivity. Qed.

(** C4.  The code at the failing input: on a store that cannot be
    written and puts up with it, a call that sets the location of the
    custom performer images (lines 411-414) returns an error whose payload
    is the empty change set, although the key was set in the store; the
    claim says the payload holds exactly the pairs applied. *)
Lemma eval_performer_images_read_only :
  let r := exec (ConfigureGeneral (sampleWorld [] true) inputPerformerImages)
                (initState sampleConfig) in
  errorOf (outcomeOf r) = Some (ErrReadOnlyConfig ∅) /\
  callsOf r = [EvSet config.CustomPerformerImageLocation (VString "/images");
               EvInitCustomPerformerImages "/images";
               EvWrite false].
Proof. split; vm_compute; reflexivity. Qed.

(** C5.  The code at the failing input: [ConfigureScraping] with a new
    user agent calls the refresh of the scraper cache before the write
    (lines 660-663), and the write then fails; the claim says no refresh
    hook is called unless the write has succeeded. *)
Lemma eval_user_agent_read_only :
  let r := exec (ConfigureScraping (sampleWorld [] true) inputUserAgent)
                (initState sampleConfig) in
  (exists result payload,
     outcomeOf r = Returned (Some result, Some (ErrReadOnlyConfig payload))) /\
  callsOf r = [EvSet config.ScraperUserAgent (VString "stash/1.0");
               EvRefreshScraperCache;
               EvWrite false].
Proof. split; [eexists _, _|]; vm_compute; reflexivity. Qed.

(** ** Library roots (lines 93-113) *)

Lemma isNewPath_false existingPaths path :
  isNewPath existingPaths path = false <->
  exists p, p ∈ existingPaths /\ StashPath p = path.
Proof.
  induction existingPaths as [|q l IH]; cbn.
  - split; [discriminate | intros (p & Hp & _); by apply elem_of_nil in Hp].
  - destruct (String.eqb (StashPath q) path) eqn:Hq.
    + apply String.eqb_eq in Hq. split; [|done].
      intros _. exists q. split; [left | done].
    + apply String.eqb_neq in Hq. rewrite IH. split.
      * intros (p & Hp & Heq). exists p. split; [by right | done].
      * intros (p & Hp & Heq). apply elem_of_cons in Hp as [->|Hp]; [done|].
        by exists p.
Qed.

Lemma isNewPath_known c path :
  isNewPath (GetStashPaths c) path = false <-> knownPath c path.
Proof. apply isNewPath_false. Qed.

Lemma isNewPath_unknown c path :
  isNewPath (GetStashPaths c) path = true <-> ~ knownPath c path.
Proof.
  rewrite <- isNewPath_known. by destruct (isNewPath (GetStashPaths c) path).
Qed.

(** What remains to show when a call on the state is met under an
    invariant made of facts about the log: the log only grew by the
    events of the call. *)
Ltac log_leaf :=
  repeat match goal with
  | H : _ /\ _ |- _ => destruct H
  end;
  repeat split;
  first
    [ assumption
    | apply Forall_app_2; [assumption | repeat constructor; try assumption]
    | apply elem_of_app; left; assumption
    | idtac ].

(** The library roots looked up at line 93 are those of the store the
    handler started with. *)
Lemma triple_existingPaths {R B} c (P : State -> Prop) (k : list StashConfig -> M R B) Q
    (E : Outcome R -> State -> Prop) :
  triple (fun s => cfg s = c /\ P s) (k (GetStashPaths c)) Q E ->
  triple (fun s => cfg s = c /\ P s) (existingPaths <- call GetStashPaths ;; k existingPaths) Q E.
Proof.
  intros H s [Hc Hs]. unfold bind, call. rewrite Hc. apply H. done.
Qed.

(** Looks at the disk are for new paths only, in the loop over the
    library roots and therefore in the whole call. *)
Lemma general_Stashes_checks_new w c input :
  triple (fun s => cfg s = c /\
                   Forall (fun e => checksOnlyNew (GetStashPaths c) e = true) (trace s))
    (general_Stashes w input)
    (fun _ s => Forall (fun e => checksOnlyNew (GetStashPaths c) e = true) (trace s))
    (fun _ s => Forall (fun e => checksOnlyNew (GetStashPaths c) e = true) (trace s)).
Proof.
  unfold general_Stashes. apply triple_existingPaths.
  destruct (Stashes input) as [stashes|]; [|by intros s [_ ?]].
  apply triple_pre with
    (P' := fun s => Forall (fun e => checksOnlyNew (GetStashPaths c) e = true) (trace s));
    [by intros s [_ ?] |].
  hoare log_leaf.
Qed.

Lemma ConfigureGeneral_checks_new w c input :
  Forall (fun e => checksOnlyNew (GetStashPaths c) e = true)
    (callsOf (exec (ConfigureGeneral w input) (initState c))).
Proof.
  apply (triple_exec (fun s => cfg s = c /\
           Forall (fun e => checksOnlyNew (GetStashPaths c) e = true) (trace s))
         _ (fun _ _ => True)
         (fun _ s => Forall (fun e => checksOnlyNew (GetStashPaths c) e = true) (trace s)));
    [| split; [done | constructor]].
  unfold ConfigureGeneral.
  eapply triple_bind; [apply general_Stashes_checks_new | intros []].
  hoare log_leaf.
Qed.

(** When every root of the input is already known, the loop looks at the
    disk for none of them and the roots are applied. *)
Lemma general_Stashes_known w c input stashes :
  Stashes input = Some stashes ->
  (forall s, s ∈ stashes -> knownPath c (Path s)) ->
  triple (fun s => cfg s = c /\ Forall (fun e => isDirExists e = false) (trace s))
    (general_Stashes w input)
    (fun _ s => Forall (fun e => isDirExists e = false) (trace s) /\
                EvSet config.Stash (VStashes stashes) ∈ trace s)
    (fun _ s => Forall (fun e => isDirExists e = false) (trace s) /\
                EvSet config.Stash (VStashes stashes) ∈ trace s).
Proof.
  intros Hst Hall. unfold general_Stashes. apply triple_existingPaths. rewrite Hst.
  apply triple_pre with (P' := fun s => Forall (fun e => isDirExists e = false) (trace s));
    [by intros s [_ ?] |].
  eapply triple_bind
    with (Q' := fun _ s => Forall (fun e => isDirExists e = false) (trace s)).
  - eapply triple_conseq
      with (P' := fun s => Forall (fun e => isDirExists e = false) (trace s))
           (Q' := fun _ s => Forall (fun e => isDirExists e = false) (trace s))
           (E' := fun _ s => Forall (fun e => isDirExists e = false) (trace s) /\ False);
      [apply triple_forEach | by intros | by intros | by intros ? ? []].
    intros x Hx. destruct (isNewPath (GetStashPaths c) (Path x)) eqn:Hnew.
    + apply isNewPath_unknown in Hnew. destruct Hnew. by apply Hall.
    + by apply triple_ret.
  - intros [] s Hs. cbn. split.
    + apply Forall_app_2; [done | by repeat constructor].
    + apply elem_of_app. right. left.
Qed.

(** When every root of the input is known or on disk, the loop runs to
    its end and the roots are applied. *)
Lemma general_Stashes_accepted w c input stashes :
  Stashes input = Some stashes ->
  (forall s, s ∈ stashes -> knownPath c (Path s) \/ fst (DirExists w (Path s)) = true) ->
  triple (fun s => cfg s = c /\ True) (general_Stashes w input)
    (fun _ s => EvSet config.Stash (VStashes stashes) ∈ trace s)
    (fun _ s => EvSet config.Stash (VStashes stashes) ∈ trace s).
Proof.
  intros Hst Hall. unfold general_Stashes. apply triple_existingPaths. rewrite Hst.
  eapply triple_bind with (Q' := fun _ _ => True).
  - eapply triple_conseq
      with (P' := fun _ => True) (Q' := fun _ _ => True) (E' := fun _ _ => False);
      [apply triple_forEach | done | done | done].
    intros x Hx. destruct (isNewPath (GetStashPaths c) (Path x)) eqn:Hnew;
      [|by apply triple_ret].
    unfold dirExists. apply triple_bind_oracle; [done|].
    destruct (Hall x Hx) as [Hknown|Hdisk].
    + apply isNewPath_unknown in Hnew. done.
    + rewrite Hdisk. by apply triple_ret.
  - intros [] s _. cbn. apply elem_of_app. right. left.
Qed.

(** The loop over the roots stops at the first root that is new and not
    on disk, having only looked at the disk. *)
Lemma general_Stashes_loop_stops w c (l : list StashConfigInput) :
  forall s,
    cfg s = c ->
    Forall (fun e => isDirExists e = true) (trace s) ->
    (exists x, x ∈ l /\ ~ knownPath c (Path x) /\ fst (DirExists w (Path x)) = false) ->
    exists x s',
      x ∈ l /\ ~ knownPath c (Path x) /\ fst (DirExists w (Path x)) = false /\
      forEach l (fun x =>
        if isNewPath (GetStashPaths c) (Path x) then
          r <- dirExists w (Path x) ;;
          if negb (fst r) then returnGeneral (option_map (External FromDirExists) (snd r))
          else ret tt
        else ret tt) s
      = Done (Returned (Some {| generalView := c |},
                        option_map (External FromDirExists) (snd (DirExists w (Path x))))) s' /\
      cfg s' = c /\ localConfig s' = localConfig s /\
      Forall (fun e => isDirExists e = true) (trace s').
Proof.
  induction l as [|y l IH]; intros s Hc Htr (x & Hx & Hnew & Hmissing).
  - by apply elem_of_nil in Hx.
  - cbn [forEach]. unfold bind at 1.
    destruct (isNewPath (GetStashPaths c) (Path y)) eqn:Hy.
    + cbn. destruct (fst (DirExists w (Path y))) eqn:Hdisk; cbn.
      * apply elem_of_cons in Hx as [->|Hx]; [congruence|].
        edestruct (IH {| cfg := cfg s; localConfig := localConfig s; flags := flags s;
                         trace := trace s ++ [EvDirExists (Path y)] |})
          as (x' & s' & Hx' & Hnew' & Hmissing' & Hrun & Hc' & Hl' & Htr');
          [done | apply Forall_app_2; [done | by repeat constructor] | by exists x |].
        exists x', s'. repeat split; try done. by right.
      * exists y, {| cfg := cfg s; localConfig := localConfig s; flags := flags s;
                     trace := trace s ++ [EvDirExists (Path y)] |}.
        repeat split; try done.
        -- left.
        -- by apply isNewPath_unknown.
        -- by rewrite Hc.
        -- apply Forall_app_2; [done | by repeat constructor].
    + cbn. apply elem_of_cons in Hx as [->|Hx].
      * apply isNewPath_known in Hy. done.
      * destruct (IH s) as (x' & s' & Hx' & Hnew' & Hmissing' & Hrun & Hc' & Hl' & Htr');
          [done | done | by exists x |].
        exists x', s'. repeat split; try done. by right.
Qed.

(** C10.  Library roots of the input: a root whose path is that of a root
    the store already has is taken without a look at the disk (no such
    path is ever checked; when all roots are known the disk is not looked
    at; and the list is applied when every root is known or on disk); a
    root that is new and not on disk makes the call return before the list
    is applied, with the result record, the error of the directory check
    and nothing else done than looks at the disk. *)
Theorem stashes_new_paths_must_exist (w : World) (c : Config)
    (input : ConfigGeneralInput) (stashes : list StashConfigInput) :
  Stashes input = Some stashes ->
  let r := exec (ConfigureGeneral w input) (initState c) in
  (forall path, knownPath c path -> EvDirExists path ∉ callsOf r) /\
  ((forall s, s ∈ stashes -> knownPath c (Path s)) ->
     Forall (fun e => isDirExists e = false) (callsOf r) /\
     EvSet config.Stash (VStashes stashes) ∈ callsOf r) /\
  ((forall s, s ∈ stashes ->
      knownPath c (Path s) \/ fst (DirExists w (Path s)) = true) ->
     EvSet config.Stash (VStashes stashes) ∈ callsOf r) /\
  (forall s, s ∈ stashes -> ~ knownPath c (Path s) -> fst (DirExists w (Path s)) = false ->
     exists s', s' ∈ stashes /\ ~ knownPath c (Path s') /\
       fst (DirExists w (Path s')) = false /\
       outcomeOf r = Returned (Some {| generalView := c |},
                               option_map (External FromDirExists)
                                          (snd (DirExists w (Path s')))) /\
       Forall (fun e => isDirExists e = true) (callsOf r) /\
       cfg (finalState r) = c /\
       localConfig (finalState r) = ∅).
Proof.
  intros Hst r. split; [|split; [|split]].
  - intros path Hknown Hin.
    pose proof (ConfigureGeneral_checks_new w c input) as Hall.
    rewrite Forall_forall in Hall. specialize (Hall _ Hin). cbn in Hall.
    apply isNewPath_known in Hknown. congruence.
  - intros Hall.
    apply (triple_exec
             (fun s => cfg s = c /\ Forall (fun e => isDirExists e = false) (trace s))
             _ (fun _ _ => True)
             (fun _ s => Forall (fun e => isDirExists e = false) (trace s) /\
                         EvSet config.Stash (VStashes stashes) ∈ trace s));
      [| split; [done | constructor]].
    unfold ConfigureGeneral.
    eapply triple_bind; [by apply general_Stashes_known | intros []].
    hoare log_leaf.
  - intros Hall.
    apply (triple_exec (fun s => cfg s = c /\ True) _ (fun _ _ => True)
             (fun _ s => EvSet config.Stash (VStashes stashes) ∈ trace s));
      [| done].
    unfold ConfigureGeneral.
    eapply triple_bind; [by apply general_Stashes_accepted | intros []].
    hoare log_leaf.
  - intros s Hs Hnew Hmissing.
    destruct (general_Stashes_loop_stops w c stashes (initState c))
      as (x & s' & Hx & Hnewx & Hmissingx & Hrun & Hc & Hl & Htr);
      [done | constructor | by exists s |].
    exists x. repeat split; try done.
    all: subst r; unfold exec, ConfigureGeneral, general_Stashes;
      unfold bind at 1; unfold bind at 1; cbn; rewrite Hst;
      unfold bind at 1; rewrite Hrun; cbn; done.
Qed.

Lemma stashes_new_paths_must_exist_witness :
  Stashes inputTwoRoots = Some twoRoots /\
  knownPath sampleConfig "/old" /\
  ~ knownPath sampleConfig "/new" /\
  fst (DirExists (sampleWorld [] false) "/new") = false /\
  let r := exec (ConfigureGeneral (sampleWorld [] false) inputTwoRoots)
                (initState sampleConfig) in
  (forall path, knownPath sampleConfig path -> EvDirExists path ∉ callsOf r) /\
  ((forall s, s ∈ twoRoots -> knownPath sampleConfig (Path s)) ->
     Forall (fun e => isDirExists e = false) (callsOf r) /\
     EvSet config.Stash (VStashes twoRoots) ∈ callsOf r) /\
  ((forall s, s ∈ twoRoots ->
      knownPath sampleConfig (Path s) \/
      fst (DirExists (sampleWorld [] false) (Path s)) = true) ->
     EvSet config.Stash (VStashes twoRoots) ∈ callsOf r) /\
  (forall s, s ∈ twoRoots -> ~ knownPath sampleConfig (Path s) ->
     fst (DirExists (sampleWorld [] false) (Path s)) = false ->
     exists s', s' ∈ twoRoots /\ ~ knownPath sampleConfig (Path s') /\
       fst (DirExists (sampleWorld [] false) (Path s')) = false /\
       outcomeOf r = Returned (Some {| generalView := sampleConfig |},
                               option_map (External FromDirExists)
                                 (snd (DirExists (sampleWorld [] false) (Path s')))) /\
       Forall (fun e => isDirExists e = true) (callsOf r) /\
       cfg (finalState r) = sampleConfig /\
       localConfig (finalState r) = ∅).
Proof.
  split; [reflexivity|].
  split; [apply isNewPath_known; reflexivity|].
  split; [apply isNewPath_unknown; reflexivity|].
  split; [reflexivity|].
  exact (stashes_new_paths_must_exist (sampleWorld [] false) sampleConfig
           inputTwoRoots twoRoots eq_refl).
Defined.

Lemma eval_two_roots :
  outcomeOf (exec (ConfigureGeneral (sampleWorld [] false) inputTwoRoots)
                  (initState sampleConfig))
  = Returned (Some {| generalView := sampleConfig |},
              Some (External FromDirExists "path does not exist")) /\
  callsOf (exec (ConfigureGeneral (sampleWorld [] false) inputTwoRoots)
                (initState sampleConfig))
  = [EvDirExists "/new"].
Proof. split; vm_compute; reflexivity. Qed.

(** ** GenerateAPIKey (lines 718-748) *)


Lemma eval_api_key_without_username :
  outcomeOf (exec (GenerateAPIKey (sampleWorld [] false) {| Clear := None |})
                  (initState emptyConfig))
  = Returned ("", None).
Proof. vm_compute. reflexivity. Qed.

Lemma eval_api_key_for_user :
  outcomeOf (exec (GenerateAPIKey (sampleWorld [] false) {| Clear := Some false |})
                  (initState sampleConfig))
  = Returned ("key of admin", None).
Proof. vm_compute. reflexivity. Qed.

(** ** Override locks (lines 115-231) *)

Lemma triple_bind_call_known {R A B} (I : State -> Prop) (getter : Config -> A) (v : A)
    (k : A -> M R B) Q (E : Outcome R -> State -> Prop) :
  (forall s, I s -> getter (cfg s) = v) ->
  triple I (k v) Q E ->
  triple I (bind (call getter) k) Q E.
Proof. intros Hv Hk s Hs. unfold bind, call. rewrite (Hv s Hs). by apply Hk. Qed.










(** Reading the verdicts of the validation closures found in the context. *)
Ltac read_verdicts :=
  repeat match goal with
  | H : overrideVerdict _ _ = _ |- _ => unfold overrideVerdict in H
  | H : validateDirVerdict _ _ _ _ = _ |- _ => unfold validateDirVerdict, overrideVerdict in H
  | Hov : HasOverride ?w ?k = _, H : context [HasOverride ?w ?k] |- _ =>
      rewrite Hov in H
  | H : context [match HasOverride ?w ?k with _ => _ end] |- _ =>
      destruct (HasOverride w k) eqn:?
  | H : context [if ?b then option_map _ (EnsureDir _ _) else None] |- _ =>
      destruct b
  | H : context [EnsureDir ?w ?p] |- _ =>
      lazymatch type of H with
      | EnsureDir _ _ = _ => fail
      | _ => destruct (EnsureDir w p) eqn:?
      end
  | _ => progress (cbn in *; simplify_eq)
  end.








(** ** Binary paths and the refresh order (lines 244-267, 465-499) *)

Ltac binary_leaf :=
  unfold binaryUntouched, notWritten, ffmpegFlagged, refreshedExit in *; cbn;
  repeat match goal with
  | H : _ /\ _ |- _ => destruct H
  | H : negb (String.eqb _ _) = false |- _ =>
      apply negb_false_iff, String.eqb_eq in H; congruence
  end;
  try done;
  repeat match goal with
  | |- _ => assumption
  | |- _ /\ _ => split
  | |- <[_:=_]> _ !! _ = _ => rewrite lookup_insert_ne by done
  | |- Forall _ (_ ++ _) => apply Forall_app_2; [| by repeat constructor]
  | |- Forall _ _ \/ _ => left
  end.

(** The end of the call when the flag is up: a failed write is no commit;
    after a commit both refreshes follow, the transcoder's first. *)
Lemma general_commit_refreshes w Q :
  triple ffmpegFlagged (general_commit w) Q refreshedExit.
Proof.
  intros s [Hflag Hlog].
  unfold general_commit, commit, general_refresh, write, returnGeneral,
    makeConfigGeneralResult, getLocalConfig, getFlag, setFlag, when, bind, call,
    emit, ret, Return.
  cbn. destruct (Write w (cfg s)) as [e|] eqn:Hwrite; cbn.
  - destruct (GetAllowReadOnlyConfigFile w); cbn; left;
      (apply Forall_app_2; [done | by repeat constructor]).
  - destruct (flags s refreshScraperCache); cbn;
      destruct (flags s refreshPluginCache); cbn;
      rewrite Hflag; cbn;
      destruct (flags s refreshBlobStorage); cbn;
      destruct (flags s refreshScraperSource); cbn;
      destruct (flags s refreshPluginSource); cbn; right;
      rewrite <- !app_assoc; apply sublist_inserts_l; cbn;
      unfold commitThenRefreshes; repeat constructor.
Qed.

Ltac commit_special :=
  idtac;
  lazymatch goal with
  | |- triple ffmpegFlagged (general_commit _) _ _ => apply general_commit_refreshes
  end.

(** At the comparison with the stored path of the binary: the branch that
    sets the path is taken. *)
Ltac binary_special c key :=
  idtac;
  lazymatch goal with
  | |- triple (binaryUntouched c key) (bind (call ?g) _) _ _ =>
      apply triple_bind_call_known with (v := getString c key);
      [ solve [ intros ? [Hv _]; unfold g, getString; by rewrite Hv ]
      | apply triple_pre with (P' := notWritten);
        [ by intros ? [_ ?] | hoare binary_leaf ] ]
  end.

Lemma ConfigureGeneral_refreshes_after_ffmpeg w c input :
  changesFfmpeg c input ->
  triple (binaryUntouched c config.FFMpegPath) (ConfigureGeneral w input)
    (fun _ _ => True) refreshedExit.
Proof.
  intros (path & Hfield & Hne). unfold GetFFMpegPath in Hne. unfold ConfigureGeneral.
  do 10 (apply triple_seq; [hoare binary_leaf | intros ?]).
  eapply triple_bind with (Q' := fun _ => ffmpegFlagged).
  - hoare_with ltac:(binary_special c config.FFMpegPath) binary_leaf.
  - intros ?. hoare_with commit_special binary_leaf.
Qed.

Lemma ConfigureGeneral_refreshes_after_ffprobe w c input :
  changesFfprobe c input ->
  triple (binaryUntouched c config.FFProbePath) (ConfigureGeneral w input)
    (fun _ _ => True) refreshedExit.
Proof.
  intros (path & Hfield & Hne). unfold GetFFProbePath in Hne. unfold ConfigureGeneral.
  do 11 (apply triple_seq; [hoare binary_leaf | intros ?]).
  eapply triple_bind with (Q' := fun _ => ffmpegFlagged).
  - hoare_with ltac:(binary_special c config.FFProbePath) binary_leaf.
  - intros ?. hoare_with commit_special binary_leaf.
Qed.

Lemma not_written_no_commit calls :
  Forall (fun e => isWriteOk e = false) calls -> EvWrite true ∉ calls.
Proof.
  intros Hall Hin. rewrite Forall_forall in Hall. by specialize (Hall _ Hin).
Qed.

(** C8.  When the input changes the path of the ffmpeg or of the ffprobe
    binary and the commit succeeds, the transcoder refresh and then the
    streaming-manager refresh are called after the commit, whatever the
    other fields of the input. *)
Theorem binary_change_refreshes_both (w : World) (c : Config)
    (input : ConfigGeneralInput) :
  changesFfmpeg c input \/ changesFfprobe c input ->
  let r := exec (ConfigureGeneral w input) (initState c) in
  EvWrite true ∈ callsOf r ->
  commitThenRefreshes `sublist_of` callsOf r.
Proof.
  intros Hchange r Hcommit.
  assert (refreshedExit (outcomeOf r) (finalState r)) as [Hnone|Hdone].
  { destruct Hchange as [Hchange|Hchange].
    - apply (triple_exec _ _ _ _ (initState c)
               (ConfigureGeneral_refreshes_after_ffmpeg w c input Hchange)).
      split; [done | constructor].
    - apply (triple_exec _ _ _ _ (initState c)
               (ConfigureGeneral_refreshes_after_ffprobe w c input Hchange)).
      split; [done | constructor]. }
  - by apply not_written_no_commit in Hnone.
  - exact Hdone.
Qed.

Lemma binary_change_refreshes_both_witness :
  let r := exec (ConfigureGeneral (sampleWorld [] false) inputFfmpegPath)
                (initState sampleConfig) in
  (changesFfmpeg sampleConfig inputFfmpegPath \/
   changesFfprobe sampleConfig inputFfmpegPath) /\
  EvWrite true ∈ callsOf r /\
  commitThenRefreshes `sublist_of` callsOf r.
Proof.
  cbv zeta.
  assert (changesFfmpeg sampleConfig inputFfmpegPath) as Hchange.
  { exists "/usr/bin/ffmpeg". split; [reflexivity|]. intros H. vm_compute in H.
    discriminate. }
  assert (EvWrite true ∈ callsOf (exec (ConfigureGeneral (sampleWorld [] false)
                                          inputFfmpegPath)
                                       (initState sampleConfig))) as Hcommit.
  { vm_compute. repeat constructor. }
  split; [by left|]. split; [exact Hcommit|].
  exact (binary_change_refreshes_both (sampleWorld [] false) sampleConfig
           inputFfmpegPath (or_introl Hchange) Hcommit).
Defined.

Lemma eval_ffmpeg_path :
  callsOf (exec (ConfigureGeneral (sampleWorld [] false) inputFfmpegPath)
                (initState sampleConfig))
  = [EvSet config.FFMpegPath (VString "/usr/bin/ffmpeg"); EvWrite true;
     EvRefreshConfig; EvRefreshFFMpeg; EvRefreshStreamManager].
Proof. vm_compute. reflexivity. Qed.

(** ** The MD5 policy (lines 269-289) *)

Lemma HashAlgorithm_eqb_eq a b : HashAlgorithm_eqb a b = true <-> a = b.
Proof. by destruct a, b. Qed.

Ltac md5_leaf :=
  unfold algorithmUntouched, algorithmSet, md5Refused, md5Accepted,
    abortedBeforeAlgorithm in *; cbn;
  repeat match goal with
  | H : _ /\ _ |- _ => destruct H
  end;
  read_verdicts;
  try done;
  repeat match goal with
  | |- _ => assumption
  | |- _ /\ _ => split
  | |- <[_:=_]> _ !! _ = _ => rewrite lookup_insert_ne by done
  | |- Forall _ (_ ++ _) => apply Forall_app_2; [| by repeat constructor]
  | |- _ ∈ _ ++ _ => apply elem_of_app; left; assumption
  | |- Some _ <> Some _ => discriminate
  | |- None <> Some _ => discriminate
  | |- option_map _ ?x <> Some _ => destruct x; discriminate
  | |- failedWith _ _ \/ _ => right
  | H : Forall (fun e => beforeAlgorithm e = true) ?l
    |- (Forall (fun e => beforeAlgorithm e = true) _ /\ _) \/ _ => left
  | H : EvValidateVideoFileNamingAlgorithm _ ∈ _ |- _ \/ (_ ∈ _ /\ _) => right
  | |- _ -> _ => intros ?
  | |- exists result err, Returned _ = Returned _ /\ _ =>
      eexists _, _; split; [reflexivity|]
  | |- abortedByPathField _ _ \/ _ =>
      first
        [ left; unfold abortedByPathField;
          first
            [ left; eexists; split; [by apply negb_true_iff | reflexivity]
            | right; left; eexists; split; [eassumption | reflexivity]
            | right; right; left; reflexivity
            | right; right; right; eexists _, _; split; [eassumption | reflexivity] ]
        | right; left; reflexivity
        | right; right; left; eexists; reflexivity
        | right; right; right; eexists; reflexivity ]
  end.

Lemma algorithm_read c s :
  algorithmUntouched c s ->
  GetVideoFileNamingAlgorithm (cfg s) = GetVideoFileNamingAlgorithm c /\
  IsCalculateMD5 (cfg s) = IsCalculateMD5 c.
Proof.
  intros (Ha & Hm & _).
  unfold GetVideoFileNamingAlgorithm, IsCalculateMD5, getBool. by rewrite Ha, Hm.
Qed.

(** Without the MD5 calculation, stored or pending, the switch to MD5 is
    refused before anything is validated or set. *)
Lemma algorithm_block_refused w c input :
  VideoFileNamingAlgorithm input = Some HashAlgorithmMd5 ->
  GetVideoFileNamingAlgorithm c <> HashAlgorithmMd5 ->
  IsCalculateMD5 c = false ->
  CalculateMd5 input <> Some true ->
  triple (algorithmUntouched c) (general_VideoFileNamingAlgorithm w input)
    (fun _ _ => False) (md5Refused w).
Proof.
  intros Hfield Hcurrent Hstored Hpending s Hs.
  destruct (algorithm_read c s Hs) as [Ha Hm]. destruct Hs as (_ & _ & Hlog).
  unfold general_VideoFileNamingAlgorithm, bind, call. rewrite Hfield, Ha.
  destruct (HashAlgorithm_eqb HashAlgorithmMd5 (GetVideoFileNamingAlgorithm c)) eqn:Heq;
    [apply HashAlgorithm_eqb_eq in Heq; congruence|].
  cbn. rewrite Hm, Hstored.
  destruct (CalculateMd5 input) as [[|]|]; [done|..]; cbn;
    (split; [done | left; by eexists]).
Qed.

(** With the MD5 calculation turned on in the same call, the pending value
    decides: the switch goes to the validation against the repository and,
    once validated, is set. *)
Lemma algorithm_block_accepted w c input :
  VideoFileNamingAlgorithm input = Some HashAlgorithmMd5 ->
  GetVideoFileNamingAlgorithm c <> HashAlgorithmMd5 ->
  CalculateMd5 input = Some true ->
  triple (algorithmUntouched c) (general_VideoFileNamingAlgorithm w input)
    (fun _ => algorithmSet) (md5Accepted w).
Proof.
  intros Hfield Hcurrent Hpending s Hs.
  destruct (algorithm_read c s Hs) as [Ha Hm]. destruct Hs as (_ & _ & Hlog).
  unfold general_VideoFileNamingAlgorithm, bind, call. rewrite Hfield, Ha.
  destruct (HashAlgorithm_eqb HashAlgorithmMd5 (GetVideoFileNamingAlgorithm c)) eqn:Heq;
    [apply HashAlgorithm_eqb_eq in Heq; congruence|].
  cbn. rewrite Hpending. cbn. destruct (ValidateVideoFileNamingAlgorithm w HashAlgorithmMd5) as [e|] eqn:Hvalid; cbn.
  - split; [done|]. right. cbn. split; [|by rewrite Hvalid].
    apply elem_of_app. right. left.
  - split; cbn.
    + apply elem_of_app. left. apply elem_of_app. right. left.
    + apply elem_of_app. right. left.
Qed.

Lemma ConfigureGeneral_md5_refused w c input :
  VideoFileNamingAlgorithm input = Some HashAlgorithmMd5 ->
  GetVideoFileNamingAlgorithm c <> HashAlgorithmMd5 ->
  IsCalculateMD5 c = false ->
  CalculateMd5 input <> Some true ->
  triple (algorithmUntouched c) (ConfigureGeneral w input)
    (fun _ _ => True) (md5Refused w).
Proof.
  intros Hfield Hcurrent Hstored Hpending. unfold ConfigureGeneral.
  do 12 (apply triple_seq; [hoare md5_leaf | intros ?]).
  eapply triple_bind; [by apply algorithm_block_refused | intros ?; apply triple_false].
Qed.

Lemma ConfigureGeneral_md5_accepted w c input :
  VideoFileNamingAlgorithm input = Some HashAlgorithmMd5 ->
  GetVideoFileNamingAlgorithm c <> HashAlgorithmMd5 ->
  CalculateMd5 input = Some true ->
  triple (algorithmUntouched c) (ConfigureGeneral w input)
    (fun _ _ => True) (md5Accepted w).
Proof.
  intros Hfield Hcurrent Hpending. unfold ConfigureGeneral.
  do 12 (apply triple_seq; [hoare md5_leaf | intros ?]).
  eapply triple_bind; [by apply algorithm_block_accepted | intros ?].
  hoare md5_leaf.
Qed.

Lemma beforeAlgorithm_not_set calls :
  Forall (fun e => beforeAlgorithm e = true) calls ->
  Forall (fun e => isSetOf config.VideoFileNamingAlgorithm e = false) calls.
Proof.
  intros H. eapply Forall_impl; [exact H|]. intros e He. unfold beforeAlgorithm in He.
  apply andb_true_iff in He as [He _]. by apply negb_true_iff in He.
Qed.

Lemma beforeAlgorithm_not_validated calls a :
  Forall (fun e => beforeAlgorithm e = true) calls ->
  EvValidateVideoFileNamingAlgorithm a ∉ calls.
Proof.
  intros Hall Hin. rewrite Forall_forall in Hall. by specialize (Hall _ Hin).
Qed.

Lemma abortedBeforeAlgorithm_is_error w err :
  DirExistsContract w -> abortedBeforeAlgorithm w err -> exists e, err = Some e.
Proof.
  intros Hcontract [[(path & Hmissing & ->)|[(key & _ & ->)|[->|(path & e & _ & ->)]]]
                   |[->|[[e ->]|[e ->]]]]; try by eexists.
  specialize (Hcontract path Hmissing).
  destruct (snd (DirExists w path)); [by eexists | done].
Qed.

(** C6.  A call that switches the naming algorithm to MD5.  If the MD5
    calculation is off in the store and the input does not turn it on, the
    algorithm setter is never called and the call returns an error: the
    policy error, unless a field processed earlier stopped the call with
    its own.  If the input turns the calculation on, the pending value
    decides: the policy error is never returned, the change goes to the
    validation against the repository unless an earlier field stopped the
    call, and once validated it is set. *)
Theorem md5_requires_calculation (w : World) (c : Config) (input : ConfigGeneralInput) :
  VideoFileNamingAlgorithm input = Some HashAlgorithmMd5 ->
  GetVideoFileNamingAlgorithm c <> HashAlgorithmMd5 ->
  let r := exec (ConfigureGeneral w input) (initState c) in
  (IsCalculateMD5 c = false -> CalculateMd5 input <> Some true ->
     Forall (fun e => isSetOf config.VideoFileNamingAlgorithm e = false) (callsOf r) /\
     (failedWith (outcomeOf r) ErrCalculateMD5Required \/
      exists result err,
        outcomeOf r = Returned (Some result, err) /\ abortedBeforeAlgorithm w err) /\
     (DirExistsContract w ->
      exists result e, outcomeOf r = Returned (Some result, Some e))) /\
  (CalculateMd5 input = Some true ->
     errorOf (outcomeOf r) <> Some ErrCalculateMD5Required /\
     (EvValidateVideoFileNamingAlgorithm HashAlgorithmMd5 ∈ callsOf r ->
      ValidateVideoFileNamingAlgorithm w HashAlgorithmMd5 = None ->
      EvSet config.VideoFileNamingAlgorithm (VHashAlgorithm HashAlgorithmMd5)
        ∈ callsOf r) /\
     (EvValidateVideoFileNamingAlgorithm HashAlgorithmMd5 ∉ callsOf r ->
      exists result err,
        outcomeOf r = Returned (Some result, err) /\ abortedBeforeAlgorithm w err)).
Proof.
  intros Hfield Hcurrent r.
  assert (algorithmUntouched c (initState c)) as Hinit
    by (repeat split; constructor).
  split.
  - intros Hstored Hpending.
    pose proof (triple_exec _ _ _ _ (initState c)
                  (ConfigureGeneral_md5_refused w c input Hfield Hcurrent Hstored Hpending)
                  Hinit) as [Hlog Hend].
    fold r in Hlog, Hend.
    split; [by apply beforeAlgorithm_not_set|]. split; [exact Hend|].
    intros Hcontract. destruct Hend as [[result Hret]|(result & err & Hret & Hearly)].
    + by exists result, ErrCalculateMD5Required.
    + destruct (abortedBeforeAlgorithm_is_error w err Hcontract Hearly) as [e ->].
      by exists result, e.
  - intros Hpending.
    pose proof (triple_exec _ _ _ _ (initState c)
                  (ConfigureGeneral_md5_accepted w c input Hfield Hcurrent Hpending)
                  Hinit) as [Herr Hend].
    fold r in Herr, Hend. split; [exact Herr|].
    destruct Hend as [[Hlog Hearly]|[Hvalidated Hset]]; split; try done.
    intros Hin. by apply beforeAlgorithm_not_validated in Hin.
Qed.

Lemma sampleWorld_DirExistsContract overridden readOnly :
  DirExistsContract (sampleWorld overridden readOnly).
Proof. intros path. cbn. by destruct (String.eqb path "/media"). Defined.

Lemma md5_requires_calculation_witness :
  VideoFileNamingAlgorithm inputMd5 = Some HashAlgorithmMd5 /\
  VideoFileNamingAlgorithm inputMd5WithCalculation = Some HashAlgorithmMd5 /\
  GetVideoFileNamingAlgorithm sampleConfig <> HashAlgorithmMd5 /\
  (exists result e,
     outcomeOf (exec (ConfigureGeneral (sampleWorld [] false) inputMd5)
                     (initState sampleConfig))
     = Returned (Some result, Some e)) /\
  EvSet config.VideoFileNamingAlgorithm (VHashAlgorithm HashAlgorithmMd5)
    ∈ callsOf (exec (ConfigureGeneral (sampleWorld [] false) inputMd5WithCalculation)
                    (initState sampleConfig)).
Proof.
  assert (GetVideoFileNamingAlgorithm sampleConfig <> HashAlgorithmMd5) as Hcurrent
    by (vm_compute; discriminate).
  split; [reflexivity|]. split; [reflexivity|]. split; [exact Hcurrent|]. split.
  - destruct (md5_requires_calculation (sampleWorld [] false) sampleConfig inputMd5
                eq_refl Hcurrent) as [Hrefused _].
    destruct Hrefused as (_ & _ & Herror); [reflexivity | discriminate |].
    apply Herror, sampleWorld_DirExistsContract.
  - destruct (md5_requires_calculation (sampleWorld [] false) sampleConfig
                inputMd5WithCalculation eq_refl Hcurrent) as [_ Haccepted].
    destruct Haccepted as (_ & Hset & _); [reflexivity|].
    apply Hset; [vm_compute; repeat constructor | reflexivity].
Defined.

Lemma eval_md5_alone :
  outcomeOf (exec (ConfigureGeneral (sampleWorld [] false) inputMd5)
                  (initState sampleConfig))
  = Returned (Some {| generalView := sampleConfig |}, Some ErrCalculateMD5Required).
Proof. vm_compute. reflexivity. Qed.

(** ** Patterns that do not compile (lines 317-326, 367-389, 647-656) *)










Lemma firstInvalidPattern_invalid w patterns pattern e :
  firstInvalidPattern w patterns = Some (pattern, e) ->
  pattern ∈ patterns /\ regexpCompile w pattern = Some e.
Proof.
  induction patterns as [|r l IH]; cbn; [done|].
  destruct (regexpCompile w r) as [e'|] eqn:Hr.
  - intros. simplify_eq. split; [left | done].
  - intros H. destruct (IH H). split; [by right | done].
Qed.




Lemma eval_exclude :
  outcomeOf (exec (ConfigureGeneral (sampleWorld [] false) inputExclude)
                  (initState sampleConfig))
  = Returned (Some {| generalView := sampleConfig |},
              Some (ErrVideoExclusionPattern "(" "missing closing )")).
Proof. vm_compute. reflexivity. Qed.

Lemma eval_tag_patterns :
  outcomeOf (exec (ConfigureScraping (sampleWorld [] false) inputTagPatterns)
                  (initState sampleConfig))
  = Returned (Some {| scrapingView := sampleConfig |},
              Some (ErrTagExclusionPattern "(" "missing closing )")).
Proof. vm_compute. reflexivity. Qed.


(** ** Where the nil result, the panic and the refreshes come from *)

Ltac origin_leaf :=
  unfold nilResultFromStashBoxes, panicFromUsername in *; cbn;
  try done;
  repeat match goal with
  | |- _ => assumption
  | |- _ /\ _ => split
  | |- forall err, _ = Returned (None, err) -> _ =>
      let H := fresh in intros ? H; simplify_eq
  | |- _ = Panicked -> _ => let H := fresh in intros H; simplify_eq
  | |- exists boxes e, _ = Some boxes /\ _ => eexists _, _; repeat split; eassumption
  | |- exists username, _ = Some username /\ _ => eexists; split; eassumption
  end.

(** X1.  Every return of [ConfigureGeneral] carries a result record,
    except the return on stash boxes that do not validate; and only the
    user name without a password makes it panic. *)
Lemma ConfigureGeneral_result_and_panic w c input :
  let r := exec (ConfigureGeneral w input) (initState c) in
  nilResultFromStashBoxes w input (outcomeOf r) /\ panicFromUsername input (outcomeOf r).
Proof.
  apply (triple_exec (fun _ => True) _ (fun _ _ => True)
           (fun o _ => nilResultFromStashBoxes w input o /\ panicFromUsername input o));
    [| done].
  hoare origin_leaf.
Qed.

Lemma refreshAfterCommit_nil : refreshAfterCommit [].
Proof. intros before e after H. by destruct before. Qed.

Lemma refreshAfterCommit_snoc calls e :
  refreshAfterCommit calls ->
  isRefresh e = false \/ EvWrite true ∈ calls ->
  refreshAfterCommit (calls ++ [e]).
Proof.
  intros Hc He before e' after Heq Hrefresh.
  destruct after as [|x after _] using rev_ind.
  - apply app_inj_tail in Heq as [-> ->]. destruct He as [He|He]; [congruence | done].
  - change (e' :: after ++ [x]) with ((e' :: after) ++ [x]) in Heq.
    rewrite app_assoc in Heq. apply app_inj_tail in Heq as [-> _].
    by eapply Hc.
Qed.

Lemma triple_bind_write_then {R B} w (I I' : State -> Prop)
    (k : option ExtError -> M R B) Q (E : Outcome R -> State -> Prop) :
  triple I (emit (EvWrite true)) (fun _ => I') E ->
  triple I (emit (EvWrite false)) (fun _ => I) E ->
  triple I' (k None) Q E ->
  (forall e, triple I (k (Some e)) Q E) ->
  triple I (bind (write w) k) Q E.
Proof.
  intros Ht Hf Hk Hke s Hs. specialize (Ht s Hs). specialize (Hf s Hs).
  unfold write, bind, call, emit, ret in *. cbn in *.
  destruct (Write w (cfg s)) as [e|]; cbn; [by apply Hke | by apply Hk].
Qed.

Ltac refresh_leaf :=
  cbn;
  repeat match goal with
  | H : _ /\ _ |- _ => destruct H
  end;
  repeat split;
  first
    [ assumption
    | apply refreshAfterCommit_snoc; [assumption | left; reflexivity]
    | apply refreshAfterCommit_snoc; [assumption | right; assumption]
    | apply elem_of_app; left; assumption
    | apply elem_of_app; right; left ].

(** At the write: after it succeeded, go on knowing that it did. *)
Ltac refresh_special :=
  idtac;
  lazymatch goal with
  | |- triple ?I (bind (write _) _) _ _ =>
      apply triple_bind_write_then
        with (I' := fun s => I s /\ EvWrite true ∈ trace s);
      [ hoare refresh_leaf | hoare refresh_leaf | hoare refresh_leaf
      | intros ?; hoare refresh_leaf ]
  end.

(** X2.  [ConfigureGeneral] and [ConfigureDlna] call their refresh hooks
    only after the write succeeded; [ConfigureInterface] and
    [ConfigureDefaults] call none. *)
Lemma refreshes_follow_commit w c :
  (forall input,
     refreshAfterCommit (callsOf (exec (ConfigureGeneral w input) (initState c)))) /\
  (forall input,
     refreshAfterCommit (callsOf (exec (ConfigureDlna w input) (initState c)))) /\
  (forall input,
     Forall (fun e => isRefresh e = false)
            (callsOf (exec (ConfigureInterface w input) (initState c)))) /\
  (forall input,
     Forall (fun e => isRefresh e = false)
            (callsOf (exec (ConfigureDefaults w input) (initState c)))).
Proof.
  repeat split; intros input.
  - apply (triple_exec (fun s => refreshAfterCommit (trace s)) _ (fun _ _ => True)
             (fun _ s => refreshAfterCommit (trace s)));
      [| apply refreshAfterCommit_nil].
    hoare_with refresh_special refresh_leaf.
  - apply (triple_exec (fun s => refreshAfterCommit (trace s)) _ (fun _ _ => True)
             (fun _ s => refreshAfterCommit (trace s)));
      [| apply refreshAfterCommit_nil].
    hoare_with refresh_special refresh_leaf.
  - apply (triple_exec (fun s => Forall (fun e => isRefresh e = false) (trace s)) _
             (fun _ _ => True)
             (fun _ s => Forall (fun e => isRefresh e = false) (trace s)));
      [| constructor].
    hoare log_leaf.
  - apply (triple_exec (fun s => Forall (fun e => isRefresh e = false) (trace s)) _
             (fun _ _ => True)
             (fun _ s => Forall (fun e => isRefresh e = false) (trace s)));
      [| constructor].
    hoare log_leaf.
Qed.

(** ** The change set and the payload of a tolerated write failure *)












(** ** The commit (lines 465-473 and the like in every handler) *)

Lemma writtenLog_intro calls :
  unwrittenLog calls -> writtenLog (calls ++ [EvWrite true]).
Proof. intros H. exists calls, []. by repeat split. Qed.

Lemma writtenLog_snoc calls e :
  writtenLog calls -> isRefresh e = true -> writtenLog (calls ++ [e]).
Proof.
  intros (before & after & -> & Hb & Ha) He. exists before, (after ++ [e]).
  split; [by rewrite <- app_assoc|]. split; [done|].
  apply Forall_app_2; [done | by repeat constructor].
Qed.

Lemma failedLog_intro calls :
  unwrittenLog calls -> failedLog (calls ++ [EvWrite false]).
Proof. intros H. by exists calls. Qed.

(** The write: the code that follows runs knowing how it went. *)
Lemma triple_bind_write_split {R B} w (I IT IF : State -> Prop)
    (k : option ExtError -> M R B) Q (E : Outcome R -> State -> Prop) :
  triple I (emit (EvWrite true)) (fun _ => IT) E ->
  triple I (emit (EvWrite false)) (fun _ => IF) E ->
  triple IT (k None) Q E ->
  (forall e, triple IF (k (Some e)) Q E) ->
  triple I (bind (write w) k) Q E.
Proof.
  intros Ht Hf Hk Hke s Hs. specialize (Ht s Hs). specialize (Hf s Hs).
  unfold write, bind, call, emit, ret in *. cbn in *.
  destruct (Write w (cfg s)) as [e|]; cbn; [by apply Hke | by apply Hk].
Qed.

Ltac commit_leaf :=
  unfold commitExit in *; cbn;
  read_verdicts;
  repeat match goal with
  | Hc : DirExistsContract ?w, H : negb (fst (DirExists ?w ?p)) = true |- _ =>
      apply negb_true_iff, Hc in H; destruct (snd (DirExists w p)) eqn:?; [|done]
  end;
  cbn;
  first
    [ assumption
    | apply Forall_app_2; [assumption | by repeat constructor]
    | by apply writtenLog_intro
    | by apply failedLog_intro
    | by apply writtenLog_snoc
    | left; split; [assumption|]; first [by left | right; by eexists _, _]
    | right; left; split; [assumption|]; by eexists
    | right; right; split; [assumption|]; by eexists _, _ ].

Ltac commit_protocol_special :=
  idtac;
  lazymatch goal with
  | |- triple _ (bind (write _) _) _ _ =>
      apply triple_bind_write_split
        with (IT := fun s => writtenLog (trace s)) (IF := fun s => failedLog (trace s));
      [ hoare commit_leaf | hoare commit_leaf | hoare commit_leaf
      | intros ?; hoare commit_leaf ]
  end.

Lemma handler_commit_protocol {A} (m : M (A * option Error) Empty_set) c :
  triple (fun s => unwrittenLog (trace s)) m (fun _ _ => True) commitExit ->
  let r := exec m (initState c) in
  commitExit (outcomeOf r) (finalState r).
Proof. intros Hm. apply (triple_exec _ _ _ _ (initState c) Hm). constructor. Qed.

(** X4.  When a path that is not on disk comes with an error,
    [ConfigureGeneral] ends in one of three ways: without having called
    the write, with a panic or an error that is not a write error; having
    called the write once, which succeeded and was followed by refresh
    hooks only, without error; or with the one write as its last call,
    which failed, with the write error or the change set as error. *)
Theorem ConfigureGeneral_commit_protocol (w : World) (c : Config)
    (input : ConfigGeneralInput) :
  DirExistsContract w ->
  let r := exec (ConfigureGeneral w input) (initState c) in
  commitExit (outcomeOf r) (finalState r).
Proof.
  intros Hc. apply handler_commit_protocol.
  hoare_with commit_protocol_special commit_leaf.
Qed.

Lemma ConfigureGeneral_commit_protocol_witness :
  let r := exec (ConfigureGeneral (sampleWorld [] false) inputTwoRoots)
                (initState sampleConfig) in
  DirExistsContract (sampleWorld [] false) /\ commitExit (outcomeOf r) (finalState r).
Proof.
  split; [apply sampleWorld_DirExistsContract|].
  apply (ConfigureGeneral_commit_protocol (sampleWorld [] false) sampleConfig
           inputTwoRoots (sampleWorld_DirExistsContract [] false)).
Defined.

(** X5.  The other handlers end in the same three ways, whatever the
    collaborators answer. *)
Theorem handlers_commit_protocol (w : World) (c : Config) :
  (forall input,
     let r := exec (ConfigureInterface w input) (initState c) in
     commitExit (outcomeOf r) (finalState r)) /\
  (forall input,
     let r := exec (ConfigureDlna w input) (initState c) in
     commitExit (outcomeOf r) (finalState r)) /\
  (forall input,
     let r := exec (ConfigureScraping w input) (initState c) in
     commitExit (outcomeOf r) (finalState r)) /\
  (forall input,
     let r := exec (ConfigureDefaults w input) (initState c) in
     commitExit (outcomeOf r) (finalState r)) /\
  (forall input,
     let r := exec (GenerateAPIKey w input) (initState c) in
     commitExit (outcomeOf r) (finalState r)) /\
  (forall input partial,
     let r := exec (ConfigureUI w input partial) (initState c) in
     commitExit (outcomeOf r) (finalState r)) /\
  (forall key value,
     let r := exec (ConfigureUISetting w key value) (initState c) in
     commitExit (outcomeOf r) (finalState r)) /\
  (forall pluginID input,
     let r := exec (ConfigurePlugin w pluginID input) (initState c) in
     commitExit (outcomeOf r) (finalState r)).
Proof.
  repeat split; intros; apply handler_commit_protocol;
    hoare_with commit_protocol_special commit_leaf.
Qed.

(** ** The refresh hooks are called for a reason (lines 171-267, 451-499) *)

Lemma triple_bind_getFlag_known {R B} (I : State -> Prop) (f : Flag) (b : bool)
    (k : bool -> M R B) Q (E : Outcome R -> State -> Prop) :
  (forall s, I s -> flags s f = b) ->
  triple I (k b) Q E ->
  triple I (bind (getFlag f) k) Q E.
Proof. intros Hb Hk s Hs. unfold bind, getFlag. rewrite (Hb s Hs). by apply Hk. Qed.

(** A field that does not change the stored value is absent or equal to it. *)
Lemma changesPath_or_not c input key :
  changesPath c input key \/
  (forall path, pathField input key = Some path -> path = getString c key).
Proof.
  unfold changesPath. destruct (pathField input key) as [path|]; [|by right].
  destruct (decide (path = getString c key)) as [->|Hne].
  - right. by intros ? [= <-].
  - left. by exists path.
Qed.

Lemma changesFfmpeg_or_not c input :
  changesFfmpeg c input \/
  (forall path, FfmpegPath input = Some path -> path = GetFFMpegPath c).
Proof.
  unfold changesFfmpeg. destruct (FfmpegPath input) as [path|]; [|by right].
  destruct (decide (path = GetFFMpegPath c)) as [->|Hne].
  - right. by intros ? [= <-].
  - left. by exists path.
Qed.

Lemma changesFfprobe_or_not c input :
  changesFfprobe c input \/
  (forall path, FfprobePath input = Some path -> path = GetFFProbePath c).
Proof.
  unfold changesFfprobe. destruct (FfprobePath input) as [path|]; [|by right].
  destruct (decide (path = GetFFProbePath c)) as [->|Hne].
  - right. by intros ? [= <-].
  - left. by exists path.
Qed.

Lemma BlobsStorageType_eqb_refl t : BlobsStorageType_eqb t t = true.
Proof. by destruct t. Qed.

Lemma changesBlobsStorage_or_not c input :
  changesBlobsStorage c input \/
  (forall storage, BlobsStorage input = Some storage -> storage = GetBlobsStorage c).
Proof.
  unfold changesBlobsStorage. destruct (BlobsStorage input) as [storage|]; [|by right].
  destruct (BlobsStorageType_eqb storage (GetBlobsStorage c)) eqn:Heq.
  - right. intros ? [= <-]. by destruct storage, (GetBlobsStorage c).
  - left. exists storage. split; [done|]. intros ->.
    by rewrite BlobsStorageType_eqb_refl in Heq.
Qed.

(** The branch that sets a field is not taken by a field that does not
    change the stored value. *)
Ltac absurd_change :=
  match goal with
  | Hun : forall p, ?field = Some p -> p = _, Heq : ?field = Some ?p,
    H : negb (String.eqb _ _) = true |- _ =>
      exfalso; apply negb_true_iff, String.eqb_neq in H; apply H;
      rewrite (Hun _ Heq); reflexivity
  | Hun : forall p, ?field = Some p -> p = _, Heq : ?field = Some ?p,
    H : negb (BlobsStorageType_eqb _ _) = true |- _ =>
      exfalso; rewrite (Hun _ Heq), BlobsStorageType_eqb_refl in H; discriminate
  | Hun : forall p, Some ?x = Some p -> p = _,
    H : negb (String.eqb _ _) = true |- _ =>
      exfalso; apply negb_true_iff, String.eqb_neq in H; apply H;
      rewrite (Hun _ eq_refl); reflexivity
  | Hun : forall p, Some ?x = Some p -> p = _,
    H : negb (BlobsStorageType_eqb _ _) = true |- _ =>
      exfalso; rewrite (Hun _ eq_refl), BlobsStorageType_eqb_refl in H; discriminate
  | Hnone : ?field = None, Heq : ?field = Some _ |- _ => congruence
  | Hnone : Some _ = None |- _ => discriminate
  | H : false = true |- _ => discriminate
  end.

Ltac quiet_leaf :=
  try (solve [absurd_change]);
  unfold quiet in *; cbn;
  repeat match goal with
  | H : _ /\ _ |- _ => destruct H
  | H : Forall _ (_ :: _) |- _ => apply Forall_cons in H
  end;
  repeat match goal with
  | |- _ => assumption
  | |- _ = false => reflexivity
  | |- _ /\ _ => split
  | |- Forall _ [] => constructor
  | |- Forall _ (_ :: _) => constructor
  | |- <[_:=_]> _ !! _ = _ => rewrite lookup_insert_ne by done
  | |- Forall _ (_ ++ _) => apply Forall_app_2; [| by repeat constructor]
  end.

(** At a getter of one of the keys and at the reading of one of the
    flags: the answer is known. *)
Ltac quiet_special_with c leaf :=
  idtac;
  lazymatch goal with
  | |- triple _ (bind (call ?g) _) _ _ =>
      apply triple_bind_call_known with (v := g c);
      [ solve [ let Hq := fresh in
                intros ? Hq; unfold quiet in Hq; destruct Hq as [Hq _];
                repeat (apply Forall_cons in Hq as [? Hq]);
                unfold g, getString;
                by repeat match goal with
                          | H : _ !! _ = _ |- _ => rewrite H
                          end ]
      | hoare_with ltac:(quiet_special_with c leaf) leaf ]
  | |- triple _ (bind (getFlag ?f) _) _ _ =>
      apply triple_bind_getFlag_known with (b := false);
      [ solve [ let Hq := fresh in
                intros ? Hq; unfold quiet in Hq; destruct Hq as (_ & Hq & _);
                repeat (apply Forall_cons in Hq as [? Hq]); assumption ]
      | cbv beta delta [when] iota; hoare_with ltac:(quiet_special_with c leaf) leaf ]
  end.

Ltac quiet_special c := quiet_special_with c quiet_leaf.

Lemma quiet_init c keys fl hook : quiet c keys fl hook (initState c).
Proof.
  repeat split; [by apply Forall_forall | by apply Forall_forall | constructor].
Qed.

Lemma quiet_calls {R} c keys fl hook (m : M R Empty_set) e :
  triple (quiet c keys fl hook) m (fun _ _ => True)
    (fun _ s => quiet c keys fl hook s) ->
  hook e = true ->
  e ∉ callsOf (exec m (initState c)).
Proof.
  intros Hm He Hin.
  destruct (triple_exec _ _ _ _ (initState c) Hm (quiet_init c keys fl hook))
    as (_ & _ & Hlog).
  rewrite Forall_forall in Hlog. specialize (Hlog _ Hin). congruence.
Qed.

Lemma scraper_cache_quiet w c input :
  (forall path, ScrapersPath input = Some path -> path = GetScrapersPath c) ->
  EvRefreshScraperCache ∉ callsOf (exec (ConfigureGeneral w input) (initState c)).
Proof.
  intros Hun.
  apply (quiet_calls c [config.ScrapersPath] [refreshScraperCache]
           isRefreshScraperCache); [|done].
  hoare_with ltac:(quiet_special c) quiet_leaf.
Qed.

Lemma plugin_cache_quiet w c input :
  (forall path, PluginsPath input = Some path -> path = GetPluginsPath c) ->
  EvRefreshPluginCache ∉ callsOf (exec (ConfigureGeneral w input) (initState c)).
Proof.
  intros Hun.
  apply (quiet_calls c [config.PluginsPath] [refreshPluginCache]
           isRefreshPluginCache); [|done].
  hoare_with ltac:(quiet_special c) quiet_leaf.
Qed.

Lemma ffmpeg_quiet w c input :
  (forall path, FfmpegPath input = Some path -> path = GetFFMpegPath c) ->
  (forall path, FfprobePath input = Some path -> path = GetFFProbePath c) ->
  EvRefreshFFMpeg ∉ callsOf (exec (ConfigureGeneral w input) (initState c)).
Proof.
  intros Hffmpeg Hffprobe.
  apply (quiet_calls c [config.FFMpegPath; config.FFProbePath] [refreshFfmpeg]
           isRefreshFFMpeg); [|done].
  hoare_with ltac:(quiet_special c) quiet_leaf.
Qed.

Lemma stream_manager_quiet w c input :
  (forall path, CachePath input = Some path -> path = GetCachePath c) ->
  (forall path, FfmpegPath input = Some path -> path = GetFFMpegPath c) ->
  (forall path, FfprobePath input = Some path -> path = GetFFProbePath c) ->
  EvRefreshStreamManager ∉ callsOf (exec (ConfigureGeneral w input) (initState c)).
Proof.
  intros Hcache Hffmpeg Hffprobe.
  apply (quiet_calls c [config.Cache; config.FFMpegPath; config.FFProbePath]
           [refreshStreamManager; refreshFfmpeg] isRefreshStreamManager); [|done].
  hoare_with ltac:(quiet_special c) quiet_leaf.
Qed.

Lemma blob_store_quiet w c input :
  (forall path, BlobsPath input = Some path -> path = GetBlobsPath c) ->
  (forall storage, BlobsStorage input = Some storage -> storage = GetBlobsStorage c) ->
  EvSetBlobStoreOptions ∉ callsOf (exec (ConfigureGeneral w input) (initState c)).
Proof.
  intros Hpath Hstorage.
  apply (quiet_calls c [config.BlobsPath; config.BlobsStorage] [refreshBlobStorage]
           isSetBlobStoreOptions); [|done].
  hoare_with ltac:(quiet_special c) quiet_leaf.
Qed.

Lemma scraper_source_quiet w c input :
  (forall path, ScrapersPath input = Some path -> path = GetScrapersPath c) ->
  ScraperPackageSources input = None ->
  EvRefreshScraperSourceManager ∉ callsOf (exec (ConfigureGeneral w input) (initState c)).
Proof.
  intros Hun Hnone.
  apply (quiet_calls c [config.ScrapersPath] [refreshScraperSource]
           isRefreshScraperSourceManager); [|done].
  hoare_with ltac:(quiet_special c) quiet_leaf.
Qed.

Lemma plugin_source_quiet w c input :
  (forall path, PluginsPath input = Some path -> path = GetPluginsPath c) ->
  PluginPackageSources input = None ->
  EvRefreshPluginSourceManager ∉ callsOf (exec (ConfigureGeneral w input) (initState c)).
Proof.
  intros Hun Hnone.
  apply (quiet_calls c [config.PluginsPath] [refreshPluginSource]
           isRefreshPluginSourceManager); [|done].
  hoare_with ltac:(quiet_special c) quiet_leaf.
Qed.

Lemma dlna_quiet w c input :
  EvRefreshDLNA ∉ callsOf (exec (ConfigureGeneral w input) (initState c)).
Proof.
  apply (quiet_calls c [] [] isRefreshDLNA); [|done].
  hoare quiet_leaf.
Qed.

(** X6.  [ConfigureGeneral] calls a refresh hook, other than the refresh
    of the configuration, only for a field of the input that made it due:
    the caches for a scrapers or plugins path that differs from the stored
    one, the transcoder for an ffmpeg or ffprobe path that differs, the
    streaming manager for one of these or a cache path that differs, the
    blob store for a blobs path or storage type that differs, the source
    managers for a path that differs or a list of package sources.  It
    never refreshes the DLNA service. *)
Theorem hooks_need_a_cause (w : World) (c : Config) (input : ConfigGeneralInput)
    (e : Event) :
  e ∈ callsOf (exec (ConfigureGeneral w input) (initState c)) ->
  hookCause c input e.
Proof.
  intros Hin. destruct e; try exact I; cbn.
  - destruct (changesPath_or_not c input config.ScrapersPath) as [?|Hun]; [done|].
    by destruct (scraper_cache_quiet w c input Hun).
  - destruct (changesPath_or_not c input config.PluginsPath) as [?|Hun]; [done|].
    by destruct (plugin_cache_quiet w c input Hun).
  - destruct (changesFfmpeg_or_not c input) as [?|Hffmpeg]; [by left|].
    destruct (changesFfprobe_or_not c input) as [?|Hffprobe]; [by right|].
    by destruct (ffmpeg_quiet w c input Hffmpeg Hffprobe).
  - destruct (changesPath_or_not c input config.Cache) as [?|Hcache]; [by left|].
    destruct (changesFfmpeg_or_not c input) as [?|Hffmpeg]; [by right; left|].
    destruct (changesFfprobe_or_not c input) as [?|Hffprobe]; [by right; right|].
    by destruct (stream_manager_quiet w c input Hcache Hffmpeg Hffprobe).
  - destruct (changesPath_or_not c input config.BlobsPath) as [?|Hpath]; [by left|].
    destruct (changesBlobsStorage_or_not c input) as [?|Hstorage]; [by right|].
    by destruct (blob_store_quiet w c input Hpath Hstorage).
  - destruct (changesPath_or_not c input config.ScrapersPath) as [?|Hun]; [by left|].
    destruct (ScraperPackageSources input) eqn:Hsources; [by right|].
    by destruct (scraper_source_quiet w c input Hun Hsources).
  - destruct (changesPath_or_not c input config.PluginsPath) as [?|Hun]; [by left|].
    destruct (PluginPackageSources input) eqn:Hsources; [by right|].
    by destruct (plugin_source_quiet w c input Hun Hsources).
  - by destruct (dlna_quiet w c input).
Qed.

Lemma hooks_need_a_cause_witness :
  let calls := callsOf (exec (ConfigureGeneral (sampleWorld [] false) inputFfmpegPath)
                             (initState sampleConfig)) in
  EvRefreshStreamManager ∈ calls /\
  hookCause sampleConfig inputFfmpegPath EvRefreshStreamManager.
Proof.
  cbv zeta.
  assert (EvRefreshStreamManager
            ∈ callsOf (exec (ConfigureGeneral (sampleWorld [] false) inputFfmpegPath)
                            (initState sampleConfig))) as Hin.
  { vm_compute. repeat constructor. }
  split; [exact Hin|].
  exact (hooks_need_a_cause (sampleWorld [] false) sampleConfig inputFfmpegPath
           EvRefreshStreamManager Hin).
Defined.

(** ** Fields that do not change the stored value (lines 137-231) *)

Ltac kept_leaf :=
  try (solve [absurd_change]);
  unfold keptExit in *;
  read_verdicts;
  repeat match goal with
  | |- _ /\ _ => split
  | |- errorOf _ <> _ => cbn
  | |- option_map _ ?x <> Some _ => by destruct x
  | |- _ <> _ => done
  end;
  quiet_leaf.

Lemma ConfigureGeneral_keeps_path w c input key :
  key ∈ governedKeys ->
  keepsPath c input key ->
  triple (quiet c [key] [] (touches key)) (ConfigureGeneral w input)
    (fun _ _ => True) (keptExit c key).
Proof.
  intros Hkey Hun. unfold governedKeys in Hkey. unfold keepsPath in Hun.
  repeat (apply elem_of_cons in Hkey as [->|Hkey]); [..| by apply elem_of_nil in Hkey];
    cbn in Hun; hoare_with ltac:(quiet_special_with c kept_leaf) kept_leaf.
Qed.

(** X7.  When the input leaves a governed key as it is (the field of the
    database path or of one of the seven directories is absent or equal to
    the stored path), [ConfigureGeneral] neither checks the override of
    the key nor calls a setter on it, and does not refuse the call for the
    key being overridden. *)
Theorem unchanged_path_is_skipped (w : World) (c : Config) (input : ConfigGeneralInput)
    (key : string) :
  key ∈ governedKeys ->
  keepsPath c input key ->
  let r := exec (ConfigureGeneral w input) (initState c) in
  Forall (fun e => touches key e = false) (callsOf r) /\
  errorOf (outcomeOf r) <> Some (ErrOverriddenConfig key).
Proof.
  intros Hkey Hun r.
  destruct (triple_exec _ _ _ _ (initState c)
              (ConfigureGeneral_keeps_path w c input key Hkey Hun)
              (quiet_init c [key] [] (touches key)))
    as [(_ & _ & Hlog) Herr].
  done.
Qed.

Lemma unchanged_path_is_skipped_witness :
  let input := generalInput None (Some "stash.db") None None None None None None None None in
  let r := exec (ConfigureGeneral (sampleWorld [config.Database] false) input)
                (initState sampleConfig) in
  config.Database ∈ governedKeys /\
  keepsPath sampleConfig input config.Database /\
  Forall (fun e => touches config.Database e = false) (callsOf r) /\
  errorOf (outcomeOf r) <> Some (ErrOverriddenConfig config.Database).
Proof.
  cbv zeta.
  assert (config.Database ∈ governedKeys) as Hkey by left.
  assert (keepsPath sampleConfig
            (generalInput None (Some "stash.db") None None None None None None None None)
            config.Database) as Hun.
  { intros path [= <-]. reflexivity. }
  split; [exact Hkey|]. split; [exact Hun|].
  exact (unchanged_path_is_skipped (sampleWorld [config.Database] false) sampleConfig
           _ config.Database Hkey Hun).
Defined.

(** ** Calls without a field *)

(** X8.  A call whose input has no field calls no setter and no
    validation: it writes the document as it found it, once, and after a
    write that succeeded [ConfigureGeneral] refreshes the configuration
    and nothing else, the other handlers nothing; after a write that
    failed the error is the write error, or the empty change set on a
    store that puts up with a read-only file. *)
Theorem empty_input_only_writes (w : World) (c : Config) :
  onlyWrites w c [EvRefreshConfig]
    (exec (ConfigureGeneral w emptyGeneralInput) (initState c)) /\
  onlyWrites w c [] (exec (ConfigureInterface w emptyInterfaceInput) (initState c)) /\
  onlyWrites w c [] (exec (ConfigureDlna w emptyDLNAInput) (initState c)) /\
  onlyWrites w c [] (exec (ConfigureScraping w emptyScrapingInput) (initState c)) /\
  onlyWrites w c [] (exec (ConfigureDefaults w emptyDefaultsInput) (initState c)).
Proof.
  unfold onlyWrites, exec, outcomeOf, finalState, callsOf, errorOf.
  repeat split; cbn; destruct (Write w c); cbn;
    try (destruct (GetAllowReadOnlyConfigFile w)); done.
Qed.

(** ** The extension of the database path (lines 137-149) *)

Lemma append_empty (s : string) : String.append s "" = s.
Proof.
  induction s as [|a s IH]; [done|].
  change (String a (String.append s "") = String a s). by rewrite IH.
Qed.

(** [filepath.Ext] answers with a suffix of the path. *)
Lemma Ext_suffix path : exists stem, path = String.append stem (Ext path).
Proof.
  induction path as [|a rest [stem IH]]; [by exists ""|].
  cbn [Ext]. destruct (hasDotOrSeparator rest).
  - exists (String a stem).
    change (String a rest = String a (String.append stem (Ext rest))). by rewrite <- IH.
  - destruct (isDot a).
    + by exists "".
    + exists (String a rest). by rewrite append_empty.
Qed.

Ltac database_leaf :=
  cbn;
  first
    [ assumption
    | apply Forall_app_2; [assumption|]; repeat constructor; cbn;
      first
        [ done
        | intros _; eexists; split; [reflexivity|]; split; [eassumption|];
          unfold databaseExtensions;
          repeat match goal with
          | H : _ && _ = false |- _ => apply andb_false_iff in H as [H|H]
          | H : negb (String.eqb _ _) = false |- _ =>
              apply negb_false_iff, String.eqb_eq in H; rewrite H
          end; set_solver ]
    | done ].

Lemma ConfigureGeneral_databaseSetter w input :
  triple (fun s => Forall (databaseSetter input) (trace s)) (ConfigureGeneral w input)
    (fun _ _ => True) (fun _ s => Forall (databaseSetter input) (trace s)).
Proof. hoare database_leaf. Qed.

(** X9.  [ConfigureGeneral] sets the database path only to the path of
    the input, and only when its extension, the suffix that [filepath.Ext]
    cuts off the path, is [.db], [.sqlite] or [.sqlite3]. *)
Theorem database_path_extension (w : World) (c : Config) (input : ConfigGeneralInput)
    (v : Value) :
  EvSet config.Database v ∈ callsOf (exec (ConfigureGeneral w input) (initState c)) ->
  exists path stem,
    v = VString path /\ DatabasePath input = Some path /\
    Ext path ∈ databaseExtensions /\ path = String.append stem (Ext path).
Proof.
  intros Hin.
  pose proof (triple_exec _ _ _ _ (initState c) (ConfigureGeneral_databaseSetter w input)
                (Forall_nil_2 _)) as Hall.
  cbn beta in Hall. rewrite Forall_forall in Hall.
  destruct (Hall _ Hin eq_refl) as (path & -> & Hfield & Hext).
  destruct (Ext_suffix path) as [stem Hstem]. by exists path, stem.
Qed.

Lemma database_path_extension_witness :
  let calls := callsOf (exec (ConfigureGeneral (sampleWorld [] false) inputDatabasePath)
                             (initState sampleConfig)) in
  EvSet config.Database (VString "other.db") ∈ calls /\
  exists path stem,
    VString "other.db" = VString path /\ DatabasePath inputDatabasePath = Some path /\
    Ext path ∈ databaseExtensions /\ path = String.append stem (Ext path).
Proof.
  cbv zeta.
  assert (EvSet config.Database (VString "other.db")
            ∈ callsOf (exec (ConfigureGeneral (sampleWorld [] false) inputDatabasePath)
                            (initState sampleConfig))) as Hin.
  { vm_compute. repeat constructor. }
  split; [exact Hin|].
  exact (database_path_extension (sampleWorld [] false) sampleConfig inputDatabasePath
           (VString "other.db") Hin).
Defined.

(** ** Blobs in the file system need a blobs path (lines 221-242) *)

(** With an empty blobs path in the input, or none in the input and none
    stored, the store has an empty blobs path once the field is done. *)
Lemma general_BlobsPath_empty w c input :
  effectiveBlobsPath c input = "" ->
  triple (quiet c [config.BlobsPath] [] isFilesystemSet) (general_BlobsPath w input)
    (fun _ => noBlobsPath)
    (fun _ s => Forall (fun e => isFilesystemSet e = false) (trace s)).
Proof.
  intros Heff s (Hk & _ & Hlog). apply Forall_cons in Hk as [Hk _].
  assert (GetBlobsPath (cfg s) = GetBlobsPath c) as Hsame.
  { unfold GetBlobsPath, getString. by rewrite Hk. }
  unfold effectiveBlobsPath in Heff.
  unfold general_BlobsPath, general_dir, validateDir, checkConfigOverride, hasOverride,
    ensureDir, returnGeneral, makeConfigGeneralResult, SetString, storeSet, setLocal,
    setFlag, bind, call, emit, ret, Return, noBlobsPath.
  cbn. destruct (BlobsPath input) as [path|]; cbn.
  - subst path. destruct (negb (GetBlobsPath (cfg s) =? "")) eqn:Hne; cbn.
    + destruct (HasOverride w config.BlobsPath); cbn.
      * apply Forall_app_2; [done | by repeat constructor].
      * split.
        { unfold getString, setValue. cbn. by rewrite lookup_insert_eq. }
        repeat (apply Forall_app_2; [| by repeat constructor]). done.
    + apply negb_false_iff, String.eqb_eq in Hne. done.
  - split; [| done]. change (GetBlobsPath (cfg s) = ""). by rewrite Hsame.
Qed.

Ltac blobs_leaf :=
  unfold noBlobsPath, getString in *; cbn;
  repeat match goal with
  | H : _ /\ _ |- _ => destruct H
  end;
  repeat match goal with
  | |- _ => assumption
  | |- _ /\ _ => split
  | |- context [<[_:=_]> _ !! _] => rewrite lookup_insert_ne by done
  | |- Forall _ (_ ++ _) => apply Forall_app_2; [assumption|]
  | H : BlobsStorageType_eqb ?t _ && _ = false
    |- Forall _ [EvSet _ (VBlobsStorage ?t)] =>
      destruct t; cbn in *; first [done | by repeat constructor]
  | |- Forall _ [_] => by repeat constructor
  end.

Ltac blobs_special :=
  idtac;
  lazymatch goal with
  | |- triple noBlobsPath (bind (call GetBlobsPath) _) _ _ =>
      apply triple_bind_call_known with (v := "");
      [ by intros ? [? _] | hoare blobs_leaf ]
  end.

Lemma ConfigureGeneral_no_blobs_path w c input :
  effectiveBlobsPath c input = "" ->
  triple (quiet c [config.BlobsPath] [] isFilesystemSet) (ConfigureGeneral w input)
    (fun _ _ => True)
    (fun _ s => Forall (fun e => isFilesystemSet e = false) (trace s)).
Proof.
  intros Heff. unfold ConfigureGeneral.
  do 8 (apply triple_seq; [hoare quiet_leaf | intros ?]).
  eapply triple_bind with (Q' := fun _ => noBlobsPath).
  - by apply general_BlobsPath_empty.
  - intros ?. hoare_with blobs_special blobs_leaf.
Qed.

(** X10.  [ConfigureGeneral] sets the storage type of the blobs to the
    file system only when the blobs path is not empty: the path of the
    input if it has one, else the stored one. *)
Theorem filesystem_blobs_need_a_path (w : World) (c : Config)
    (input : ConfigGeneralInput) :
  EvSet config.BlobsStorage (VBlobsStorage BlobStorageTypeFilesystem)
    ∈ callsOf (exec (ConfigureGeneral w input) (initState c)) ->
  effectiveBlobsPath c input <> "".
Proof.
  intros Hin Heff.
  pose proof (triple_exec _ _ _ _ (initState c)
                (ConfigureGeneral_no_blobs_path w c input Heff)
                (quiet_init c _ _ _)) as Hall.
  cbn beta in Hall. rewrite Forall_forall in Hall. by specialize (Hall _ Hin).
Qed.

Lemma filesystem_blobs_need_a_path_witness :
  EvSet config.BlobsStorage (VBlobsStorage BlobStorageTypeFilesystem)
    ∈ callsOf (exec (ConfigureGeneral (sampleWorld [] false) inputBlobsInFilesystem)
                    (initState sampleConfig)) /\
  effectiveBlobsPath sampleConfig inputBlobsInFilesystem <> "".
Proof.
  assert (EvSet config.BlobsStorage (VBlobsStorage BlobStorageTypeFilesystem)
            ∈ callsOf (exec (ConfigureGeneral (sampleWorld [] false)
                               inputBlobsInFilesystem)
                            (initState sampleConfig))) as Hin.
  { vm_compute. repeat constructor. }
  split; [exact Hin|].
  exact (filesystem_blobs_need_a_path (sampleWorld [] false) sampleConfig
           inputBlobsInFilesystem Hin).
Defined.

(** ** The errors of [ConfigureGeneral] and their causes *)

Lemma overrideVerdict_Some w key e :
  overrideVerdict w key = Some e -> e = ErrOverriddenConfig key /\ HasOverride w key = true.
Proof. unfold overrideVerdict. destruct (HasOverride w key); by intros [= <-]. Qed.

Lemma validateDirVerdict_Some w key path optional e :
  validateDirVerdict w key path optional = Some e ->
  (e = ErrOverriddenConfig key /\ HasOverride w key = true) \/
  (exists e', e = External FromEnsureDir e' /\ HasOverride w key = false /\
              EnsureDir w path = Some e').
Proof.
  unfold validateDirVerdict, overrideVerdict.
  destruct (HasOverride w key); [intros [= <-]; by left|].
  destruct (negb optional || negb (path =? "")); [|done].
  destruct (EnsureDir w path) as [e'|]; [|done].
  intros [= <-]. right. by exists e'.
Qed.

(** The write: the code that follows a failure knows of a document that
    the store refused to write. *)
Lemma triple_bind_write_refused {R B} w (I : State -> Prop)
    (k : option ExtError -> M R B) Q (E : Outcome R -> State -> Prop) :
  triple I (emit (EvWrite true)) (fun _ => I) E ->
  triple I (emit (EvWrite false)) (fun _ => I) E ->
  triple I (k None) Q E ->
  (forall e, (exists c', Write w c' = Some e) -> triple I (k (Some e)) Q E) ->
  triple I (bind (write w) k) Q E.
Proof.
  intros Ht Hf Hk Hke s Hs. specialize (Ht s Hs). specialize (Hf s Hs).
  unfold write, bind, call, emit, ret in *. cbn in *.
  destruct (Write w (cfg s)) as [e|] eqn:Hw; cbn; [|by apply Hk].
  apply Hke; [by exists (cfg s) | done].
Qed.

Ltac cause_leaf :=
  cbn;
  try exact I;
  repeat match goal with
  | H : overrideVerdict _ _ = Some _ |- _ =>
      let Hov := fresh "Hov" in
      apply overrideVerdict_Some in H; destruct H as [-> Hov]
  | H : validateDirVerdict _ _ _ _ = Some _ |- _ =>
      let Hov := fresh "Hov" in
      let Hdir := fresh "Hdir" in
      apply validateDirVerdict_Some in H;
      destruct H as [[-> Hov]|(? & -> & Hov & Hdir)]
  | H : negb (fst (DirExists ?w ?p)) = true |- _ =>
      destruct (DirExists w p) as [[] []] eqn:?; cbn in H; try discriminate H; clear H
  end;
  intros ? [= <-]; cbn;
  lazymatch goal with
  | |- exists stashes s, _ = Some stashes /\ _ =>
      eexists _, _; repeat split; eassumption
  | H : EnsureDir _ ?p = Some _, Hk : HasOverride _ ?k = false
    |- exists key path, _ =>
      exists k, p; repeat split; [cbn; eassumption | assumption | assumption]
  | |- _ = false /\ exists c', _ => split; [assumption|]; assumption
  | |- _ = true /\ exists c', _ <> None =>
      split; [assumption|];
      match goal with
      | H : exists c', _ = Some _ |- _ =>
          let c' := fresh in
          let Hc := fresh in
          destruct H as [c' Hc]; exists c'; by rewrite Hc
      end
  | |- HasOverride _ _ = true /\ _ => split; [assumption | cbn; congruence]
  | |- exists path, DatabasePath _ = Some path /\ _ =>
      eexists; split; [eassumption|];
      unfold databaseExtensions;
      match goal with
      | H : _ && _ && _ = true |- _ =>
          apply andb_true_iff in H; destruct H as [H ?];
          apply andb_true_iff in H; destruct H as [? ?];
          repeat match goal with
          | H' : negb (String.eqb _ _) = true |- _ =>
              apply negb_true_iff in H'; apply String.eqb_neq in H'
          end
      end;
      rewrite !not_elem_of_cons; repeat split; first [assumption | apply not_elem_of_nil]
  | |- BlobsStorage _ = Some BlobStorageTypeFilesystem =>
      match goal with
      | H : BlobsStorageType_eqb ?t _ && _ = true |- _ => by destruct t
      end
  | |- exists path, _ = Some path /\ path <> "" /\ _ =>
      eexists; split; [eassumption|]; split; [| eassumption];
      match goal with
      | H : negb (String.eqb _ "") = true |- _ =>
          by apply negb_true_iff, String.eqb_neq in H
      end
  | |- VideoFileNamingAlgorithm _ = Some HashAlgorithmMd5 /\ _ =>
      match goal with
      | H : negb ?b && HashAlgorithm_eqb ?a _ = true |- _ =>
          destruct a; cbn in H; rewrite ?andb_false_r in H; [| discriminate];
          split; [assumption|]; destruct b; [discriminate | congruence]
      end
  | |- exists patterns, _ = Some patterns /\ _ =>
      eexists; repeat split; eassumption
  | |- exists x, _ = Some x /\ _ => eexists; split; eassumption
  | |- _ = Some _ /\ _ = Some _ => split; assumption
  end.

Ltac cause_special_with leaf :=
  idtac;
  lazymatch goal with
  | |- triple _ (bind (write _) _) _ _ =>
      apply triple_bind_write_refused;
      [ hoare leaf | hoare leaf | hoare leaf | intros ? ?; hoare leaf ]
  end.

Ltac cause_special := cause_special_with cause_leaf.

(** X11.  Every error of [ConfigureGeneral] is made by a field of the
    input and the answer of a collaborator: an override error by a locked
    key whose field is present, a database path error by a path with
    another extension than the three, the blobs path error by the storage
    type file system, an ffmpeg or ffprobe error by a path that is not
    empty and does not validate, the MD5 error by the algorithm MD5
    without the MD5 calculation turned on in the call, a pattern error by
    a pattern of the field that does not compile, a passed-on error by the
    collaborator's answer to the field, the write error or the change set
    by a write that failed. *)
Theorem errors_have_causes (w : World) (c : Config) (input : ConfigGeneralInput)
    (e : Error) :
  errorOf (outcomeOf (exec (ConfigureGeneral w input) (initState c))) = Some e ->
  errorCause w input e.
Proof.
  revert e.
  apply (triple_exec (fun _ => True) _ (fun _ _ => True)
           (fun o _ => forall e, errorOf o = Some e -> errorCause w input e));
    [| done].
  hoare_with cause_special cause_leaf.
Qed.

Lemma errors_have_causes_witness :
  let e := External FromStashBoxes "endpoint cannot be blank" in
  errorOf (outcomeOf (exec (ConfigureGeneral (sampleWorld [] false) inputInvalidStashBox)
                           (initState sampleConfig))) = Some e /\
  errorCause (sampleWorld [] false) inputInvalidStashBox e.
Proof.
  cbv zeta.
  assert (errorOf (outcomeOf (exec (ConfigureGeneral (sampleWorld [] false)
                                      inputInvalidStashBox)
                                   (initState sampleConfig)))
          = Some (External FromStashBoxes "endpoint cannot be blank")) as He.
  { vm_compute. reflexivity. }
  split; [exact He|].
  exact (errors_have_causes (sampleWorld [] false) sampleConfig inputInvalidStashBox _ He).
Defined.

(** ** The logs of [ConfigureScraping] and [ConfigureDlna] (lines 587-674) *)

(** A loop over patterns that all compile goes through. *)
Lemma pattern_loop_passes {R} w (stop : string -> ExtError -> M R unit)
    (patterns : list string) :
  firstInvalidPattern w patterns = None ->
  forall s,
    forEach patterns (fun r =>
      match regexpCompile w r with
      | Some e => stop r e
      | None => ret tt
      end) s
    = Next tt s.
Proof.
  induction patterns as [|r l IH]; intros Hfirst s; [done|].
  cbn in Hfirst. cbn [forEach]. unfold bind.
  destruct (regexpCompile w r) as [e'|] eqn:Hr; [done|]. cbn. by apply IH.
Qed.

(** X12.  When every tag exclusion pattern compiles, [ConfigureScraping]
    calls the setters of the fields that are present, in the order user
    agent, CDP path, tag exclusion patterns, certificate check; then, if
    the user agent or the CDP path is present, the refresh of the scraper
    cache; then the write, which is its last call.  The refresh comes
    before the write and does not depend on how the write goes. *)
Theorem ConfigureScraping_log (w : World) (c : Config) (input : ConfigScrapingInput) :
  firstInvalidPattern w (tagPatterns input) = None ->
  exists ok,
    callsOf (exec (ConfigureScraping w input) (initState c))
    = scrapingSetters input ++
      (if present (ScraperUserAgent input) || present (ScraperCDPPath input)
       then [EvRefreshScraperCache] else []) ++
      [EvWrite ok].
Proof.
  intros Hcompile.
  destruct input as [agent cdp patterns cert].
  unfold tagPatterns in Hcompile. cbn [ExcludeTagPatterns] in Hcompile.
  destruct agent, cdp, patterns as [l|], cert;
    cbv [callsOf exec ConfigureScraping scraping_userAgentAndCDP
         scraping_ExcludeTagPatterns scrapingSetters bind setConfigBool SetString
         SetBool SetInterface storeSet setLocal setFlag getFlag when commit write call
         emit ret Return returnScraping getLocalConfig trace cfg flags localConfig
         initState setterOf present Flag_eqb app snd orb
         ScraperUserAgent ScraperCDPPath ExcludeTagPatterns ScraperCertCheck];
    rewrite ?(pattern_loop_passes w _ _ Hcompile);
    cbv [trace cfg flags localConfig Flag_eqb app];
    match goal with
    | |- context [Write w ?c'] => destruct (Write w c') eqn:?
    end;
    try (destruct (GetAllowReadOnlyConfigFile w));
    first [by exists true | by exists false].
Qed.

Lemma ConfigureScraping_log_witness :
  firstInvalidPattern (sampleWorld [] true) (tagPatterns inputUserAgent) = None /\
  exists ok,
    callsOf (exec (ConfigureScraping (sampleWorld [] true) inputUserAgent)
                  (initState sampleConfig))
    = scrapingSetters inputUserAgent ++
      (if present (ScraperUserAgent inputUserAgent)
          || present (ScraperCDPPath inputUserAgent)
       then [EvRefreshScraperCache] else []) ++
      [EvWrite ok].
Proof.
  split; [reflexivity|].
  apply (ConfigureScraping_log (sampleWorld [] true) sampleConfig inputUserAgent).
  reflexivity.
Defined.

(** X13.  [ConfigureDlna] calls the setters of the fields that are
    present, in the order server name, whitelist, sort order, port,
    enabled, interfaces; then the write; and after a write that succeeded
    the refresh of the DLNA service if the field [Enabled] is present,
    whether or not it changes the stored value. *)
Theorem ConfigureDlna_log (w : World) (c : Config) (input : ConfigDLNAInput) :
  exists ok,
    callsOf (exec (ConfigureDlna w input) (initState c))
    = dlnaSetters input ++
      [EvWrite ok] ++
      (if ok && present (Enabled input) then [EvRefreshDLNA] else []).
Proof.
  destruct input as [name ips order port enabled interfaces].
  destruct name, ips, order, port, enabled, interfaces;
    cbv [callsOf exec ConfigureDlna dlnaSetters bind setConfigString setConfigInt
         setConfigInterface SetString SetBool SetInt SetInterface storeSet setLocal
         setFlag getFlag when commit write call emit ret Return returnDLNA
         getLocalConfig trace cfg flags localConfig initState setterOf present
         Flag_eqb app snd
         ServerName WhitelistedIPs VideoSortOrder Port Enabled Interfaces];
    match goal with
    | |- context [Write w ?c'] => destruct (Write w c') eqn:?
    end;
    try (destruct (GetAllowReadOnlyConfigFile w));
    first [by exists true | by exists false].
Qed.

(** ** Values are validated before they are set (lines 115-149, 151-326, 367-422) *)

Lemma overrideVerdict_None w key :
  overrideVerdict w key = None -> HasOverride w key = false.
Proof. unfold overrideVerdict. by destruct (HasOverride w key). Qed.

Lemma validateDirVerdict_None w key path optional :
  validateDirVerdict w key path optional = None -> dirAccepted w key path optional.
Proof.
  unfold validateDirVerdict, overrideVerdict, dirAccepted.
  destruct (HasOverride w key); [done|].
  destruct (negb optional || negb (path =? "")) eqn:Hguard.
  - destruct (EnsureDir w path); [done|]. intros _. split; [done | by right].
  - intros _. split; [done|]. left.
    apply orb_false_iff in Hguard as [Hoptional Hpath].
    apply negb_false_iff in Hoptional. apply negb_false_iff, String.eqb_eq in Hpath.
    done.
Qed.

(** [validateDir]: the directory is created only past the override check
    and the test of the empty path. *)
Lemma triple_bind_validateDir_guarded {R B} w (I : State -> Prop) (key value : string)
    (optional : bool) (k : option Error -> M R B) Q (E : Outcome R -> State -> Prop) :
  triple I (emit (EvHasOverride key)) (fun _ => I) E ->
  (HasOverride w key = false ->
   negb optional || negb (String.eqb value "") = true ->
   triple I (emit (EvEnsureDir value)) (fun _ => I) E) ->
  triple I (k (validateDirVerdict w key value optional)) Q E ->
  triple I (bind (validateDir w key value optional) k) Q E.
Proof.
  intros He Hd Hk s Hs. specialize (He s Hs).
  unfold validateDir, checkConfigOverride, hasOverride, ensureDir,
    validateDirVerdict, overrideVerdict, bind, emit, ret in *.
  cbn in *. destruct (HasOverride w key); [by apply Hk|].
  destruct (negb optional || negb (String.eqb value "")); [|by apply Hk].
  specialize (Hd eq_refl eq_refl _ He). cbn in Hd.
  destruct (EnsureDir w value); by apply Hk.
Qed.

(** A loop whose body goes on only for the elements that pass a test:
    past the loop, every element has passed. *)
Lemma triple_bind_forEach_passed {R A B} (I : State -> Prop) (P : A -> Prop)
    (l : list A) (body : A -> M R unit) (k : unit -> M R B) Q
    (E : Outcome R -> State -> Prop) :
  (forall x, x ∈ l -> triple I (body x) (fun _ s => I s /\ P x) E) ->
  (Forall P l -> triple I (k tt) Q E) ->
  triple I (bind (forEach l body) k) Q E.
Proof.
  intros Hbody Hk.
  assert (triple I (forEach l body) (fun _ s => I s /\ Forall P l) E) as Hloop.
  { clear Hk. induction l as [|x l IH]; cbn [forEach].
    - apply triple_ret. by split.
    - eapply triple_bind with (Q' := fun _ s => I s /\ P x).
      + apply Hbody. left.
      + intros _ s [Hs Hx].
        assert (triple I (forEach l body) (fun _ s => I s /\ Forall P l) E) as Hrest.
        { apply IH. intros y Hy. apply Hbody. by right. }
        specialize (Hrest s Hs). destruct (forEach l body s); [|done].
        destruct Hrest. split; [done | by constructor]. }
  eapply triple_bind; [exact Hloop|].
  intros [] s [Hs Hall]. by apply Hk.
Qed.

Ltac validated_leaf :=
  cbn;
  repeat match goal with
  | H : _ /\ _ |- _ => destruct H
  end;
  first
    [ assumption
    | split; assumption
    | apply Forall_app_2; [assumption|]; apply Forall_singleton; cbn;
      repeat match goal with
      | H : overrideVerdict _ _ = None |- _ => apply overrideVerdict_None in H
      | H : validateDirVerdict _ _ _ _ = None |- _ => apply validateDirVerdict_None in H
      end;
      lazymatch goal with
      | |- True => exact I
      | |- HasOverride _ _ = false /\ _ =>
          split; [assumption|]; eexists; split; [reflexivity|];
          unfold databaseExtensions;
          repeat match goal with
          | H : _ && _ = false |- _ => apply andb_false_iff in H; destruct H as [H|H]
          | H : negb (String.eqb _ _) = false |- _ =>
              apply negb_false_iff, String.eqb_eq in H; rewrite H
          end;
          rewrite !elem_of_cons; by auto
      | |- exists path, _ = VString path /\ dirAccepted _ _ _ _ =>
          eexists; split; [reflexivity | assumption]
      | |- exists path, _ = VString path /\ (path = "" \/ _) =>
          eexists; split; [reflexivity|];
          first
            [ right; assumption
            | left;
              match goal with
              | H : negb (String.eqb _ "") = false |- _ =>
                  by apply negb_false_iff, String.eqb_eq in H
              end ]
      | |- exists key optional, _ =>
          match goal with
          | Hov : HasOverride _ ?k = false,
            Hguard : negb ?o || negb (String.eqb _ "") = true |- _ =>
              exists k, o; split; [reflexivity|]; split; [cbn; eassumption|];
              split; [assumption|];
              apply orb_true_iff in Hguard; destruct Hguard as [Hguard|Hguard];
              [ left; by apply negb_true_iff in Hguard
              | right; by apply negb_true_iff, String.eqb_neq in Hguard ]
          end
      | |- exists x, _ = _ /\ _ => eexists; split; [reflexivity | assumption]
      end
    | done ].

Ltac validated_special_with leaf :=
  idtac;
  lazymatch goal with
  | |- triple _ (bind (validateDir _ _ _ _) _) _ _ =>
      apply triple_bind_validateDir_guarded;
      [ hoare_with ltac:(validated_special_with leaf) leaf
      | intros ? ?; hoare_with ltac:(validated_special_with leaf) leaf
      | hoare_with ltac:(validated_special_with leaf) leaf ]
  | |- triple _ (bind (forEach ?l _) _) _ _ =>
      match goal with
      | w : World |- _ =>
          apply triple_bind_forEach_passed with (P := fun r => regexpCompile w r = None)
      end;
      [ intros ? ?; hoare_with ltac:(validated_special_with leaf) leaf
      | intros ?; hoare_with ltac:(validated_special_with leaf) leaf ]
  | |- triple _ (bind (if ?b then match ?x with Some _ => _ | None => _ end
                       else _) _) _ _ =>
      destruct b eqn:?;
      [ destruct x eqn:?;
        [ eapply triple_bind with (Q' := fun _ _ => False);
          [ hoare_with ltac:(validated_special_with leaf) leaf
          | intros ?; apply triple_false ]
        | hoare_with ltac:(validated_special_with leaf) leaf ]
      | hoare_with ltac:(validated_special_with leaf) leaf ]
  end.

Ltac validated_special := validated_special_with validated_leaf.

Lemma ConfigureGeneral_validated w input :
  triple (fun s => Forall (callValidated w input) (trace s)) (ConfigureGeneral w input)
    (fun _ _ => True) (fun _ s => Forall (callValidated w input) (trace s)).
Proof. hoare_with validated_special validated_leaf. Qed.

(** X14.  [ConfigureGeneral] sets a validated key only to a value that
    has passed the validation of its field, and creates a directory only
    for a directory field that got past the override check: the database
    path and the directory paths only when the key is not locked, a
    directory path only when the directory is there or was created (or
    the path is empty and the field takes an empty path), an ffmpeg or
    ffprobe path only when it is empty or validates, the naming algorithm
    only when the repository accepts it, the cover regex and the exclusion
    patterns only when they compile, the stash boxes only when they
    validate. *)
Theorem validated_before_applied (w : World) (c : Config) (input : ConfigGeneralInput)
    (e : Event) :
  e ∈ callsOf (exec (ConfigureGeneral w input) (initState c)) ->
  callValidated w input e.
Proof.
  intros Hin.
  pose proof (triple_exec _ _ _ _ (initState c) (ConfigureGeneral_validated w input)
                (Forall_nil_2 _)) as Hall.
  cbn beta in Hall. rewrite Forall_forall in Hall. by apply Hall.
Qed.

Lemma validated_before_applied_witness :
  let e := EvSet config.Database (VString "other.db") in
  e ∈ callsOf (exec (ConfigureGeneral (sampleWorld [] false) inputDatabasePath)
                    (initState sampleConfig)) /\
  callValidated (sampleWorld [] false) inputDatabasePath e.
Proof.
  cbv zeta.
  assert (EvSet config.Database (VString "other.db")
            ∈ callsOf (exec (ConfigureGeneral (sampleWorld [] false) inputDatabasePath)
                            (initState sampleConfig))) as Hin.
  { vm_compute. repeat constructor. }
  split; [exact Hin|].
  exact (validated_before_applied (sampleWorld [] false) sampleConfig inputDatabasePath
           _ Hin).
Defined.

(** ** The refresh hooks that are due are called (lines 171-267, 451-499) *)

(** The hook is somewhere in a log built by appending one event at a time. *)
Ltac find_event :=
  repeat (apply elem_of_app;
          first [ right; left | left ]).

(** The end of the call when a flag is up: after a write that succeeded,
    the hook of the flag is called. *)
Lemma general_commit_raises w f hook Q :
  raises f hook -> triple (flagUp f) (general_commit w) Q (raisedExit hook).
Proof.
  intros Hraises s [Hflag Hlog].
  unfold general_commit, commit, general_refresh, write, returnGeneral,
    makeConfigGeneralResult, getLocalConfig, getFlag, setFlag, when, bind, call,
    emit, ret, Return, raisedExit.
  cbn. destruct (Write w (cfg s)) as [e|] eqn:Hwrite; cbn.
  - destruct (GetAllowReadOnlyConfigFile w); cbn; left;
      (apply Forall_app_2; [done | by repeat constructor]).
  - destruct Hraises;
      repeat match goal with
      | |- context [flags s ?g] => destruct (flags s g); cbn
      end;
      try discriminate Hflag; right; find_event.
Qed.

(** After a write that succeeded the configuration is refreshed. *)
Lemma general_commit_refreshes_config w Q :
  triple notWritten (general_commit w) Q (raisedExit EvRefreshConfig).
Proof.
  intros s Hlog.
  unfold general_commit, commit, general_refresh, write, returnGeneral,
    makeConfigGeneralResult, getLocalConfig, getFlag, setFlag, when, bind, call,
    emit, ret, Return, raisedExit.
  cbn. destruct (Write w (cfg s)) as [e|] eqn:Hwrite; cbn.
  - destruct (GetAllowReadOnlyConfigFile w); cbn; left;
      (apply Forall_app_2; [done | by repeat constructor]).
  - repeat match goal with
    | |- context [flags s ?g] => destruct (flags s g); cbn
    end;
    right; find_event.
Qed.

Ltac raise_leaf :=
  unfold binaryUntouched, notWritten, flagUp, raisedExit in *; cbn; simplify_eq;
  repeat match goal with
  | H : _ /\ _ |- _ => destruct H
  | H : negb (String.eqb _ _) = false |- _ =>
      apply negb_false_iff, String.eqb_eq in H; simplify_eq;
      first [ congruence
            | exfalso; match goal with Hne : _ <> _ |- _ => by apply Hne end ]
  | H : negb (BlobsStorageType_eqb ?a ?b) = false |- _ =>
      destruct a, b; cbn in H;
      first [ discriminate | congruence
            | exfalso; match goal with Hne : _ <> _ |- _ => by apply Hne end ]
  end;
  try done; try congruence;
  repeat match goal with
  | |- _ => assumption
  | |- _ /\ _ => split
  | |- _ = true => reflexivity
  | |- <[_:=_]> _ !! _ = _ => rewrite lookup_insert_ne by done
  | |- Forall _ (_ ++ _) => apply Forall_app_2; [| by repeat constructor]
  | |- Forall _ _ \/ _ => left
  end.

(** The two flags of a scrapers or plugins path go up together. *)
Ltac raise_pair :=
  idtac;
  lazymatch goal with
  | |- triple _ (bind (setFlag _ true) (fun _ => setFlag _ true)) _ _ =>
      let s := fresh "s" in
      let Hs := fresh "Hs" in
      intros s Hs; cbv [bind setFlag]; raise_leaf
  end.

(** At the comparison with the stored value: the branch that sets the
    field is taken. *)
Ltac raise_special c key :=
  idtac;
  lazymatch goal with
  | |- triple (binaryUntouched c key) (bind (call ?g) _) _ _ =>
      apply triple_bind_call_known with (v := g c);
      [ solve [ intros ? [Hv _]; unfold g, getString; by rewrite Hv ]
      | apply triple_pre with (P' := notWritten);
        [ by intros ? [_ ?] | hoare_with raise_pair raise_leaf ] ]
  end.

Ltac raise_commit :=
  idtac;
  lazymatch goal with
  | |- triple (flagUp _) (general_commit _) _ _ =>
      apply general_commit_raises; constructor
  | |- triple notWritten (general_commit _) _ _ =>
      apply general_commit_refreshes_config
  end.

(** Through the fields of the call up to the one that puts the flag up,
    and from there to the end. *)
Ltac raise_walk f block :=
  lazymatch goal with
  | |- triple _ (bind _ _) _ _ =>
      first
      [ eapply triple_bind with (Q' := fun _ => flagUp f);
        [ solve [block] | intros ?; hoare_with raise_commit raise_leaf ]
      | apply triple_seq; [ hoare raise_leaf | intros ?; raise_walk f block ] ]
  end.

Lemma raised_by_path w c input key f hook :
  flaggedBy key f ->
  changesPath c input key ->
  raises f hook ->
  triple (binaryUntouched c key) (ConfigureGeneral w input)
    (fun _ _ => True) (raisedExit hook).
Proof.
  intros Hkey (path & Hfield & Hne) Hraises. unfold ConfigureGeneral.
  destruct Hkey; cbn in Hfield; inversion Hraises; subst;
    match goal with
    | |- triple (binaryUntouched _ ?key) _ _ (raisedExit _) =>
        match goal with
        | Hr : raises ?f _ |- _ =>
            raise_walk f ltac:(hoare_with ltac:(raise_special c key) raise_leaf)
        end
    end.
Qed.

Lemma raised_by_ffmpeg w c input hook :
  changesFfmpeg c input ->
  raises refreshFfmpeg hook ->
  triple (binaryUntouched c config.FFMpegPath) (ConfigureGeneral w input)
    (fun _ _ => True) (raisedExit hook).
Proof.
  intros (path & Hfield & Hne) Hraises. unfold ConfigureGeneral.
  inversion Hraises; subst;
    raise_walk refreshFfmpeg
      ltac:(hoare_with ltac:(raise_special c config.FFMpegPath) raise_leaf).
Qed.

Lemma raised_by_ffprobe w c input hook :
  changesFfprobe c input ->
  raises refreshFfmpeg hook ->
  triple (binaryUntouched c config.FFProbePath) (ConfigureGeneral w input)
    (fun _ _ => True) (raisedExit hook).
Proof.
  intros (path & Hfield & Hne) Hraises. unfold ConfigureGeneral.
  inversion Hraises; subst;
    raise_walk refreshFfmpeg
      ltac:(hoare_with ltac:(raise_special c config.FFProbePath) raise_leaf).
Qed.

Lemma raised_by_storage w c input :
  changesBlobsStorage c input ->
  triple (binaryUntouched c config.BlobsStorage) (ConfigureGeneral w input)
    (fun _ _ => True) (raisedExit EvSetBlobStoreOptions).
Proof.
  intros (storage & Hfield & Hne). unfold ConfigureGeneral.
  raise_walk refreshBlobStorage
    ltac:(hoare_with ltac:(raise_special c config.BlobsStorage) raise_leaf).
Qed.

Lemma raised_by_scraper_sources w input :
  ScraperPackageSources input <> None ->
  triple notWritten (ConfigureGeneral w input)
    (fun _ _ => True) (raisedExit EvRefreshScraperSourceManager).
Proof.
  intros Hsources. unfold ConfigureGeneral.
  raise_walk refreshScraperSource ltac:(hoare raise_leaf).
Qed.

Lemma raised_by_plugin_sources w input :
  PluginPackageSources input <> None ->
  triple notWritten (ConfigureGeneral w input)
    (fun _ _ => True) (raisedExit EvRefreshPluginSourceManager).
Proof.
  intros Hsources. unfold ConfigureGeneral.
  raise_walk refreshPluginSource ltac:(hoare raise_leaf).
Qed.

Lemma config_is_refreshed w input :
  triple notWritten (ConfigureGeneral w input)
    (fun _ _ => True) (raisedExit EvRefreshConfig).
Proof. hoare_with raise_commit raise_leaf. Qed.

Lemma raised_and_written hook calls :
  Forall (fun e => isWriteOk e = false) calls \/ hook ∈ calls ->
  EvWrite true ∈ calls -> hook ∈ calls.
Proof.
  intros [Hnone|Hin] Hcommit; [|done].
  rewrite Forall_forall in Hnone. by specialize (Hnone _ Hcommit).
Qed.

Lemma binaryUntouched_init c key : binaryUntouched c key (initState c).
Proof. split; [done | constructor]. Qed.

(** X15.  After a write that succeeded, [ConfigureGeneral] calls every
    refresh hook that the input made due: the refresh of the
    configuration always, and each other hook whenever one of the fields
    that may cause it is present and differs from the stored value or,
    for the source managers, the list of package sources is present. *)
Theorem due_hooks_are_called (w : World) (c : Config) (input : ConfigGeneralInput)
    (e : Event) :
  isRefresh e = true ->
  hookCause c input e ->
  let calls := callsOf (exec (ConfigureGeneral w input) (initState c)) in
  EvWrite true ∈ calls ->
  e ∈ calls.
Proof.
  intros Hrefresh Hcause calls. apply raised_and_written.
  destruct e; try discriminate Hrefresh; cbn in Hcause.
  - apply (triple_exec _ _ _ _ (initState c) (config_is_refreshed w input)).
    constructor.
  - apply (triple_exec _ _ _ _ (initState c)
             (raised_by_path w c input _ _ _ flagged_scrapers_cache Hcause
                raises_scraper_cache)).
    apply binaryUntouched_init.
  - apply (triple_exec _ _ _ _ (initState c)
             (raised_by_path w c input _ _ _ flagged_plugins_cache Hcause
                raises_plugin_cache)).
    apply binaryUntouched_init.
  - destruct Hcause as [Hcause|Hcause].
    + apply (triple_exec _ _ _ _ (initState c)
               (raised_by_ffmpeg w c input _ Hcause raises_ffmpeg)).
      apply binaryUntouched_init.
    + apply (triple_exec _ _ _ _ (initState c)
               (raised_by_ffprobe w c input _ Hcause raises_ffmpeg)).
      apply binaryUntouched_init.
  - destruct Hcause as [Hcause|[Hcause|Hcause]].
    + apply (triple_exec _ _ _ _ (initState c)
               (raised_by_path w c input _ _ _ flagged_cache Hcause
                  raises_stream_manager)).
      apply binaryUntouched_init.
    + apply (triple_exec _ _ _ _ (initState c)
               (raised_by_ffmpeg w c input _ Hcause raises_ffmpeg_stream)).
      apply binaryUntouched_init.
    + apply (triple_exec _ _ _ _ (initState c)
               (raised_by_ffprobe w c input _ Hcause raises_ffmpeg_stream)).
      apply binaryUntouched_init.
  - destruct Hcause as [Hcause|Hcause].
    + apply (triple_exec _ _ _ _ (initState c)
               (raised_by_path w c input _ _ _ flagged_blobs Hcause
                  raises_blob_storage)).
      apply binaryUntouched_init.
    + apply (triple_exec _ _ _ _ (initState c) (raised_by_storage w c input Hcause)).
      apply binaryUntouched_init.
  - destruct Hcause as [Hcause|Hcause].
    + apply (triple_exec _ _ _ _ (initState c)
               (raised_by_path w c input _ _ _ flagged_scrapers_source Hcause
                  raises_scraper_source)).
      apply binaryUntouched_init.
    + apply (triple_exec _ _ _ _ (initState c)
               (raised_by_scraper_sources w input Hcause)).
      constructor.
  - destruct Hcause as [Hcause|Hcause].
    + apply (triple_exec _ _ _ _ (initState c)
               (raised_by_path w c input _ _ _ flagged_plugins_source Hcause
                  raises_plugin_source)).
      apply binaryUntouched_init.
    + apply (triple_exec _ _ _ _ (initState c)
               (raised_by_plugin_sources w input Hcause)).
      constructor.
  - destruct Hcause.
Qed.

Lemma due_hooks_are_called_witness :
  let input := storageInput (Some "/scrapers") None None None None None in
  let calls := callsOf (exec (ConfigureGeneral (sampleWorld [] false) input)
                             (initState sampleConfig)) in
  (isRefresh EvRefreshScraperSourceManager = true /\
   hookCause sampleConfig input EvRefreshScraperSourceManager /\
   EvWrite true ∈ calls /\
   EvRefreshScraperSourceManager ∈ calls).
Proof.
  cbv zeta.
  assert (hookCause sampleConfig (storageInput (Some "/scrapers") None None None None None)
            EvRefreshScraperSourceManager) as Hcause.
  { left. exists "/scrapers". split; [reflexivity|]. intros H. vm_compute in H.
    discriminate. }
  assert (EvWrite true
            ∈ callsOf (exec (ConfigureGeneral (sampleWorld [] false)
                               (storageInput (Some "/scrapers") None None None None None))
                            (initState sampleConfig))) as Hcommit.
  { vm_compute. repeat constructor. }
  split; [reflexivity|]. split; [exact Hcause|]. split; [exact Hcommit|].
  exact (due_hooks_are_called (sampleWorld [] false) sampleConfig _
           EvRefreshScraperSourceManager eq_refl Hcause Hcommit).
Defined.

(** ** The password (lines 338-353) *)









(** X17.  When the password of the input is absent or equal to the stored
    hash, [ConfigureGeneral] does not call [SetPassword]. *)
Theorem unchanged_password_is_skipped (w : World) (c : Config)
    (input : ConfigGeneralInput) :
  (forall password, Password input = Some password -> password = GetPasswordHash c) ->
  Forall (fun e => isSetPassword e = false)
         (callsOf (exec (ConfigureGeneral w input) (initState c))).
Proof.
  intros Hun.
  assert (triple (quiet c [config.Password] [] isSetPassword) (ConfigureGeneral w input)
            (fun _ _ => True) (fun _ s => quiet c [config.Password] [] isSetPassword s))
    as Hquiet.
  { hoare_with ltac:(quiet_special c) quiet_leaf. }
  by destruct (triple_exec _ _ _ _ (initState c) Hquiet (quiet_init c _ _ _))
    as (_ & _ & Hlog).
Qed.

Lemma unchanged_password_is_skipped_witness :
  let input := generalInput None None None None None None (Some "") None None None in
  (forall password, Password input = Some password -> password = GetPasswordHash sampleConfig) /\
  Forall (fun e => isSetPassword e = false)
         (callsOf (exec (ConfigureGeneral (sampleWorld [] false) input)
                        (initState sampleConfig))).
Proof.
  cbv zeta.
  assert (forall password,
            Password (generalInput None None None None None None (Some "") None None None)
            = Some password ->
            password = GetPasswordHash sampleConfig) as Hun.
  { intros password [= <-]. reflexivity. }
  split; [exact Hun|].
  exact (unchanged_password_is_skipped (sampleWorld [] false) sampleConfig _ Hun).
Defined.

(** ** Only the fields of the input are set *)

(** The setter is somewhere among those of the fields. *)
Ltac find_setter :=
  first
    [ by left
    | apply elem_of_app; first [ left; find_setter | right; find_setter ] ].

Ltac requested_leaf :=
  cbn;
  first
    [ assumption
    | apply Forall_app_2; [assumption|]; apply Forall_singleton;
      unfold requested;
      first
        [ exact I
        | unfold generalSetters, interfaceSetters, defaultsSetters, dlnaSetters,
            scrapingSetters;
          repeat (match goal with
                  | H : _ = Some _ |- _ => rewrite H
                  end; cbn [setterOf]);
          find_setter ]
    | done ].

Lemma handler_only_setters {R} (m : M R Empty_set) allowed c :
  triple (fun s => Forall (requested allowed) (trace s)) m (fun _ _ => True)
    (fun _ s => Forall (requested allowed) (trace s)) ->
  onlySetters allowed (callsOf (exec m (initState c))).
Proof.
  intros Hm key v Hin.
  pose proof (triple_exec _ _ _ _ (initState c) Hm (Forall_nil_2 _)) as Hall.
  cbn beta in Hall. rewrite Forall_forall in Hall. by apply (Hall _ Hin).
Qed.

(** X18.  A handler calls a typed setter only for a field that is present
    in its input, on the key of the field and with the value of the field:
    every typed-setter call of [ConfigureGeneral], [ConfigureInterface],
    [ConfigureDefaults], [ConfigureDlna] and [ConfigureScraping] is among
    those that the fields of the input ask for.  A key whose field is
    absent is never set. *)
Theorem only_requested_settings (w : World) (c : Config) :
  (forall input,
     onlySetters (generalSetters input)
       (callsOf (exec (ConfigureGeneral w input) (initState c)))) /\
  (forall input,
     onlySetters (interfaceSetters input)
       (callsOf (exec (ConfigureInterface w input) (initState c)))) /\
  (forall input,
     onlySetters (defaultsSetters input)
       (callsOf (exec (ConfigureDefaults w input) (initState c)))) /\
  (forall input,
     onlySetters (dlnaSetters input)
       (callsOf (exec (ConfigureDlna w input) (initState c)))) /\
  (forall input,
     onlySetters (scrapingSetters input)
       (callsOf (exec (ConfigureScraping w input) (initState c)))).
Proof.
  repeat split; intros input; apply handler_only_setters; hoare requested_leaf.
Qed.

(** ** The fields of the input are applied before the write *)

Ltac applied_goal :=
  repeat match goal with
  | |- _ => assumption
  | |- _ /\ _ => split
  | |- <[_:=_]> _ !! _ = _ => rewrite lookup_insert_ne by done
  | |- Forall _ (_ ++ _) => apply Forall_app_2; [| by repeat constructor]
  | |- _ ∈ _ ++ _ =>
      repeat (apply elem_of_app; first [ right; left | left ]); try assumption
  end.

Ltac applied_leaf :=
  unfold unset, appliedExit, unwrittenLog in *; cbn; simplify_eq;
  repeat match goal with
  | H : _ /\ _ |- _ => destruct H
  | H : negb (String.eqb _ _) = false |- _ =>
      apply negb_false_iff, String.eqb_eq in H;
      repeat match goal with
      | Hne : String.eqb _ _ = false |- _ => apply String.eqb_neq in Hne
      end;
      congruence
  | H : negb (BlobsStorageType_eqb ?a ?b) = false,
    Hne : BlobsStorageType_eqb ?a ?b = false |- _ =>
      rewrite Hne in H; discriminate H
  | H : negb (HashAlgorithm_eqb ?a ?b) = false,
    Hne : HashAlgorithm_eqb ?a ?b = false |- _ =>
      rewrite Hne in H; discriminate H
  end;
  try done;
  first [ left; solve [applied_goal] | right; solve [applied_goal] | applied_goal ].

(** The tail of a field that sets the key and goes on: one step. *)
Ltac applied_tail :=
  idtac;
  lazymatch goal with
  | |- triple _ (bind (SetString _ _) _) _ _ =>
      let s := fresh "s" in
      let Hs := fresh "Hs" in
      intros s Hs;
      cbv [bind SetString storeSet setLocal setFlag emit logInfo deref ret];
      cbn; repeat (case_match; simplify_eq; cbn); applied_leaf
  | |- triple _ (bind (SetInterface _ _) _) _ _ =>
      let s := fresh "s" in
      let Hs := fresh "Hs" in
      intros s Hs;
      cbv [bind SetInterface storeSet setLocal setFlag emit ret]; applied_leaf
  | |- triple _ (bind (setLocal _ _) (fun _ => _)) _ _ =>
      let s := fresh "s" in
      let Hs := fresh "Hs" in
      intros s Hs;
      cbv [bind SetString SetBool SetInt SetFloat storeSet setLocal]; applied_leaf
  end.

Ltac applied_special c key :=
  idtac;
  lazymatch goal with
  | |- triple (unset c key) (bind (call ?g) _) _ _ =>
      apply triple_bind_call_known with (v := g c);
      [ solve [ intros ? [Hv _]; unfold g, getString; by rewrite Hv ]
      | hoare_with ltac:(first [applied_tail | applied_special c key]) applied_leaf ]
  | _ => applied_tail
  end.

(** Through the fields of the call up to the one that names the key and
    calls the setter, and from there to the end. *)
Ltac names_key key m :=
  let m' := eval cbv delta
    [general_Stashes general_DatabasePath general_BackupDirectoryPath
     general_GeneratedPath general_ScrapersPath general_PluginsPath
     general_MetadataPath general_CachePath general_BlobsPath general_BlobsStorage
     general_FfmpegPath general_FfprobePath general_VideoFileNamingAlgorithm
     general_GalleryCoverRegex general_Username general_Password general_LogLevel
     general_CustomPerformerImageLocation general_StashBoxes] in m in
  lazymatch m' with
  | context [key] => idtac
  end.

(** Within a field: the setter of the key may come in the middle of a
    sequence of setters. *)
Ltac applied_in c key :=
  first
  [ solve [hoare_with ltac:(applied_special c key) applied_leaf]
  | lazymatch goal with
    | |- triple _ (bind ?m _) _ (appliedExit ?e) =>
        first
        [ names_key key m;
          eapply triple_bind with (Q' := fun (_ : unit) (s : State) => e ∈ trace s);
          [ applied_in c key | intros ?; hoare applied_leaf ]
        | apply triple_seq; [ hoare applied_leaf | intros ?; applied_in c key ] ]
    | |- triple _ (match ?x with _ => _ end) _ _ =>
        destruct x eqn:?; applied_in c key
    end ].

Ltac applied_walk c key :=
  lazymatch goal with
  | |- triple _ (bind ?m _) _ (appliedExit ?e) =>
      first
      [ names_key key m;
        eapply triple_bind with (Q' := fun (_ : unit) (s : State) => e ∈ trace s);
        [ solve [applied_in c key] | intros ?; hoare applied_leaf ]
      | apply triple_seq; [ hoare applied_leaf | intros ?; applied_walk c key ] ]
  end.

(** A setter that is due: from the list to the field, and through the
    handler with the key of the field. *)
Ltac due_case c handler Hin :=
  unfold setterOf, changedSetter in Hin;
  repeat match type of Hin with
  | context [match ?x with _ => _ end] => destruct x eqn:?
  end;
  first
    [ by apply elem_of_nil in Hin
    | apply list_elem_of_singleton in Hin; subst;
      lazymatch goal with
      | |- appliedExit (EvSet ?key ?v) _ _ =>
          apply (triple_exec (unset c key) _ (fun _ _ => True)
                   (appliedExit (EvSet key v)) (initState c));
          [ unfold handler; applied_walk c key | split; [done | apply Forall_nil_2] ]
      end ].

Lemma applied_and_written e calls ok :
  unwrittenLog calls \/ e ∈ calls -> EvWrite ok ∈ calls -> e ∈ calls.
Proof.
  intros [Hnone|Hin] Hwrite; [|done].
  unfold unwrittenLog in Hnone. rewrite Forall_forall in Hnone.
  by specialize (Hnone _ Hwrite).
Qed.

(** From the list of setters to the one that is meant. *)
Ltac due_split Hin :=
  repeat first
    [ apply elem_of_app in Hin as [Hin|Hin]
    | match type of Hin with
      | _ ∈ match ?x with _ => _ end => destruct x eqn:?
      end ].

Lemma ConfigureGeneral_applies w c input e :
  e ∈ dueSetters c input ->
  let r := exec (ConfigureGeneral w input) (initState c) in
  appliedExit e (outcomeOf r) (finalState r).
Proof.
  intros Hin r. subst r. unfold dueSetters in Hin.
  due_split Hin; due_case c ConfigureGeneral Hin.
Qed.

Lemma ConfigureInterface_applies w c input e :
  e ∈ interfaceSetters input ->
  let r := exec (ConfigureInterface w input) (initState c) in
  appliedExit e (outcomeOf r) (finalState r).
Proof.
  intros Hin r. subst r. unfold interfaceSetters in Hin.
  due_split Hin; due_case c ConfigureInterface Hin.
Qed.

Lemma ConfigureDefaults_applies w c input e :
  e ∈ defaultsSetters input ->
  let r := exec (ConfigureDefaults w input) (initState c) in
  appliedExit e (outcomeOf r) (finalState r).
Proof.
  intros Hin r. subst r. unfold defaultsSetters in Hin.
  due_split Hin; due_case c ConfigureDefaults Hin.
Qed.

(** X19.  By the time a handler calls the write, it has called the setter
    of every field of its input that is due: in [ConfigureGeneral] the
    fields that are present and, where the field is compared with the
    store, differ from the stored value; in [ConfigureInterface] and
    [ConfigureDefaults] every field that is present.  No field is dropped
    on the way to the write. *)
Theorem present_fields_are_applied (w : World) (c : Config) :
  (forall input e ok,
     e ∈ dueSetters c input ->
     EvWrite ok ∈ callsOf (exec (ConfigureGeneral w input) (initState c)) ->
     e ∈ callsOf (exec (ConfigureGeneral w input) (initState c))) /\
  (forall input e ok,
     e ∈ interfaceSetters input ->
     EvWrite ok ∈ callsOf (exec (ConfigureInterface w input) (initState c)) ->
     e ∈ callsOf (exec (ConfigureInterface w input) (initState c))) /\
  (forall input e ok,
     e ∈ defaultsSetters input ->
     EvWrite ok ∈ callsOf (exec (ConfigureDefaults w input) (initState c)) ->
     e ∈ callsOf (exec (ConfigureDefaults w input) (initState c))).
Proof.
  repeat split; intros input e ok Hin; apply applied_and_written.
  - by apply ConfigureGeneral_applies.
  - by apply ConfigureInterface_applies.
  - by apply ConfigureDefaults_applies.
Qed.

Lemma present_fields_are_applied_witness :
  let e := EvSet config.Database (VString "other.db") in
  let calls := callsOf (exec (ConfigureGeneral (sampleWorld [] false) inputDatabasePath)
                             (initState sampleConfig)) in
  (e ∈ dueSetters sampleConfig inputDatabasePath /\
   EvWrite true ∈ calls /\
   e ∈ calls).
Proof.
  cbv zeta.
  assert (EvSet config.Database (VString "other.db")
            ∈ dueSetters sampleConfig inputDatabasePath) as Hdue.
  { vm_compute. repeat constructor. }
  assert (EvWrite true
            ∈ callsOf (exec (ConfigureGeneral (sampleWorld [] false) inputDatabasePath)
                            (initState sampleConfig))) as Hwrite.
  { vm_compute. repeat constructor. }
  split; [exact Hdue|]. split; [exact Hwrite|].
  exact (proj1 (present_fields_are_applied (sampleWorld [] false) sampleConfig)
           inputDatabasePath _ true Hdue Hwrite).
Defined.
